(** * Rstat probe relay: the [/api/check] handler of [server.js] (V2.3) and of
    the single-file monitor (V3.0), embedded and verified.

    The handler is a sequence of awaited calls inside one [try]/[catch]; it is
    embedded as a computation in a small state-and-exception monad over a log
    of the outbound calls and delays.  The values it manipulates are the JSON
    documents Express and axios hand to it, so the first part of the file is a
    model of the ECMAScript operations the handler applies to them
    (truthiness, [===], property reads, template-literal conversion,
    [parseInt], [Math.round], number arithmetic on binary64). *)

From Stdlib Require Import ZArith QArith Qround List String Ascii Bool Lia.
From Stdlib Require Import PrimFloat SpecFloat FloatOps FloatAxioms.
From Stdlib Require Import DecimalString DecimalZ.
Import ListNotations.

Local Open Scope string_scope.

(** ** ECMAScript values and built-ins *)

Module JS.

(** A string stands for a sequence of code units; [ascii] covers the code
    units 0..255, which is the range this model represents. *)

(** What [JSON.parse] can produce, plus [undefined] (the value of a missing
    property or of a missing array element). *)
#[warnings="-register-all"]
Inductive value : Type :=
| VUndefined
| VNull
| VBool (b : bool)
| VNum (x : float)
| VStr (s : string)
| VArr (xs : list value)
| VObj (props : list (string * value)).

(** An [Error] object as the handler's [catch] reads it: [error.code]
    (absent on a [TypeError]) and [error.message]. *)
Record error : Type := mkError { code : option string; message : string }.

Inductive completion (A : Type) : Type :=
| Normal (a : A)
| Throw (e : error).
Arguments Normal {A} a.
Arguments Throw {A} e.

Definition TypeError (msg : string) : error := mkError None msg.

(** *** Numbers *)

Definition float_of_Z (z : Z) : float :=
  SF2Prim (binary_normalize prec emax z 0 false).

(** The positive rational [q] rounded to the nearest binary64 (ties to even).
    The quotient is taken with more than 60 significant bits and its inexact
    part is kept as a sticky lowest bit, so the final rounding is the rounding
    of [q] itself. *)
Definition float_of_Q (q : Q) : float :=
  let n := Qnum q in
  let d := Zpos (Qden q) in
  if (n <=? 0)%Z then zero
  else
    let s := (64 + Z.log2 d - Z.log2 n)%Z in
    let n' := if (0 <=? s)%Z then (n * 2 ^ s)%Z else n in
    let d' := if (0 <=? s)%Z then d else (d * 2 ^ (- s))%Z in
    let fl := (n' / d')%Z in
    let sticky := if (n' mod d' =? 0)%Z then 0%Z else 1%Z in
    SF2Prim (binary_normalize prec emax (2 * fl + sticky) (- s - 1) false).

(** The exact value of a finite positive float [m * 2^e]. *)
Definition Q_of_finite (m : positive) (e : Z) : Q :=
  (inject_Z (Zpos m) * Qpower 2 e)%Q.

Definition pow10 (j : Z) : Q := Qpower 10 j.

Definition decimal (n : Z) : string :=
  NilZero.string_of_uint (N.to_uint (Z.to_N n)).

(** [10^(n-1) <= x < 10^n], found from the binary exponent. *)
Definition decimal_exponent (x : Q) : Z :=
  let g := ((Z.log2 (Qnum x) - Z.log2 (Zpos (Qden x))) * 1233 / 4096)%Z in
  let g := if Qle_bool (pow10 g) x then g else (g - 1)%Z in
  let g := if Qle_bool (pow10 (g + 1)) x then (g + 1)%Z else g in
  let g := if Qle_bool (pow10 (g + 1)) x then (g + 1)%Z else g in
  (g + 1)%Z.

Definition Qlt_bool (a b : Q) : bool := negb (Qle_bool b a).

Definition Qabs_diff (a b : Q) : Q :=
  if Qle_bool a b then (b - a)%Q else (a - b)%Q.

(** Number::toString, step 5: the least [k] for which some [s] of [k] digits
    has [s * 10^(n-k)] rounding back to the float; [lo] and [hi] bound the
    reals that round to it, and [closed] says whether the bounds belong. *)
Fixpoint shortest (fuel : nat) (k : Z) (x lo hi : Q) (closed : bool) (n : Z)
  : Z * Z * Z :=
  let q := (n - k)%Z in
  let s1 := Qfloor (x * pow10 (- q))%Q in
  let s2 := (s1 + 1)%Z in
  let val s := (inject_Z s * pow10 q)%Q in
  let inside s :=
    if closed then Qle_bool lo (val s) && Qle_bool (val s) hi
    else Qlt_bool lo (val s) && Qlt_bool (val s) hi in
  let fix_up s := if (s =? 10 ^ k)%Z then ((10 ^ (k - 1))%Z, k, (n + 1)%Z)
                  else (s, k, n) in
  match fuel with
  | O => (s1, k, n)
  | S fuel' =>
      match inside s1, inside s2 with
      | true, false => (s1, k, n)
      | false, true => fix_up s2
      | true, true =>
          let d1 := Qabs_diff (val s1) x in
          let d2 := Qabs_diff (val s2) x in
          if Qlt_bool d1 d2 then (s1, k, n)
          else if Qlt_bool d2 d1 then fix_up s2
          else if Z.even s1 then (s1, k, n) else fix_up s2
      | false, false => shortest fuel' (k + 1)%Z x lo hi closed n
      end
  end.

Definition zeros (n : Z) : string :=
  string_of_list_ascii (repeat "0"%char (Z.to_nat n)).

Definition exponent_part (n : Z) : string :=
  "e" ++ (if (0 <=? n - 1)%Z then "+" else "-") ++ decimal (Z.abs (n - 1)).

(** Number::toString for a finite positive float [m * 2^e]. *)
Definition positive_to_string (m : positive) (e : Z) : string :=
  let x := Q_of_finite m e in
  let m' := Zpos m in
  let u := Qpower 2 (e - 2) in
  let hi := (inject_Z (4 * m' + 2) * u)%Q in
  let lo := if (m' =? 2 ^ 52)%Z && (-1074 <? e)%Z
            then (inject_Z (4 * m' - 1) * u)%Q
            else (inject_Z (4 * m' - 2) * u)%Q in
  let '(s, k, n) := shortest 17 1 x lo hi (Z.even m') (decimal_exponent x) in
  let ds := decimal s in
  if (k <=? n)%Z && (n <=? 21)%Z then ds ++ zeros (n - k)
  else if (0 <? n)%Z && (n <=? 21)%Z then
    substring 0 (Z.to_nat n) ds ++ "." ++ substring (Z.to_nat n) (Z.to_nat (k - n)) ds
  else if (-6 <? n)%Z && (n <=? 0)%Z then "0." ++ zeros (- n) ++ ds
  else if (k =? 1)%Z then ds ++ exponent_part n
  else substring 0 1 ds ++ "." ++ substring 1 (Z.to_nat (k - 1)) ds ++ exponent_part n.

Definition Number_toString (x : float) : string :=
  match Prim2SF x with
  | S754_nan => "NaN"
  | S754_zero _ => "0"
  | S754_infinity false => "Infinity"
  | S754_infinity true => "-Infinity"
  | S754_finite false m e => positive_to_string m e
  | S754_finite true m e => "-" ++ positive_to_string m e
  end.

(** *** Strings as numbers *)

(** StrWhiteSpaceChar, within the code units this model represents: TAB, LF,
    VT, FF, CR, SP and NBSP. *)
Definition is_white (c : ascii) : bool :=
  let n := nat_of_ascii c in
  ((9 <=? n) && (n <=? 13) || (n =? 32) || (n =? 160))%nat.

Fixpoint trim_start (s : list ascii) : list ascii :=
  match s with
  | c :: s' => if is_white c then trim_start s' else s
  | [] => []
  end.

Definition trim (s : list ascii) : list ascii :=
  rev (trim_start (rev (trim_start s))).

(** The value of [c] as a digit, up to radix 36. *)
Definition digit_value (c : ascii) : option Z :=
  let n := Z.of_nat (nat_of_ascii c) in
  if (48 <=? n)%Z && (n <=? 57)%Z then Some (n - 48)%Z
  else if (97 <=? n)%Z && (n <=? 122)%Z then Some (n - 87)%Z
  else if (65 <=? n)%Z && (n <=? 90)%Z then Some (n - 55)%Z
  else None.

Definition digit_in (radix : Z) (c : ascii) : option Z :=
  match digit_value c with
  | Some d => if (d <? radix)%Z then Some d else None
  | None => None
  end.

(** The longest prefix of radix-[radix] digits: its value, its length and
    what follows it. *)
Fixpoint take_digits (radix : Z) (s : list ascii) (acc : Z) (count : nat)
  : Z * nat * list ascii :=
  match s with
  | c :: s' =>
      match digit_in radix c with
      | Some d => take_digits radix s' (acc * radix + d)%Z (S count)
      | None => (acc, count, s)
      end
  | [] => (acc, count, [])
  end.

Definition is_char (c : ascii) (s : string) : bool :=
  existsb (Ascii.eqb c) (list_ascii_of_string s).

(** An optional sign: whether it is a minus, and what follows it. *)
Definition take_sign (s : list ascii) : bool * list ascii :=
  match s with
  | c :: s' => if Ascii.eqb c "-" then (true, s')
               else if Ascii.eqb c "+" then (false, s') else (false, s)
  | [] => (false, [])
  end.

(** The radix prefix [0x], [0o] or [0b] named by [letters] (both cases). *)
Definition take_prefix (letters : string) (s : list ascii) : option (list ascii) :=
  match s with
  | z :: c :: s' => if Ascii.eqb z "0" && is_char c letters then Some s' else None
  | _ => None
  end.

(** parseInt(string) with no radix argument.  A run of more than 20 decimal
    digits is rounded to the nearest float, as V8 does. *)
Definition parseInt_string (input : string) : float :=
  let s := trim_start (list_ascii_of_string input) in
  let '(neg, s) := take_sign s in
  let '(radix, s) := match take_prefix "xX" s with
                     | Some s' => (16%Z, s')
                     | None => (10%Z, s)
                     end in
  let '(n, count, _) := take_digits radix s 0 0 in
  match count with
  | O => nan
  | _ => if neg then (- float_of_Z n)%float else float_of_Z n
  end.

(** A non-decimal integer literal: digits only, at least one. *)
Definition radix_literal (radix : Z) (s : list ascii) : float :=
  match take_digits radix s 0 0 with
  | (_, O, _) => nan
  | (n, _, []) => float_of_Z n
  | _ => nan
  end.

(** StrUnsignedDecimalLiteral other than [Infinity]: digits, an optional
    fraction, an optional exponent, and nothing after them. *)
Definition decimal_literal (s : list ascii) : option float :=
  let '(int_part, int_count, s) := take_digits 10 s 0 0 in
  let '(frac_part, frac_count, s) :=
    match s with
    | c :: s' => if Ascii.eqb c "." then take_digits 10 s' 0 0 else (0%Z, O, s)
    | [] => (0%Z, O, [])
    end in
  let exponent : option (Z * list ascii) :=
    match s with
    | c :: s' =>
        if is_char c "eE" then
          let '(neg, s'') := take_sign s' in
          match take_digits 10 s'' 0 0 with
          | (_, O, _) => None
          | (e, _, rest) => Some ((if neg then - e else e)%Z, rest)
          end
        else Some (0%Z, s)
    | [] => Some (0%Z, [])
    end in
  match (int_count + frac_count)%nat, exponent with
  | S _, Some (e, []) =>
      let digits := (int_part * 10 ^ Z.of_nat frac_count + frac_part)%Z in
      Some (float_of_Q (inject_Z digits * pow10 (e - Z.of_nat frac_count))%Q)
  | _, _ => None
  end.

(** StringToNumber: the whole trimmed string must be a numeric literal. *)
Definition StringToNumber (input : string) : float :=
  let s := trim (list_ascii_of_string input) in
  match s with
  | [] => zero
  | _ =>
      match take_prefix "xX" s, take_prefix "oO" s, take_prefix "bB" s with
      | Some s', _, _ => radix_literal 16 s'
      | _, Some s', _ => radix_literal 8 s'
      | _, _, Some s' => radix_literal 2 s'
      | None, None, None =>
          let '(neg, s') := take_sign s in
          let magnitude :=
            if String.eqb (string_of_list_ascii s') "Infinity" then Some infinity
            else decimal_literal s' in
          match magnitude with
          | Some x => if neg then (- x)%float else x
          | None => nan
          end
      end
  end.

(** Math.round: the integer nearest to [x], the larger one on a tie; NaN,
    the infinities and the zeros are returned as they are, and a result of
    zero keeps the sign of [x]. *)
Definition Math_round (x : float) : float :=
  match Prim2SF x with
  | S754_finite s m e =>
      if (0 <=? e)%Z then x
      else
        let v := if s then Zneg m else Zpos m in
        let n := ((2 * v + 2 ^ (- e)) / 2 ^ (1 - e))%Z in
        if (n =? 0)%Z then (if s then neg_zero else zero) else float_of_Z n
  | _ => x
  end.

(** *** Conversions and operators on values *)

Definition is_nan (x : float) : bool := negb (x =? x)%float.

(** ToBoolean: what [!v], [v || w] and [v && w] test. *)
Definition ToBoolean (v : value) : bool :=
  match v with
  | VUndefined | VNull => false
  | VBool b => b
  | VNum x => negb ((x =? zero)%float || is_nan x)
  | VStr s => negb (String.eqb s "")
  | VArr _ | VObj _ => true
  end.

(** [v || w], both operands already evaluated (the right one is a literal
    wherever the handler writes it). *)
Definition logical_or (v w : value) : value := if ToBoolean v then v else w.

Fixpoint own_property (props : list (string * value)) (key : string) : option value :=
  match props with
  | (k, v) :: props' => if String.eqb k key then Some v else own_property props' key
  | [] => None
  end.

Definition not_primitive : error :=
  TypeError "Cannot convert object to primitive value".

(** ToString, as a template literal and a property key apply it.  An array
    goes through [Array.prototype.join].  A parsed JSON object inherits
    [Object.prototype.toString] unless it has an own property [toString]:
    that one is data, not callable, and the inherited [valueOf] returns the
    object itself, so OrdinaryToPrimitive throws. *)
Fixpoint ToString (v : value) : completion string :=
  match v with
  | VUndefined => Normal "undefined"
  | VNull => Normal "null"
  | VBool true => Normal "true"
  | VBool false => Normal "false"
  | VNum x => Normal (Number_toString x)
  | VStr s => Normal s
  | VArr xs =>
      (fix join (l : list value) : completion string :=
         match l with
         | [] => Normal ""
         | x :: l' =>
             let element := match x with
                            | VUndefined | VNull => Normal ""
                            | _ => ToString x
                            end in
             match element with
             | Throw e => Throw e
             | Normal s =>
                 match l' with
                 | [] => Normal s
                 | _ => match join l' with
                        | Throw e => Throw e
                        | Normal r => Normal (s ++ "," ++ r)
                        end
                 end
             end
         end) xs
  | VObj props =>
      match own_property props "toString" with
      | Some _ => Throw not_primitive
      | None => Normal "[object Object]"
      end
  end.

(** ToNumber; an array or object is first made primitive, which for these
    values is the string [ToString] gives. *)
Definition ToNumber (v : value) : completion float :=
  match v with
  | VUndefined => Normal nan
  | VNull => Normal zero
  | VBool true => Normal one
  | VBool false => Normal zero
  | VNum x => Normal x
  | VStr s => Normal (StringToNumber s)
  | VArr _ | VObj _ =>
      match ToString v with
      | Normal s => Normal (StringToNumber s)
      | Throw e => Throw e
      end
  end.

(** [v === w] where one side is a primitive, as everywhere in the handler:
    an array or object is never strictly equal to a primitive. *)
Definition strict_equals (v w : value) : bool :=
  match v, w with
  | VUndefined, VUndefined => true
  | VNull, VNull => true
  | VBool a, VBool b => Bool.eqb a b
  | VNum x, VNum y => (x =? y)%float
  | VStr s, VStr t => String.eqb s t
  | _, _ => false
  end.

(** parseInt(v): ToString first, then the string is parsed. *)
Definition parseInt (v : value) : completion float :=
  match ToString v with
  | Normal s => Normal (parseInt_string s)
  | Throw e => Throw e
  end.

(** A canonical array index: the decimal digits of a natural number. *)
Definition array_index (key : string) : option nat :=
  match take_digits 10 (list_ascii_of_string key) 0 0 with
  | (_, O, _) => None
  | (n, _, []) => if String.eqb (decimal n) key then Some (Z.to_nat n) else None
  | _ => None
  end.

Definition string_at (s : string) (i : nat) : value :=
  match String.get i s with
  | Some c => VStr (String c EmptyString)
  | None => VUndefined
  end.

(** [v[key]] and [v.key].  Reading a property of [null] or [undefined]
    throws (V8's wording).  The inherited members ([length], the prototype
    methods) are not among the keys this program reads and are left out. *)
Definition Get (v : value) (key : string) : completion value :=
  match v with
  | VUndefined =>
      Throw (TypeError ("Cannot read properties of undefined (reading '" ++ key ++ "')"))
  | VNull =>
      Throw (TypeError ("Cannot read properties of null (reading '" ++ key ++ "')"))
  | VBool _ | VNum _ => Normal VUndefined
  | VStr s =>
      match array_index key with
      | Some i => Normal (string_at s i)
      | None => Normal VUndefined
      end
  | VArr xs =>
      match array_index key with
      | Some i => Normal (nth i xs VUndefined)
      | None => Normal VUndefined
      end
  | VObj props =>
      match own_property props key with
      | Some w => Normal w
      | None => Normal VUndefined
      end
  end.

(** The first [n] values an array or a string yields to an array
    destructuring pattern; nothing else a JSON document holds is iterable. *)
Definition iterate (name : string) (v : value) (n : nat) : completion (list value) :=
  match v with
  | VArr xs => Normal (map (fun i => nth i xs VUndefined) (seq 0 n))
  | VStr s => Normal (map (string_at s) (seq 0 n))
  | _ => Throw (TypeError (name ++ " is not iterable"))
  end.

(** What the client reads back from [res.json(v)]: [JSON.stringify] drops a
    property whose value is [undefined], writes [null] for [undefined] in an
    array and for NaN and the infinities, and writes [-0] as [0]. *)
Fixpoint JSON_wire (v : value) : value :=
  match v with
  | VUndefined => VUndefined
  | VNum x =>
      match Prim2SF x with
      | S754_nan | S754_infinity _ => VNull
      | S754_zero _ => VNum zero
      | S754_finite _ _ _ => VNum x
      end
  | VArr xs =>
      VArr ((fix elements (l : list value) : list value :=
               match l with
               | [] => []
               | x :: l' =>
                   match JSON_wire x with
                   | VUndefined => VNull
                   | w => w
                   end :: elements l'
               end) xs)
  | VObj props =>
      VObj ((fix properties (l : list (string * value)) : list (string * value) :=
               match l with
               | [] => []
               | (k, x) :: l' =>
                   match JSON_wire x with
                   | VUndefined => properties l'
                   | w => (k, w) :: properties l'
                   end
               end) props)
  | _ => v
  end.

End JS.

(** ** What the two files share *)

Module Relay.
Import JS.

(** What a run does to the outside world, in order: outbound GETs through
    axios (with the [timeout] option), awaited delays, and the line the
    [catch] block writes with [console.error]. *)
Inductive event : Type :=
| AxiosGet (url : string) (timeout : Z)
| Delay (ms : Z)
| ConsoleError (label text : string).

(** The log so far, oldest event first. *)
Definition world : Type := list event.

(** A computation: it may throw, and it extends the log. *)
Definition M (A : Type) : Type := world -> completion A * world.

Definition ret {A : Type} (a : A) : M A := fun w => (Normal a, w).

Definition bind {A B : Type} (m : M A) (f : A -> M B) : M B :=
  fun w => match m w with
           | (Normal a, w') => f a w'
           | (Throw e, w') => (Throw e, w')
           end.

Definition lift {A : Type} (c : completion A) : M A := fun w => (c, w).

Definition emit (ev : event) : M unit := fun w => (Normal tt, (w ++ [ev])%list).

(** [try { body } catch (error) { handler }] *)
Definition try_catch {A : Type} (body : M A) (handler : error -> M A) : M A :=
  fun w => match body w with
           | (Normal a, w') => (Normal a, w')
           | (Throw e, w') => handler e w'
           end.

Declare Scope relay_scope.
Delimit Scope relay_scope with relay.
Notation "x <- m ;; k" := (bind m (fun x => k))
  (at level 61, m at next level, right associativity) : relay_scope.
Notation "m ;;; k" := (bind m (fun _ => k))
  (at level 61, right associativity) : relay_scope.

Definition is_get (ev : event) : bool :=
  match ev with AxiosGet _ _ => true | _ => false end.

(** The outbound calls of a log, and how many there are. *)
Definition gets (w : world) : list event := filter is_get w.
Definition calls (w : world) : nat := List.length (gets w).

(** The upstream service, as the handler meets it: the [k]-th outbound call
    of a run (from 0), to [url], either resolves with the parsed body
    ([response.data]) or rejects with an error. *)
Definition service : Type := nat -> string -> completion value.

(** [await axios.get(url, {headers, timeout})], then [.data]. *)
Definition axios_get (upstream : service) (url : string) (timeout : Z) : M value :=
  fun w => (upstream (calls w) url, (w ++ [AxiosGet url timeout])%list).

(** [await delay(ms)] *)
Definition delay (ms : Z) : M unit := emit (Delay ms).

Definition console_error (label text : string) : M unit :=
  emit (ConsoleError label text).

(** [res.status(status).json(body)]; [body] is the object handed to
    [json], before serialization. *)
Record response : Type := mkResponse { status : Z; body : value }.

Definition CHECK_HOST_BASE_URL : string := "https://check-host.net".
Definition DEFAULT_NODE_ID : string := "sg1.node.check-host.net".

(** What [METHOD_ENDPOINT_MAP[method]] evaluates to.  The map is an object
    literal, so a key it does not own is looked up in [Object.prototype]. *)
Inductive endpoint : Type :=
| Endpoint (name : string)
| Inherited (text : string)
| NoEndpoint.

Definition native (name : string) : string :=
  "function " ++ name ++ "() { [native code] }".

(** The members of [Object.prototype], each with the text a template
    literal gives for it (V8's rendering of a built-in function; [__proto__]
    reads as the prototype object itself). *)
Definition Object_prototype : list (string * string) :=
  [ ("constructor", native "Object");
    ("__defineGetter__", native "__defineGetter__");
    ("__defineSetter__", native "__defineSetter__");
    ("hasOwnProperty", native "hasOwnProperty");
    ("__lookupGetter__", native "__lookupGetter__");
    ("__lookupSetter__", native "__lookupSetter__");
    ("isPrototypeOf", native "isPrototypeOf");
    ("propertyIsEnumerable", native "propertyIsEnumerable");
    ("toString", native "toString");
    ("valueOf", native "valueOf");
    ("__proto__", "[object Object]");
    ("toLocaleString", native "toLocaleString") ].

Fixpoint assoc (table : list (string * string)) (key : string) : option string :=
  match table with
  | (k, v) :: table' => if String.eqb k key then Some v else assoc table' key
  | [] => None
  end.

Definition lookup (map : list (string * string)) (key : string) : endpoint :=
  match assoc map key with
  | Some name => Endpoint name
  | None => match assoc Object_prototype key with
            | Some text => Inherited text
            | None => NoEndpoint
            end
  end.

(** [!apiEndpoint] is false on a non-empty string and on any object. *)
Definition endpoint_truthy (e : endpoint) : bool :=
  match e with
  | Endpoint name => negb (String.eqb name "")
  | Inherited _ => true
  | NoEndpoint => false
  end.

(** [`${apiEndpoint}`] *)
Definition endpoint_text (e : endpoint) : string :=
  match e with
  | Endpoint name => name
  | Inherited text => text
  | NoEndpoint => "undefined"
  end.

(** [apiEndpoint === name] *)
Definition endpoint_is (e : endpoint) (name : string) : bool :=
  match e with
  | Endpoint n => String.eqb n name
  | _ => false
  end.

Definition object (props : list (string * value)) : value := VObj props.

(** Not code of this repository: how the receiving server reads the query
    of a request target (RFC 3986, section 3).  The query runs from the first
    [?] to the first [#]; it is a list of [name=value] pairs separated by
    [&].  No escape is decoded. *)
Fixpoint until (stop : ascii) (s : string) : string :=
  match s with
  | EmptyString => EmptyString
  | String c s' => if Ascii.eqb c stop then EmptyString else String c (until stop s')
  end.

Fixpoint after (stop : ascii) (s : string) : option string :=
  match s with
  | EmptyString => None
  | String c s' => if Ascii.eqb c stop then Some s' else after stop s'
  end.

Fixpoint pieces (fuel : nat) (s : string) : list string :=
  match fuel with
  | O => []
  | S fuel' =>
      until "&" s :: match after "&" s with
                     | Some rest => pieces fuel' rest
                     | None => []
                     end
  end.

Definition pair_of (piece : string) : string * string :=
  (until "=" piece, match after "=" piece with Some v => v | None => "" end).

Definition query (url : string) : list (string * string) :=
  match after "?" (until "#" url) with
  | Some q => map pair_of (pieces (S (String.length q)) q)
  | None => []
  end.

End Relay.

(** ** [server.js] (V2.3) *)

Module V23.
Import JS Relay.
Local Open Scope relay_scope.
Local Open Scope float_scope.

Definition METHOD_ENDPOINT_MAP : list (string * string) :=
  [ ("http", "check-http");
    ("ping", "check-ping");
    ("tcp", "check-tcp");
    ("udp", "check-udp");
    ("dns", "check-dns");
    ("whois", "check-whois") ].

Definition maxAttempts : nat := 6.

Section Handler.
Variable upstream : service.

(** The [while (!checkResult && attempt < maxAttempts)] loop, on the number
    of attempts left ([maxAttempts - attempt]).  [checkResult] is [null]
    until the iteration that assigns it, which leaves the loop; so the loop
    returns either that value or [null]. *)
Fixpoint poll (node_id : string) (request_id : value) (left : nat) : M value :=
  match left with
  | O => ret VNull
  | S left' =>
      id <- lift (ToString request_id) ;;
      let resultUrl := CHECK_HOST_BASE_URL ++ "/check-result/" ++ id in
      data <- axios_get upstream resultUrl 5000 ;;
      nodeResult <- lift (Get data node_id) ;;
      first <- (if ToBoolean nodeResult then lift (Get nodeResult "0")
                else ret nodeResult) ;;
      if ToBoolean first then ret first
      else delay 1500 ;;; poll node_id request_id left'
  end.

(** STEP 3: the result record made into the response. *)
Definition process (checkResult : value) : M response :=
  parts <- lift (iterate "checkResult" checkResult 4) ;;
  let isUpRaw := nth 0 parts VUndefined in
  let latencySeconds := nth 1 parts VUndefined in
  let message := nth 2 parts VUndefined in
  let statusCodeRaw := nth 3 parts VUndefined in
  let isUp := strict_equals isUpRaw (VNum 1) in
  seconds <- lift (ToNumber (logical_or latencySeconds (VNum 0))) ;;
  let latencyMs := Math_round (seconds * 1000) in
  statusCode <- lift (parseInt (logical_or statusCodeRaw (VStr "0"))) ;;
  let errorRate := if isUp then 0 else 1 in
  ret (mkResponse 200 (object
         [ ("latency", VNum latencyMs);
           ("statusCode", VNum statusCode);
           ("isUp", VBool isUp);
           ("errorRate", VNum errorRate);
           ("message", message) ])).

(** The body of the [try]. *)
Definition attempt (url method : value) (apiEndpoint : endpoint) (node_id : string)
  : M response :=
  host <- lift (ToString url) ;;
  let checkUrl := CHECK_HOST_BASE_URL ++ "/" ++ endpoint_text apiEndpoint
                  ++ "?host=" ++ host ++ "&node=" ++ node_id in
  data <- axios_get upstream checkUrl 8000 ;;
  ok <- lift (Get data "ok") ;;
  rejected <- (if negb (strict_equals ok (VNum 1)) then ret true
               else id <- lift (Get data "request_id") ;; ret (negb (ToBoolean id))) ;;
  if rejected : bool then
    if endpoint_is apiEndpoint "check-whois" || endpoint_is apiEndpoint "check-dns" then
      name <- lift (ToString method) ;;
      upstream_message <- lift (Get data "message") ;;
      text <- lift (ToString (logical_or upstream_message (VStr "Data received."))) ;;
      ret (mkResponse 200 (object
             [ ("isUp", VBool true);
               ("latency", VNum 0);
               ("statusCode", VNum 200);
               ("message", VStr ("Initial result for " ++ name ++ ": " ++ text)) ]))
    else
      name <- lift (ToString method) ;;
      ret (mkResponse 200 (object
             [ ("isBackendError", VBool true);
               ("errorDetail",
                VStr ("Check-Host API rejected the request for method " ++ name ++ "."));
               ("statusCode", VNum 0) ]))
  else
    request_id <- lift (Get data "request_id") ;;
    delay 2500 ;;;
    checkResult <- poll node_id request_id maxAttempts ;;
    if negb (ToBoolean checkResult) then
      name <- lift (ToString method) ;;
      ret (mkResponse 200 (object
             [ ("latency", VNum 6000);
               ("statusCode", VNum 599);
               ("isUp", VBool false);
               ("errorRate", VNum 1);
               ("errorDetail",
                VStr ("Check-Host node did not return result for " ++ name
                      ++ " within timeout.")) ]))
    else process checkResult.

(** The [catch] block. *)
Definition recover (method : value) (error : JS.error) : M response :=
  errorDetail <-
    (match code error with
     | Some c =>
         if String.eqb c "ECONNABORTED" || String.eqb c "ETIMEDOUT" then
           name <- lift (ToString method) ;;
           ret ("Backend Timeout when calling Check-Host API for " ++ name ++ ".")
         else ret ("Backend failed to connect to Check-Host: " ++ message error)
     | None => ret ("Backend failed to connect to Check-Host: " ++ message error)
     end) ;;
  console_error "[BACKEND ERROR]" errorDetail ;;;
  ret (mkResponse 200 (object
         [ ("isBackendError", VBool true);
           ("errorDetail", VStr errorDetail);
           ("statusCode", VNum 0) ])).

(** [app.post('/api/check', async (req, res) => ...)] on [req.body], which
    [express.json()] has set to the parsed document (an object or an array).
    A [Throw] of the whole computation is an exception that leaves the
    handler: no response is sent.  Destructuring [null] or [undefined] throws
    as a property read does, with another wording of the message. *)
Definition api_check (req_body : value) : M response :=
  url <- lift (Get req_body "url") ;;
  method <- lift (Get req_body "method") ;;
  if negb (ToBoolean url) || negb (ToBoolean method) then
    ret (mkResponse 400 (object [ ("error", VStr "URL and Method are required.") ]))
  else
    key <- lift (ToString method) ;;
    let apiEndpoint := lookup METHOD_ENDPOINT_MAP key in
    if negb (endpoint_truthy apiEndpoint) then
      name <- lift (ToString method) ;;
      ret (mkResponse 400 (object
             [ ("isBackendError", VBool true);
               ("errorDetail", VStr ("Unsupported method: " ++ name ++ "."));
               ("statusCode", VNum 0) ]))
    else
      let node_id := DEFAULT_NODE_ID in
      try_catch (attempt url method apiEndpoint node_id) (recover method).

End Handler.

(** A run from the empty log. *)
Definition run (upstream : service) (req_body : value) : completion response * world :=
  api_check upstream req_body [].

End V23.

(** ** The single-file monitor (V3.0), [src/unnamed/part_000] *)

Module V30.
Import JS Relay.
Local Open Scope relay_scope.
Local Open Scope float_scope.

Definition METHOD_ENDPOINT_MAP : list (string * string) :=
  [ ("http", "check-http");
    ("ping", "check-ping");
    ("tcp", "check-tcp");
    ("dns", "check-dns");
    ("whois", "check-whois") ].

Definition maxAttempts : nat := 6.

Section Handler.
Variable upstream : service.

(** The [while (!checkResult && attempt < maxAttempts)] loop, on the number
    of attempts left ([maxAttempts - attempt]).  [checkResult] is [null]
    until the iteration that assigns it, which leaves the loop; so the loop
    returns either that value or [null]. *)
Fixpoint poll (node_id : string) (request_id : value) (left : nat) : M value :=
  match left with
  | O => ret VNull
  | S left' =>
      id <- lift (ToString request_id) ;;
      let resultUrl := CHECK_HOST_BASE_URL ++ "/check-result/" ++ id in
      data <- axios_get upstream resultUrl 5000 ;;
      nodeResult <- lift (Get data node_id) ;;
      first <- (if ToBoolean nodeResult then lift (Get nodeResult "0")
                else ret nodeResult) ;;
      if ToBoolean first then ret first
      else delay 1500 ;;; poll node_id request_id left'
  end.

(** STEP 3: the result record made into the response. *)
Definition process (checkResult : value) : M response :=
  parts <- lift (iterate "checkResult" checkResult 4) ;;
  let isUpRaw := nth 0 parts VUndefined in
  let latencySeconds := nth 1 parts VUndefined in
  let message := nth 2 parts VUndefined in
  let statusCodeRaw := nth 3 parts VUndefined in
  let isUp := strict_equals isUpRaw (VNum 1) in
  seconds <- lift (ToNumber (logical_or latencySeconds (VNum 0))) ;;
  let latencyMs := Math_round (seconds * 1000) in
  statusCode <- lift (parseInt (logical_or statusCodeRaw (VStr "0"))) ;;
  ret (mkResponse 200 (object
         [ ("latency", VNum latencyMs);
           ("statusCode", VNum statusCode);
           ("isUp", VBool isUp);
           ("message", message) ])).

(** The body of the [try]. *)
Definition attempt (url method : value) (apiEndpoint : endpoint) (node_id : string)
  : M response :=
  host <- lift (ToString url) ;;
  let checkUrl := CHECK_HOST_BASE_URL ++ "/" ++ endpoint_text apiEndpoint
                  ++ "?host=" ++ host ++ "&node=" ++ node_id in
  data <- axios_get upstream checkUrl 8000 ;;
  ok <- lift (Get data "ok") ;;
  rejected <- (if negb (strict_equals ok (VNum 1)) then ret true
               else id <- lift (Get data "request_id") ;; ret (negb (ToBoolean id))) ;;
  if rejected : bool then
    upstream_message <- lift (Get data "message") ;;
    let checkHostMessage :=
      logical_or upstream_message
        (VStr "No specific error message provided by Check-Host.") in
    if endpoint_is apiEndpoint "check-whois" || endpoint_is apiEndpoint "check-dns" then
      name <- lift (ToString method) ;;
      text <- lift (ToString checkHostMessage) ;;
      ret (mkResponse 200 (object
             [ ("isUp", VBool true);
               ("latency", VNum 0);
               ("statusCode", VNum 200);
               ("message", VStr ("Initial result for " ++ name ++ ": " ++ text)) ]))
    else
      name <- lift (ToString method) ;;
      text <- lift (ToString checkHostMessage) ;;
      ret (mkResponse 200 (object
             [ ("isBackendError", VBool true);
               ("errorDetail",
                VStr ("Check-Host API rejected the request for method " ++ name
                      ++ ". Message: " ++ text));
               ("statusCode", VNum 0) ]))
  else
    request_id <- lift (Get data "request_id") ;;
    delay 2500 ;;;
    checkResult <- poll node_id request_id maxAttempts ;;
    if negb (ToBoolean checkResult) then
      name <- lift (ToString method) ;;
      ret (mkResponse 200 (object
             [ ("latency", VNum 6000);
               ("statusCode", VNum 599);
               ("isUp", VBool false);
               ("errorRate", VNum 1);
               ("errorDetail",
                VStr ("Check-Host node did not return result for " ++ name
                      ++ " within timeout.")) ]))
    else process checkResult.

(** The [catch] block. *)
Definition recover (method : value) (error : JS.error) : M response :=
  errorDetail <-
    (match code error with
     | Some c =>
         if String.eqb c "ECONNABORTED" || String.eqb c "ETIMEDOUT" then
           name <- lift (ToString method) ;;
           ret ("Backend Timeout when calling Check-Host API for " ++ name ++ ".")
         else ret ("Backend failed to connect to Check-Host: " ++ message error)
     | None => ret ("Backend failed to connect to Check-Host: " ++ message error)
     end) ;;
  console_error "[BACKEND ERROR]" errorDetail ;;;
  ret (mkResponse 200 (object
         [ ("isBackendError", VBool true);
           ("errorDetail", VStr errorDetail);
           ("statusCode", VNum 0) ])).

(** [app.post('/api/check', async (req, res) => ...)] on [req.body], which
    [express.json()] has set to the parsed document (an object or an array).
    A [Throw] of the whole computation is an exception that leaves the
    handler: no response is sent.  Destructuring [null] or [undefined] throws
    as a property read does, with another wording of the message. *)
Definition api_check (req_body : value) : M response :=
  url <- lift (Get req_body "url") ;;
  method <- lift (Get req_body "method") ;;
  if negb (ToBoolean url) || negb (ToBoolean method) then
    ret (mkResponse 400 (object [ ("error", VStr "URL and Method are required.") ]))
  else
    key <- lift (ToString method) ;;
    let apiEndpoint := lookup METHOD_ENDPOINT_MAP key in
    if negb (endpoint_truthy apiEndpoint) then
      name <- lift (ToString method) ;;
      ret (mkResponse 400 (object
             [ ("isBackendError", VBool true);
               ("errorDetail", VStr ("Unsupported method: " ++ name ++ "."));
               ("statusCode", VNum 0) ]))
    else
      let node_id := DEFAULT_NODE_ID in
      try_catch (attempt url method apiEndpoint node_id) (recover method).

End Handler.

(** A run from the empty log. *)
Definition run (upstream : service) (req_body : value) : completion response * world :=
  api_check upstream req_body [].

End V30.

(** ** Notions the statements use *)

Module Notions.
Import JS Relay.
Local Open Scope list_scope.

Definition thrown {A : Type} (r : completion A) : option error :=
  match r with
  | Normal _ => None
  | Throw e => Some e
  end.

(** The outbound calls among [evs], the first of them being call number [k]
    of the run, all resolved, except that the last one may have rejected
    with the error [t]. *)
Fixpoint resolved (upstream : service) (k : nat) (evs : list event)
  (t : option error) : Prop :=
  match evs with
  | [] => True
  | AxiosGet url _ :: rest =>
      match upstream k url with
      | Normal _ => resolved upstream (S k) rest t
      | Throw e => gets rest = [] /\ t = Some e
      end
  | _ :: rest => resolved upstream k rest t
  end.

(** A computation is orderly when it only appends to the log and throws
    the error of any call that rejects, without calling again. *)
Definition orderly {A : Type} (upstream : service) (m : M A) : Prop :=
  forall w, exists evs,
    snd (m w) = w ++ evs /\ resolved upstream (calls w) evs (thrown (fst (m w))).

(** [error.code === 'ECONNABORTED' || error.code === 'ETIMEDOUT'] *)
Definition timeout_code (e : error) : bool :=
  match code e with
  | Some c => String.eqb c "ECONNABORTED" || String.eqb c "ETIMEDOUT"
  | None => false
  end.

(** Every normal result of [m] satisfies [P]. *)
Definition ensures {A : Type} (P : A -> Prop) (m : M A) : Prop :=
  forall w a w', m w = (Normal a, w') -> P a.

(** [data.isBackendError], as the page tests it. *)
Definition marked_backend_error (b : value) : bool :=
  match Get b "isBackendError" with
  | Normal v => ToBoolean v
  | Throw _ => false
  end.

(** The submission response carries [ok === 1] and a truthy [request_id]. *)
Definition acknowledged (data : value) : bool :=
  match Get data "ok", Get data "request_id" with
  | Normal ok, Normal id => strict_equals ok (VNum 1) && ToBoolean id
  | _, _ => false
  end.

(** A poll response without a result: no record for the node, or a record
    whose first element is absent (or otherwise falsy). *)
Definition pending (node_id : string) (data : value) : Prop :=
  exists nodeResult,
    Get data node_id = Normal nodeResult
    /\ (ToBoolean nodeResult = false
        \/ exists first, Get nodeResult "0" = Normal first /\ ToBoolean first = false).

(** A poll response with a result: the node has a record, and its first
    element [record] is there. *)
Definition found (node_id : string) (data record : value) : Prop :=
  exists nodeResult,
    Get data node_id = Normal nodeResult
    /\ ToBoolean nodeResult = true
    /\ Get nodeResult "0" = Normal record
    /\ ToBoolean record = true.

(** The bodies the handlers send. *)
Definition missing_fields : value :=
  object [ ("error", VStr "URL and Method are required.") ].

Definition backend_error (detail : string) : value :=
  object [ ("isBackendError", VBool true);
           ("errorDetail", VStr detail);
           ("statusCode", VNum 0) ].

Definition unsupported (name : string) : value :=
  backend_error ("Unsupported method: " ++ name ++ ".").

(** The two addresses the handler calls. *)
Definition submission_url (endpoint host : string) : string :=
  "https://check-host.net/" ++ endpoint ++ "?host=" ++ host
  ++ "&node=sg1.node.check-host.net".

Definition result_url (id : string) : string :=
  "https://check-host.net/check-result/" ++ id.

(** A request that passes both checks of the handler: [url] and [method] are
    truthy, the method reads as [name], which is an own key of [map] with
    value [endpoint], and the url reads as [host]. *)
Record mapped_request (map : list (string * string)) (req_body url method : value)
  (name endpoint host : string) : Prop :=
  { has_url : Get req_body "url" = Normal url;
    has_method : Get req_body "method" = Normal method;
    url_given : ToBoolean url = true;
    method_given : ToBoolean method = true;
    method_name : ToString method = Normal name;
    own_entry : assoc map name = Some endpoint;
    url_text : ToString url = Normal host }.

(** The log of [n] fruitless polls. *)
Definition fruitless (id : string) (n : nat) : list event :=
  List.concat (repeat [AxiosGet (result_url id) 5000; Delay 1500] n).

(** The body sent when the polls are exhausted. *)
Definition poll_timeout (name : string) : value :=
  object [ ("latency", VNum 6000);
           ("statusCode", VNum 599);
           ("isUp", VBool false);
           ("errorRate", VNum 1);
           ("errorDetail",
            VStr ("Check-Host node did not return result for " ++ name
                  ++ " within timeout.")) ].

(** The body sent for an unacknowledged [dns] or [whois] submission. *)
Definition initial_result (text : string) : value :=
  object [ ("isUp", VBool true);
           ("latency", VNum 0);
           ("statusCode", VNum 200);
           ("message", VStr text) ].

(** The body [server.js] sends for the record [xs], given the latency in
    seconds and the status code its elements 1 and 3 convert to. *)
Definition result_body (xs : list value) (seconds statusCode : float) : value :=
  object [ ("latency", VNum (Math_round (seconds * 1000)));
           ("statusCode", VNum statusCode);
           ("isUp", VBool (strict_equals (nth 0 xs VUndefined) (VNum 1)));
           ("errorRate",
            VNum (if strict_equals (nth 0 xs VUndefined) (VNum 1) then 0 else 1));
           ("message", nth 2 xs VUndefined) ].

(** The spec's sentence about an unparseable status code, for one record:
    the answer's [statusCode] is 0. *)
Definition defaults_to_zero (process : value -> M response) (tuple : value) : Prop :=
  forall resp w,
    process tuple [] = (Normal resp, w) ->
    Get (body resp) "statusCode" = Normal (VNum 0).

(** The body the single-file monitor sends for the record [xs]. *)
Definition result_body_V30 (xs : list value) (seconds statusCode : float) : value :=
  object [ ("latency", VNum (Math_round (seconds * 1000)));
           ("statusCode", VNum statusCode);
           ("isUp", VBool (strict_equals (nth 0 xs VUndefined) (VNum 1)));
           ("message", nth 2 xs VUndefined) ].

Definition rejection (name : string) : string :=
  "Check-Host API rejected the request for method " ++ name ++ ".".

(** How like the body of [server.js] (left) the body of the single-file
    monitor (right) is: the same; or the same result without [errorRate]; or
    a rejection with another detail; or the initial result of an upstream
    that gave no message, with another default text. *)
Inductive agree : value -> value -> Prop :=
| agree_same (b : value) : agree b b
| agree_result (xs : list value) (seconds statusCode : float) :
    agree (result_body xs seconds statusCode) (result_body_V30 xs seconds statusCode)
| agree_rejected (name detail : string) :
    agree (backend_error (rejection name)) (backend_error detail)
| agree_initial (name : string) :
    agree (initial_result ("Initial result for " ++ name ++ ": " ++ "Data received."))
          (initial_result ("Initial result for " ++ name ++ ": "
                           ++ "No specific error message provided by Check-Host.")).

Definition is_console (ev : event) : bool :=
  match ev with ConsoleError _ _ => true | _ => false end.

(** The calls and delays of a log. *)
Definition outbound (w : world) : list event :=
  filter (fun ev => negb (is_console ev)) w.

(** Two runs that make the same calls and delays and end alike: with the
    same exception, or with answers of the same status and like bodies. *)
Definition same_answer (o1 o2 : completion response * world) : Prop :=
  outbound (snd o1) = outbound (snd o2)
  /\ match fst o1, fst o2 with
     | Normal a, Normal b => status a = status b /\ agree (body a) (body b)
     | Throw e1, Throw e2 => e1 = e2
     | _, _ => False
     end.

(** The two [try] bodies, run from the same log. *)
Inductive alike (name : string)
  : completion response * world -> completion response * world -> Prop :=
| alike_same (o : completion response * world) : alike name o o
| alike_bodies (b1 b2 : value) (w : world) :
    agree b1 b2 ->
    alike name (Normal (mkResponse 200 b1), w) (Normal (mkResponse 200 b2), w)
| alike_thrown (e : error) (w : world) :
    alike name (Normal (mkResponse 200 (backend_error (rejection name))), w)
               (Throw e, w).

(** The spec-side sentence C9 for one request: same status, same body. *)
Definition same_response (o1 o2 : completion response * world) : Prop :=
  forall a b, fst o1 = Normal a -> fst o2 = Normal b ->
              status a = status b /\ body a = body b.


(** The spec's sentence about unmapped methods, for one request: a
    rejection that is not marked as a backend error, and no outbound call. *)
Definition unmapped_rule (map : list (string * string))
  (run : service -> value -> completion response * world)
  (upstream : service) (req_body : value) : Prop :=
  forall method name resp w,
    Get req_body "method" = Normal method ->
    ToString method = Normal name ->
    assoc map name = None ->
    run upstream req_body = (Normal resp, w) ->
    status resp = 400%Z /\ marked_backend_error (body resp) = false /\ calls w = 0%nat.

(** The start of a string in which [parseInt] finds no number: nothing, or
    a character that is no decimal digit. *)
Definition no_digit_ahead (l : list ascii) : Prop :=
  match l with
  | [] => True
  | c :: _ => digit_in 10 c = None
  end.

End Notions.

(** ** Requests and upstream behaviours used as instances *)

Module Scenarios.
Import JS Relay.
Local Open Scope float_scope.

Definition request (url method : string) : value :=
  VObj [ ("url", VStr url); ("method", VStr method) ].

(** Every call times out at the transport. *)
Definition timing_out : service :=
  fun _ _ => Throw (mkError (Some "ECONNABORTED") "timeout of 8000ms exceeded").

(** The submission is accepted and no result ever appears. *)
Definition never_ready : service :=
  fun k _ => match k with
             | O => Normal (VObj [ ("ok", VNum 1); ("request_id", VStr "abc") ])
             | _ => Normal (VObj [ (DEFAULT_NODE_ID, VNull) ])
             end.

(** The submission is accepted and the first poll has the record [tuple]. *)
Definition ready (tuple : value) : service :=
  fun k _ => match k with
             | O => Normal (VObj [ ("ok", VNum 1); ("request_id", VStr "abc") ])
             | _ => Normal (VObj [ (DEFAULT_NODE_ID, VArr [ tuple ]) ])
             end.

(** The submission is answered without acknowledgement. *)
Definition refusing (text : string) : service :=
  fun _ _ => Normal (VObj [ ("ok", VNum 0); ("message", VStr text) ]).

End Scenarios.

(** ** The schedule of a run *)

Module Schedules.
Import JS Relay Notions.
Local Open Scope list_scope.

Definition is_prefix {A : Type} (l l' : list A) : Prop :=
  exists rest, l' = l ++ rest.

(** Everything a run can do outward, in order: the submission, the initial
    delay, and six polls each followed by its delay. *)
Definition schedule (address id : string) : list event :=
  AxiosGet address 8000 :: Delay 2500 :: fruitless id 6.

(** The longest a log can have kept its caller waiting: every call for its
    whole timeout, every delay in full (milliseconds). *)
Fixpoint waiting (w : world) : Z :=
  match w with
  | [] => 0
  | AxiosGet _ timeout :: w' => timeout + waiting w'
  | Delay ms :: w' => ms + waiting w'
  | ConsoleError _ _ :: w' => waiting w'
  end.

(** The request id as the polls write it. *)
Definition id_text (request_id : value) : string :=
  match ToString request_id with
  | Normal id => id
  | Throw _ => ""
  end.

(** [m] only appends to the log, and what it appends satisfies [P]. *)
Definition appends {A : Type} (P : list event -> Prop) (m : M A) : Prop :=
  forall w, exists evs, snd (m w) = w ++ evs /\ P evs.

(** [m] leaves the log as it is. *)
Definition silent {A : Type} (m : M A) : Prop := appends (eq []) m.

(** What a whole run appends: calls and delays along some schedule, then
    at most the one line of the [catch] block. *)
Definition on_schedule (evs : list event) : Prop :=
  exists address id,
    is_prefix (outbound evs) (schedule address id)
    /\ (evs = outbound evs
        \/ exists detail, evs = outbound evs ++ [ConsoleError "[BACKEND ERROR]" detail]).

(** What can make the handler throw, with the error [e]: reading the body
    ([null] or [undefined]), or writing a truthy method as a property key. *)
Definition throws_before_try (req_body : value) (e : error) : Prop :=
  Get req_body "url" = Throw e
  \/ (exists url, Get req_body "url" = Normal url /\ Get req_body "method" = Throw e)
  \/ (exists url method,
        Get req_body "url" = Normal url
        /\ Get req_body "method" = Normal method
        /\ ToBoolean url = true
        /\ ToBoolean method = true
        /\ ToString method = Throw e).


(** The texts of the single-file monitor for an unacknowledged submission. *)
Definition no_message : string := "No specific error message provided by Check-Host.".

Definition rejection_V30 (name text : string) : string :=
  "Check-Host API rejected the request for method " ++ name ++ ". Message: " ++ text.

(** The detail the [catch] writes for the error [e]. *)
Definition caught (name : string) (e : error) : string :=
  if timeout_code e
  then "Backend Timeout when calling Check-Host API for " ++ name ++ "."
  else "Backend failed to connect to Check-Host: " ++ message e.

(** What a JSON document holds that an array pattern cannot destructure. *)
Definition not_iterable (v : value) : Prop :=
  match v with
  | VArr _ | VStr _ => False
  | _ => True
  end.

End Schedules.

(** ** The page of the single-file monitor, [src/unnamed/part_000] *)

(** The script of the page the monitor serves at [/].  Its functions run on
    the page's five variables, the timers of the window, and the document;
    what they do to the document, to the chart and to the network is kept as
    a log.  An [async] function is embedded in two parts: the call, up to the
    first [await], and what runs once the awaited [fetch] has settled.  A
    literal with characters beyond the code units of [JS] is written in
    UTF-8: the script only concatenates such texts. *)

Module Page.
Import JS.

(** *** Built-ins the script applies *)

(** The code unit 34, for the attribute quotes of the markup. *)
Definition quote : string := String (ascii_of_nat 34) EmptyString.

(** [new Error(msg)] *)
Definition Error (msg : string) : error := mkError None msg.

(** Number.prototype.toFixed: the digits of the integer nearest to
    [x * 10^f] (the larger one on a tie), with the point [f] digits from the
    end; a number of 10^21 or more is written as ToString does. *)
Definition toFixed (fractionDigits : nat) (x : float) : string :=
  match Prim2SF x with
  | S754_nan | S754_infinity _ => Number_toString x
  | S754_zero _ | S754_finite _ _ _ =>
      let '(negative, q) := match Prim2SF x with
                            | S754_finite s m e => (s, Q_of_finite m e)
                            | _ => (false, 0%Q)
                            end in
      let sign := if negative then "-" else "" in
      if Qle_bool (pow10 21) q then sign ++ Number_toString (abs x)
      else
        let f := Z.of_nat fractionDigits in
        let n := Qfloor (q * pow10 f + (1 # 2))%Q in
        let m := decimal n in
        match fractionDigits with
        | O => sign ++ m
        | _ =>
            let m := zeros (f + 1 - Z.of_nat (String.length m)) ++ m in
            let k := String.length m in
            sign ++ substring 0 (k - fractionDigits) m ++ "."
            ++ substring (k - fractionDigits) fractionDigits m
        end
  end.

(** parseFloat on a string: the longest prefix of the left-trimmed string
    that is a StrDecimalLiteral, NaN when there is none. *)
Definition parseFloat_string (input : string) : float :=
  let s := trim_start (list_ascii_of_string input) in
  let '(neg, s) := take_sign s in
  let magnitude : option float :=
    if prefix "Infinity" (string_of_list_ascii s) then Some infinity
    else
      let '(int_part, int_count, s) := take_digits 10 s 0 0 in
      let '(frac_part, frac_count, s) :=
        match s with
        | c :: s' => if Ascii.eqb c "." then take_digits 10 s' 0 0 else (0%Z, O, s)
        | [] => (0%Z, O, [])
        end in
      let exponent : Z :=
        match s with
        | c :: s' =>
            if is_char c "eE" then
              let '(eneg, s'') := take_sign s' in
              match take_digits 10 s'' 0 0 with
              | (_, O, _) => 0%Z
              | (e, _, _) => if eneg then (- e)%Z else e
              end
            else 0%Z
        | [] => 0%Z
        end in
      match (int_count + frac_count)%nat with
      | O => None
      | S _ =>
          let digits := (int_part * 10 ^ Z.of_nat frac_count + frac_part)%Z in
          Some (float_of_Q (inject_Z digits * pow10 (exponent - Z.of_nat frac_count))%Q)
      end in
  match magnitude with
  | Some x => if neg then (- x)%float else x
  | None => nan
  end.

(** parseFloat(v): ToString first. *)
Definition parseFloat (v : value) : completion float :=
  match ToString v with
  | Normal s => Normal (parseFloat_string s)
  | Throw e => Throw e
  end.

(** [v >= y] for a number [y]: [v] is made a number; false when either side
    is NaN. *)
Definition at_least (v : value) (y : float) : completion bool :=
  match ToNumber v with
  | Normal x => Normal (y <=? x)%float
  | Throw e => Throw e
  end.

(** String.prototype.includes *)
Definition includes (s part : string) : bool :=
  match index 0 part s with
  | Some _ => true
  | None => false
  end.

(** *** The page *)

(** The Chart.js instance, as far as the script reads and writes it:
    [data.labels], [data.datasets[0].data], [data.datasets[0].borderColor]. *)
Record chart : Type := mkChart
  { labels : list string;
    dataset : list float;
    borderColor : string }.

(** [monitoredTarget] *)
Record target : Type := mkTarget
  { url : string;
    method : string;
    interval : Z }.

(** The callbacks the script hands to [setTimeout] and [setInterval]. *)
Inductive task : Type :=
| FadeSplash
| HideSplash
| FetchRealData.

Record timer : Type := mkTimer
  { timer_id : nat;
    repeats : bool;
    callback : task;
    period : Z }.

(** What the script does outside its own variables. *)
Inductive effect : Type :=
| SetTextContent (id text : string)
| SetInnerHTML (id html : string)
| SetStyleDisplay (id display : string)
| SetClassName (id className : string)
| ClassListAdd (id className : string)
| AppendListItem (id html : string)
| ScrollToBottom (id : string)
| PreventDefault
| ChartDefault (key text : string)
| ChartCreate (canvas : string)
| ChartDestroy
| ChartUpdate (mode : option string)
| Post (address : string) (body : value).

(** The five variables of the script, then the window: the active timers,
    the number of timer ids handed out, the requests still awaited, the
    number of requests sent, the number of times the clock was read, and the
    log. *)
Record page : Type := mkPage
  { chartInstance : option chart;
    testTimer : option nat;
    isMonitoringPaused : bool;
    monitoredTarget : option target;
    errorRateHistory : list float;
    timers : list timer;
    issued : nat;
    awaited : list nat;
    sent : nat;
    clock_reads : nat;
    effects : list effect }.

Definition set_chartInstance (v : option chart) (p : page) : page :=
  mkPage v (testTimer p) (isMonitoringPaused p) (monitoredTarget p)
    (errorRateHistory p) (timers p) (issued p) (awaited p) (sent p) (clock_reads p)
    (effects p).

Definition set_testTimer (v : option nat) (p : page) : page :=
  mkPage (chartInstance p) v (isMonitoringPaused p) (monitoredTarget p)
    (errorRateHistory p) (timers p) (issued p) (awaited p) (sent p) (clock_reads p)
    (effects p).

Definition set_isMonitoringPaused (v : bool) (p : page) : page :=
  mkPage (chartInstance p) (testTimer p) v (monitoredTarget p)
    (errorRateHistory p) (timers p) (issued p) (awaited p) (sent p) (clock_reads p)
    (effects p).

Definition set_monitoredTarget (v : option target) (p : page) : page :=
  mkPage (chartInstance p) (testTimer p) (isMonitoringPaused p) v
    (errorRateHistory p) (timers p) (issued p) (awaited p) (sent p) (clock_reads p)
    (effects p).

Definition set_errorRateHistory (v : list float) (p : page) : page :=
  mkPage (chartInstance p) (testTimer p) (isMonitoringPaused p) (monitoredTarget p)
    v (timers p) (issued p) (awaited p) (sent p) (clock_reads p) (effects p).

Definition set_timers (v : list timer) (p : page) : page :=
  mkPage (chartInstance p) (testTimer p) (isMonitoringPaused p) (monitoredTarget p)
    (errorRateHistory p) v (issued p) (awaited p) (sent p) (clock_reads p) (effects p).

(** The page before any script has run. *)
Definition initial : page :=
  mkPage None None false None [] [] 0 [] 0 0 [].

(** A computation of the script: it may throw, and it changes the page. *)
Definition M (A : Type) : Type := page -> completion A * page.

Definition ret {A : Type} (a : A) : M A := fun p => (Normal a, p).

Definition bind {A B : Type} (m : M A) (f : A -> M B) : M B :=
  fun p => match m p with
           | (Normal a, p') => f a p'
           | (Throw e, p') => (Throw e, p')
           end.

Definition lift {A : Type} (r : completion A) : M A := fun p => (r, p).

Definition throw {A : Type} (e : error) : M A := fun p => (Throw e, p).

Definition try_catch {A : Type} (body : M A) (handler : error -> M A) : M A :=
  fun p => match body p with
           | (Normal a, p') => (Normal a, p')
           | (Throw e, p') => handler e p'
           end.

Definition read {A : Type} (field : page -> A) : M A := fun p => (Normal (field p), p).

Definition write (change : page -> page) : M unit := fun p => (Normal tt, change p).

Declare Scope page_scope.
Delimit Scope page_scope with page.
Notation "x <- m ;; k" := (bind m (fun x => k))
  (at level 61, m at next level, right associativity) : page_scope.
Notation "m ;;; k" := (bind m (fun _ => k))
  (at level 61, right associativity) : page_scope.
Local Open Scope page_scope.

Definition perform (e : effect) : M unit :=
  write (fun p =>
           mkPage (chartInstance p) (testTimer p) (isMonitoringPaused p)
             (monitoredTarget p) (errorRateHistory p) (timers p) (issued p)
             (awaited p) (sent p) (clock_reads p) (effects p ++ [e])).

(** [setTimeout] and [setInterval] hand out the next id of the window, a
    positive integer. *)
Definition set_timer (again : bool) (callback : task) (ms : Z) : M nat :=
  fun p =>
    let id := S (issued p) in
    (Normal id,
     mkPage (chartInstance p) (testTimer p) (isMonitoringPaused p)
       (monitoredTarget p) (errorRateHistory p)
       (timers p ++ [mkTimer id again callback ms]) id
       (awaited p) (sent p) (clock_reads p) (effects p)).

Definition setTimeout : task -> Z -> M nat := set_timer false.

Definition setInterval : task -> Z -> M nat := set_timer true.

(** [clearInterval(id)]; nothing happens for [undefined] or an id that is
    not active. *)
Definition clearInterval (id : option nat) : M unit :=
  match id with
  | Some i => write (fun p => set_timers
                               (filter (fun t => negb (Nat.eqb (timer_id t) i)) (timers p)) p)
  | None => ret tt
  end.

(** [if (testTimer)] *)
Definition timer_truthy (id : option nat) : bool :=
  match id with
  | Some i => negb (Nat.eqb i 0)
  | None => false
  end.

(** [fetch(address, {method: 'POST', ..., body: JSON.stringify(body)})]: the
    request leaves, and its answer is awaited. *)
Definition fetch (address : string) (body : value) : M unit :=
  fun p =>
    (Normal tt,
     mkPage (chartInstance p) (testTimer p) (isMonitoringPaused p)
       (monitoredTarget p) (errorRateHistory p) (timers p) (issued p)
       (awaited p ++ [sent p]) (S (sent p)) (clock_reads p)
       (effects p ++ [Post address body])).

(** How the awaited [fetch] settles: it rejects, or it resolves to a
    response with a status and a body, which [response.json()] parses or
    rejects. *)
Inductive outcome : Type :=
| Rejected (e : error)
| Responded (status : Z) (json : completion value).

(** [response.ok] *)
Definition ok (status : Z) : bool := (200 <=? status)%Z && (status <=? 299)%Z.

(** What the window gives the script: [window.location.origin], the clock
    as [toLocaleTimeString('th-TH')] formats it at each reading,
    [new URL(url).hostname], and [toUpperCase]. *)
Record window : Type := mkWindow
  { origin : string;
    clock : nat -> string;
    hostname : string -> completion string;
    toUpperCase : string -> string }.

(** *** The script *)

Definition DEFAULT_INTERVAL_SECONDS : Z := 5.
Definition UPDATE_INTERVAL_MS : Z := DEFAULT_INTERVAL_SECONDS * 1000.
Definition MAX_DATA_POINTS : nat := 60.
Definition HIGH_LATENCY_THRESHOLD : float := 2000.
Definition BACKEND_API_ENDPOINT : string := "/api/check".
Definition SPLASH_DISPLAY_TIME_MS : Z := 1000.

(** The locals of [fetchRealData] that outlive its [try]. *)
Record locals : Type := mkLocals
  { avgLatency : value;
    errorRate : float;
    statusCode : value;
    insightMessage : string;
    isBackendIssue : bool }.

Section Script.
Variable env : window.

(** [new Date().toLocaleTimeString('th-TH')] *)
Definition toLocaleTimeString : M string :=
  fun p =>
    (Normal (clock env (clock_reads p)),
     mkPage (chartInstance p) (testTimer p) (isMonitoringPaused p)
       (monitoredTarget p) (errorRateHistory p) (timers p) (issued p)
       (awaited p) (sent p) (S (clock_reads p)) (effects p)).

Definition logMessage (message type : string) : M unit :=
  time <- toLocaleTimeString ;;
  let color :=
    if String.eqb type "success" then "var(--success-color)"
    else if String.eqb type "danger" then "var(--danger-color)"
    else if String.eqb type "warning" then "var(--warning-color)"
    else if String.eqb type "info" then "var(--primary-color)"
    else "" in
  perform (AppendListItem "logOutput"
             ("<span style=" ++ quote ++ "color: " ++ color ++ ";" ++ quote ++ ">["
              ++ time ++ "] " ++ message ++ "</span>")) ;;;
  perform (ScrollToBottom "logOutput").

Definition pauseMonitoring (issue action : string) : M unit :=
  paused <- read isMonitoringPaused ;;
  if paused : bool then ret tt
  else
    id <- read testTimer ;;
    clearInterval id ;;;
    write (set_isMonitoringPaused true) ;;;
    perform (SetTextContent "triageIssue" issue) ;;;
    perform (SetInnerHTML "triageAction2" action) ;;;
    perform (SetStyleDisplay "triageSection" "block") ;;;
    logMessage ("[AUTO-TRIAGE] Monitoring PAUSED. Issue: " ++ issue) "danger".

Definition initializeChart : M unit :=
  old <- read chartInstance ;;
  (match old with
   | Some _ => perform ChartDestroy
   | None => ret tt
   end) ;;;
  perform (ChartDefault "color" "#ccc") ;;;
  perform (ChartDefault "borderColor" "rgba(255, 255, 255, 0.1)") ;;;
  perform (ChartCreate "loadChart") ;;;
  write (set_chartInstance (Some (mkChart [] [] "#00ff73"))).

Definition updateChart (uptimeValue : float) : M unit :=
  timeLabel <- toLocaleTimeString ;;
  let numericUptime := if is_nan uptimeValue then 100%float else uptimeValue in
  instance <- read chartInstance ;;
  match instance with
  | None => throw (TypeError "Cannot read properties of undefined (reading 'data')")
  | Some c =>
      let pushed := mkChart (labels c ++ [timeLabel]) (dataset c ++ [numericUptime])
                      (borderColor c) in
      let kept :=
        if (MAX_DATA_POINTS <? List.length (labels pushed))%nat
        then mkChart (tl (labels pushed)) (tl (dataset pushed)) (borderColor pushed)
        else pushed in
      let color := "var(--success-color)" in
      let color := if (numericUptime <? 95)%float then "var(--warning-color)" else color in
      let color := if (numericUptime <? 90)%float then "var(--danger-color)" else color in
      write (set_chartInstance (Some (mkChart (labels kept) (dataset kept) color))) ;;;
      perform (ChartUpdate (Some "none"))
  end.

(** [fetchRealData()], up to its first [await]: the request is sent. *)
Definition fetchRealData : M unit :=
  current <- read monitoredTarget ;;
  match current with
  | None => ret tt
  | Some t =>
      paused <- read isMonitoringPaused ;;
      if paused : bool then ret tt
      else
        logMessage ("[FETCH] Requesting check for " ++ url t ++ " using " ++ method t
                    ++ "...") "info" ;;;
        fetch BACKEND_API_ENDPOINT
          (VObj [ ("url", VStr (url t)); ("method", VStr (method t)) ])
  end.

(** [monitoredTarget.method], read when the line is reached. *)
Definition target_method : M string :=
  current <- read monitoredTarget ;;
  match current with
  | Some t => ret (method t)
  | None => throw (TypeError "Cannot read properties of null (reading 'method')")
  end.

Definition target_url : M string :=
  current <- read monitoredTarget ;;
  match current with
  | Some t => ret (url t)
  | None => throw (TypeError "Cannot read properties of null (reading 'url')")
  end.

(** The [try] statement of [fetchRealData], entered once the [fetch] has
    settled with [o].  The [catch] assigns every local that outlives the
    [try], so the statement is a computation of those locals. *)
Definition fetchRealData_try (o : outcome) : M locals :=
  try_catch
    (match o with
     | Rejected e => throw e
     | Responded status json =>
         if negb (ok status) then
           throw (Error ("Backend HTTP Error: Status "
                         ++ Number_toString (float_of_Z status)))
         else
           data <- lift json ;;
           flag <- lift (Get data "isBackendError") ;;
           if ToBoolean flag then
             detail <- lift (Get data "errorDetail") ;;
             shown <- lift (ToString detail) ;;
             let insight :=
               "🚨 **BACKEND ERROR:** Server มีปัญหาในการติดต่อ Check-Host API ("
               ++ shown ++ ") อาจเกิดจาก Network/Firewall." in
             detail <- lift (Get data "errorDetail") ;;
             logged <- lift (ToString detail) ;;
             logMessage ("[BACKEND ERROR] " ++ logged) "danger" ;;;
             pauseMonitoring
               "Server Node.js ไม่สามารถติดต่อ Check-Host.net ได้"
               "ตรวจสอบ **Network/Firewall** ของ Server หรือผู้ให้บริการ Cloud ว่ามีการบล็อกการเชื่อมต่อขาออก (Outbound) หรือไม่" ;;;
             ret (mkLocals (VNum 0) 1 (VNum 0) insight true)
           else
             latency <- lift (Get data "latency") ;;
             parsed <- lift (parseFloat latency) ;;
             let avgLatency := toFixed 2 parsed in
             isUp <- lift (Get data "isUp") ;;
             let errorRate := if ToBoolean isUp then 0%float else 1%float in
             statusCode <- lift (Get data "statusCode") ;;
             name <- target_method ;;
             code <- lift (ToString statusCode) ;;
             isUp <- lift (Get data "isUp") ;;
             logMessage ("[RESULT:" ++ name ++ "] CODE " ++ code ++ " | Latency "
                         ++ avgLatency ++ "ms")
               (if ToBoolean isUp then "success" else "danger") ;;;
             ret (mkLocals (VStr avgLatency) errorRate statusCode
                    "Waiting for data..." false)
     end)
    (fun e =>
       let insight :=
         "❌ **FATAL CONNECTION ERROR:** ไม่สามารถติดต่อ Server API ได้ ("
         ++ message e ++ ")." in
       logMessage ("[CRITICAL ERROR] Failed to fetch API: " ++ message e) "danger" ;;;
       pauseMonitoring
         "Server API ออฟไลน์/ล่ม/ถูกบล็อกการเชื่อมต่อ"
         "ถ้าคุณรันในเครื่อง: ตรวจสอบ Terminal ว่า Node.js ยังทำงานอยู่หรือไม่ ถ้าเป็น Cloud: ตรวจสอบ Log และสถานะ Health Check" ;;;
       ret (mkLocals (VNum 0) 1 (VNum 0) insight true)).

(** "2. Update UI": the status text, its class, the status code as shown,
    and the insight. *)
Definition fetchRealData_status (vars : locals)
  : M (string * string * string * string) :=
  code <- lift (ToString (statusCode vars)) ;;
  if isBackendIssue vars then
    paused <- read isMonitoringPaused ;;
    ret (if paused : bool then "MONITORING PAUSED" else "SERVER ERROR",
         "text-error status-critical", "N/A", insightMessage vars)
  else if (0 <? errorRate vars)%float then
    high <- lift (at_least (statusCode vars) 500) ;;
    let outage := high || strict_equals (statusCode vars) (VNum 599)
                  || strict_equals (statusCode vars) (VNum 0) in
    code <- lift (ToString (statusCode vars)) ;;
    name <- target_method ;;
    failed <- lift (ToString (statusCode vars)) ;;
    ret (if outage : bool then "SERVER OUTAGE" else "REQUEST FAILURE",
         "text-error status-critical", code ++ " FAILURE",
         "🚨 **CRITICAL!** " ++ toUpperCase env name ++ " Check Failed (" ++ failed
         ++ "). **ACTION: Check target URL/Service.**")
  else
    slow <- lift (at_least (avgLatency vars) HIGH_LATENCY_THRESHOLD) ;;
    if slow : bool then
      code <- lift (ToString (statusCode vars)) ;;
      latency <- lift (ToString (avgLatency vars)) ;;
      name <- target_method ;;
      ret ("HIGH LATENCY", "text-latency", code ++ " Latency Warning",
           "🐌 **BOTTLENECK:** High latency (**" ++ latency ++ "ms**) detected for "
           ++ toUpperCase env name ++ ". **ACTION: Check network path.**")
    else
      code <- lift (ToString (statusCode vars)) ;;
      address <- target_url ;;
      name <- target_method ;;
      ret ("OPERATIONAL", "text-uptime", code ++ " OK",
           "Real-time data for " ++ address ++ " via " ++ toUpperCase env name
           ++ ". Latency is stable.").

(** The end of [fetchRealData]: the chart gets its point. *)
Definition fetchRealData_chart (vars : locals) (uptimePercent : string) : M unit :=
  instance <- read chartInstance ;;
  paused <- read isMonitoringPaused ;;
  match instance with
  | Some _ =>
      if negb paused then
        history <- read errorRateHistory ;;
        write (set_errorRateHistory (history ++ [errorRate vars])) ;;;
        history <- read errorRateHistory ;;
        (if (MAX_DATA_POINTS <? List.length history)%nat
         then write (set_errorRateHistory (tl history))
         else ret tt) ;;;
        updateChart (parseFloat_string uptimePercent)
      else ret tt
  | None => initializeChart
  end.

(** What follows the [try] statement: the metrics, the status, and the
    point on the chart. *)
Definition fetchRealData_update (vars : locals) : M unit :=
  let uptimePercent := toFixed 2 ((1 - errorRate vars) * 100)%float in
  shown <- fetchRealData_status vars ;;
  let '(statusText, statusClass, statusCodeDisplay, insightMessage) := shown in
  perform (SetTextContent "currentStatusText" statusText) ;;;
  perform (SetClassName "currentStatusText" ("metric-value mt-2 " ++ statusClass)) ;;;
  perform (SetTextContent "currentStatusCode" ("CODE: " ++ statusCodeDisplay)) ;;;
  perform (SetClassName "currentStatusCode"
             ("badge p-2 " ++ (if includes statusClass "status-critical"
                               then "bg-danger" else "bg-primary"))) ;;;
  latency <- lift (ToString (avgLatency vars)) ;;
  perform (SetTextContent "metricLatency" latency) ;;;
  perform (SetTextContent "metricErrors"
             (toFixed 2 (errorRate vars * 100)%float ++ "%")) ;;;
  perform (SetInnerHTML "insightText" insightMessage) ;;;
  fetchRealData_chart vars uptimePercent.

(** The rest of [fetchRealData], run once the [fetch] has settled with
    [o]. *)
Definition fetchRealData_settled (o : outcome) : M unit :=
  vars <- fetchRealData_try o ;;
  fetchRealData_update vars.

Definition startMonitoring (interval : Z) : M unit :=
  id <- read testTimer ;;
  (if timer_truthy id then clearInterval id else ret tt) ;;;
  paused <- read isMonitoringPaused ;;
  if paused : bool then ret tt
  else
    fetchRealData ;;;
    id <- setInterval FetchRealData interval ;;
    write (set_testTimer (Some id)).

Definition resumeMonitoring : M unit :=
  paused <- read isMonitoringPaused ;;
  if negb paused then ret tt
  else
    perform (SetStyleDisplay "triageSection" "none") ;;;
    write (set_isMonitoringPaused false) ;;;
    logMessage "[AUTO-TRIAGE] Monitoring RESUMED. Starting check cycle." "warning" ;;;
    current <- read monitoredTarget ;;
    match current with
    | Some t => startMonitoring (interval t)
    | None => throw (TypeError "Cannot read properties of null (reading 'interval')")
    end.

(** [chartInstance.data.labels = []; chartInstance.data.datasets[0].data = [];
    chartInstance.update()], under [if (chartInstance)]. *)
Definition clear_chart : M unit :=
  instance <- read chartInstance ;;
  match instance with
  | Some c =>
      write (set_chartInstance (Some (mkChart [] [] (borderColor c)))) ;;;
      perform (ChartUpdate None)
  | None => ret tt
  end.

Definition resetApp : M unit :=
  id <- read testTimer ;;
  (if timer_truthy id then clearInterval id else ret tt) ;;;
  write (set_monitoredTarget None) ;;;
  write (set_errorRateHistory []) ;;;
  write (set_isMonitoringPaused false) ;;;
  perform (SetStyleDisplay "triageSection" "none") ;;;
  clear_chart ;;;
  perform (SetStyleDisplay "mainDashboard" "none") ;;;
  perform (SetStyleDisplay "urlInputPage" "flex") ;;;
  logMessage "MONITORING TERMINATED." "danger".

Definition showDashboard (url method : string) : M unit :=
  host <- lift (hostname env url) ;;
  perform (SetTextContent "monitoredUrl" host) ;;;
  perform (SetTextContent "monitoredMethod" (toUpperCase env method)) ;;;
  perform (SetStyleDisplay "urlInputPage" "none") ;;;
  perform (SetStyleDisplay "mainDashboard" "block") ;;;
  logMessage ("DASHBOARD LOADED. Starting check via Backend: " ++ origin env
              ++ BACKEND_API_ENDPOINT ++ " with METHOD: " ++ method) "success".

(** The [submit] listener of the form, on the values of its two fields. *)
Definition submit (targetUrl monitoringMethod : string) : M unit :=
  perform PreventDefault ;;;
  write (set_monitoredTarget
           (Some (mkTarget targetUrl monitoringMethod UPDATE_INTERVAL_MS))) ;;;
  showDashboard targetUrl monitoringMethod ;;;
  clear_chart ;;;
  current <- read monitoredTarget ;;
  match current with
  | Some t => startMonitoring (interval t)
  | None => throw (TypeError "Cannot read properties of null (reading 'interval')")
  end.

(** The [DOMContentLoaded] listener and its two timeouts. *)
Definition loaded : M unit :=
  initializeChart ;;;
  perform (SetTextContent "serverAddress" (origin env)) ;;;
  _ <- setTimeout FadeSplash SPLASH_DISPLAY_TIME_MS ;;
  ret tt.

Definition run_task (t : task) : M unit :=
  match t with
  | FadeSplash =>
      perform (ClassListAdd "splashScreen" "fade-out") ;;;
      _ <- setTimeout HideSplash 1000 ;;
      ret tt
  | HideSplash =>
      perform (SetStyleDisplay "splashScreen" "none") ;;;
      perform (SetStyleDisplay "urlInputPage" "flex")
  | FetchRealData => fetchRealData
  end.

(** *** The page in its window *)

(** What can happen to the page: the document is loaded, a timer comes
    due, the form is submitted, one of the two [onclick] links is clicked, an
    awaited request settles. *)
Inductive event : Type :=
| DOMContentLoaded
| TimerDue (id : nat)
| Submit (targetUrl monitoringMethod : string)
| ClickRestart
| ClickResume
| Settled (request : nat) (o : outcome).

(** A timer that is due runs its callback if it is still active; a timeout
    is spent by that, an interval stays. *)
Definition due (id : nat) : M unit :=
  active <- read timers ;;
  match find (fun t => Nat.eqb (timer_id t) id) active with
  | Some t =>
      (if repeats t then ret tt else clearInterval (Some id)) ;;;
      run_task (callback t)
  | None => ret tt
  end.

(** An awaited request settles once. *)
Definition settle (request : nat) (o : outcome) : M unit :=
  waiting <- read awaited ;;
  if existsb (Nat.eqb request) waiting then
    write (fun p =>
             mkPage (chartInstance p) (testTimer p) (isMonitoringPaused p)
               (monitoredTarget p) (errorRateHistory p) (timers p) (issued p)
               (filter (fun k => negb (Nat.eqb k request)) (awaited p)) (sent p)
               (clock_reads p) (effects p)) ;;;
    fetchRealData_settled o
  else ret tt.

Definition handle (ev : event) : M unit :=
  match ev with
  | DOMContentLoaded => loaded
  | TimerDue id => due id
  | Submit targetUrl monitoringMethod => submit targetUrl monitoringMethod
  | ClickRestart => resetApp
  | ClickResume => resumeMonitoring
  | Settled request o => settle request o
  end.

(** The page after the events [evs]; an exception ends the listener that
    raised it and leaves the page as it was at that point. *)
Definition after (evs : list event) (p : page) : page :=
  fold_left (fun p ev => snd (handle ev p)) evs p.

End Script.

End Page.

(** ** What the statements about the page use *)

Module PageNotions.
Import JS Page.

(** A timer that calls [fetchRealData]. *)
Definition polling (t : timer) : bool :=
  match callback t with
  | FetchRealData => true
  | _ => false
  end.

(** The bodies of the requests a log holds, oldest first. *)
Fixpoint posts (log : list effect) : list (string * value) :=
  match log with
  | [] => []
  | Post address body :: log' => (address, body) :: posts log'
  | _ :: log' => posts log'
  end.

(** The text an element shows: what was last assigned to its
    [textContent]. *)
Fixpoint shown (id : string) (log : list effect) (before : option string)
  : option string :=
  match log with
  | [] => before
  | SetTextContent id' text :: log' =>
      shown id log' (if String.eqb id' id then Some text else before)
  | _ :: log' => shown id log' before
  end.

(** The last [n] elements of a list. *)
Definition last_n {A : Type} (n : nat) (l : list A) : list A :=
  skipn (List.length l - n) l.

(** The timers are as the script means them to be: ids are positive and
    never handed out twice, and a timer that polls is the one [testTimer]
    names; there is none while monitoring is paused or has no target. *)
Record disciplined (p : page) : Prop :=
  { ids_issued : forall t, In t (timers p) -> (1 <= timer_id t <= issued p)%nat;
    ids_differ : NoDup (map timer_id (timers p));
    testTimer_issued : forall id, testTimer p = Some id -> (1 <= id <= issued p)%nat;
    polling_is_testTimer :
      forall t, In t (timers p) -> polling t = true ->
                testTimer p = Some (timer_id t)
                /\ repeats t = true /\ period t = UPDATE_INTERVAL_MS;
    paused_is_idle :
      isMonitoringPaused p = true -> forall t, In t (timers p) -> polling t = false;
    no_target_is_idle :
      monitoredTarget p = None -> forall t, In t (timers p) -> polling t = false;
    interval_is_constant :
      forall t, monitoredTarget p = Some t -> interval t = UPDATE_INTERVAL_MS }.

(** [m], started where [P] holds, ends where [Q] holds of its result, or
    throws where [E] holds. *)
Definition triple {A : Type} (P : page -> Prop) (m : M A)
  (Q : A -> page -> Prop) (E : page -> Prop) : Prop :=
  forall p, P p -> match m p with
                   | (Normal a, p') => Q a p'
                   | (Throw _, p') => E p'
                   end.

(** [m] keeps the invariant [I], however it ends. *)
Definition preserves {A : Type} (I : page -> Prop) (m : M A) : Prop :=
  triple I m (fun _ => I) I.

(** [m] leaves [view] of the page as it is. *)
Definition keeps {A B : Type} (view : page -> B) (m : M A) : Prop :=
  forall p, view (snd (m p)) = view p.

(** What the timers depend on. *)
Definition controls (p : page)
  : option nat * bool * option target * list timer * nat :=
  (testTimer p, isMonitoringPaused p, monitoredTarget p, timers p, issued p).

(** What the requests depend on. *)
Definition traffic (p : page) : list nat * nat * list (string * value) :=
  (awaited p, sent p, posts (effects p)).

(** What the chart depends on. *)
Definition charted (p : page) : option chart * list float :=
  (chartInstance p, errorRateHistory p).

(** The status the page shows is set to [text]. *)
Definition status_text (text : string) : effect :=
  SetTextContent "currentStatusText" text.

(** What the [try] statement of [fetchRealData] has done when it ends with
    the locals [vars], from the page [p] to the page [p']. *)
Record try_result (p : page) (vars : locals) (p' : page) : Prop :=
  { try_charted : charted p' = charted p;
    try_traffic : traffic p' = traffic p;
    try_rate : errorRate vars = 0%float \/ errorRate vars = 1%float;
    try_failed :
      isBackendIssue vars = true ->
      isMonitoringPaused p' = true
      /\ avgLatency vars = VNum 0
      /\ errorRate vars = 1%float
      /\ statusCode vars = VNum 0;
    try_passed :
      isBackendIssue vars = false ->
      controls p' = controls p
      /\ (exists t, monitoredTarget p = Some t)
      /\ (exists text, avgLatency vars = VStr text)
      /\ (exists code, ToString (statusCode vars) = Normal code);
    try_stays_paused : isMonitoringPaused p = true -> isMonitoringPaused p' = true;
    try_status :
      forall text, In (status_text text) (effects p') -> In (status_text text) (effects p) }.

(** A chart as the script keeps it: a label for every point, at most
    [MAX_DATA_POINTS] of them, every point 0 or 100. *)
Record plotted (c : chart) : Prop :=
  { labelled : List.length (labels c) = List.length (dataset c);
    windowed : (List.length (dataset c) <= MAX_DATA_POINTS)%nat;
    all_or_nothing : Forall (fun x => x = 0%float \/ x = 100%float) (dataset c) }.

Record charted_well (p : page) : Prop :=
  { chart_plotted : forall c, chartInstance p = Some c -> plotted c;
    history_windowed : (List.length (errorRateHistory p) <= MAX_DATA_POINTS)%nat;
    history_rates : Forall (fun x => x = 0%float \/ x = 1%float) (errorRateHistory p) }.

(** The page has never shown the status 'SERVER ERROR'. *)
Definition unalarmed (p : page) : Prop :=
  ~ In (status_text "SERVER ERROR") (effects p).

(** [toUpperCase] on ASCII text. *)
Definition upper (c : ascii) : ascii :=
  let n := nat_of_ascii c in
  if ((97 <=? n) && (n <=? 122))%nat then ascii_of_nat (n - 32) else c.

Fixpoint upper_case (s : string) : string :=
  match s with
  | EmptyString => EmptyString
  | String c s' => String (upper c) (upper_case s')
  end.

(** A window for the instances: its clock stands still, its URL parser is
    given for the two addresses the instances use, and its [toUpperCase] is
    that of ASCII text. *)
Definition still_window : window :=
  mkWindow "http://localhost:3000" (fun _ => "12:00:00")
    (fun u => if String.eqb u "https://example.com" then Normal "example.com"
              else if String.eqb u "https://example.org" then Normal "example.org"
              else Throw (TypeError "Invalid URL"))
    upper_case.

End PageNotions.

(** * Properties *)

(** ** The built-ins, on values whose result in Node is known *)

Module BuiltinFacts.
Import JS Relay.
Local Open Scope float_scope.

(** JSON text [0.35] is read as the binary64 nearest to it. *)
Example parse_0_35 : StringToNumber "0.35" = 0x1.6666666666666p-2.
Proof. vm_compute. reflexivity. Qed.

Example times_1000 : Math_round (0x1.6666666666666p-2 * 1000) = 350.
Proof. vm_compute. reflexivity. Qed.

Example round_half_up :
  map Math_round [2.5; -2.5; -0.25; 0x1.fffffffffffffp-2; 0.5; -3.5; nan]
  = [3; -2; -0; 0; 1; -3; nan].
Proof. vm_compute. reflexivity. Qed.

Example parseInt_examples :
  map parseInt_string ["200"; "0"; " 404 Not Found"; "12.7"; "-0"; "0x1F"; "1e3"]
  = [200; 0; 404; 12; -0; 31; 1].
Proof. vm_compute. reflexivity. Qed.

Example parseInt_unparseable :
  map parseInt_string ["abc"; ""; "N/A"; "0x"; "-"] = [nan; nan; nan; nan; nan].
Proof. vm_compute. reflexivity. Qed.

Example StringToNumber_examples :
  map StringToNumber [""; "  12  "; "1e3"; "0x10"; ".5"; "5."; "1.5e-3"; "-Infinity"]
  = [0; 12; 1000; 16; 0.5; 5; 0x1.89374bc6a7efap-10; neg_infinity]
  /\ map StringToNumber ["."; "1e"; "12px"; "- 5"] = [nan; nan; nan; nan].
Proof. split; vm_compute; reflexivity. Qed.

Example Number_toString_examples :
  map Number_toString
    [350; 0x1.6666666666666p-2; 1e21; 0x1.ac53a7e04bcdap+66; 0x0.0000000000001p-1022;
     0x1.999999999999ap-4 + 0x1.999999999999ap-3; 0x1.0c6f7a0b5ed8dp-20; 0x1.ad7f29abcaf48p-24; -0; nan]
  = ["350"; "0.35"; "1e+21"; "123456789012345680000"; "5e-324";
     "0.30000000000000004"; "0.000001"; "1e-7"; "0"; "NaN"].
Proof. vm_compute. reflexivity. Qed.

Example ToString_examples :
  map ToString
    [VArr [VNum 1; VNull; VStr "a"; VArr [VNum 2.5; VNum 3]; VObj []];
     VArr []; VObj [("a", VNum 1)]; VObj [("toString", VNum 1)]; VBool true]
  = [Normal "1,,a,2.5,3,[object Object]"; Normal ""; Normal "[object Object]";
     Throw not_primitive; Normal "true"].
Proof. vm_compute. reflexivity. Qed.

Example lookup_examples :
  map (lookup V23.METHOD_ENDPOINT_MAP) ["http"; "udp"; "ftp"; "constructor"]
  = [Endpoint "check-http"; Endpoint "check-udp"; NoEndpoint;
     Inherited "function Object() { [native code] }"].
Proof. reflexivity. Qed.

Example JSON_wire_example :
  JSON_wire (VObj [("a", VNum nan); ("b", VUndefined);
                   ("c", VArr [VUndefined; VNum neg_zero; VNum 1.5])])
  = VObj [("a", VNull); ("c", VArr [VNull; VNum 0; VNum 1.5])].
Proof. vm_compute. reflexivity. Qed.

End BuiltinFacts.

(** ** Reasoning about computations *)

Module Logic.
Import JS Relay Notions.
Local Open Scope list_scope.

Create HintDb orderly.

Lemma gets_app (w v : world) : gets (w ++ v) = gets w ++ gets v.
Proof. unfold gets. apply filter_app. Qed.

Lemma calls_app (w v : world) : calls (w ++ v) = (calls w + calls v)%nat.
Proof. unfold calls. rewrite gets_app. apply length_app. Qed.

Lemma resolved_app upstream (evs1 evs2 : list event) :
  forall k t,
    resolved upstream k evs1 None ->
    resolved upstream (k + calls evs1) evs2 t ->
    resolved upstream k (evs1 ++ evs2) t.
Proof.
  induction evs1 as [|ev evs1 IH]; intros k t H1 H2; simpl in *.
  - now rewrite Nat.add_0_r in H2.
  - destruct ev as [url tm | ms | label text]; simpl in *.
    + destruct (upstream k url) as [d | e].
      * apply IH; [assumption|].
        unfold calls in *. simpl in H2. now rewrite Nat.add_succ_r in H2.
      * destruct H1 as [_ H1]. discriminate H1.
    + apply IH; assumption.
    + apply IH; assumption.
Qed.

Lemma resolved_nth upstream (evs : list event) :
  forall k t j url tm e,
    resolved upstream k evs t ->
    nth_error (gets evs) j = Some (AxiosGet url tm) ->
    upstream (k + j)%nat url = Throw e ->
    t = Some e /\ calls evs = S j.
Proof.
  induction evs as [|ev evs IH]; intros k t j url tm e Hres Hnth Hup.
  - destruct j; discriminate Hnth.
  - destruct ev as [url' tm' | ms | label text]; simpl in *.
    + destruct j as [|j]; simpl in Hnth.
      * injection Hnth as -> ->. rewrite Nat.add_0_r in Hup. rewrite Hup in Hres.
        destruct Hres as [Hrest ->]. split; [reflexivity|].
        unfold calls. simpl. now rewrite Hrest.
      * destruct (upstream k url') as [d | e'].
        -- rewrite Nat.add_succ_r in Hup.
           destruct (IH (S k) t j url tm e Hres Hnth Hup) as [-> Hc].
           split; [reflexivity|]. unfold calls in *. simpl. now rewrite Hc.
        -- destruct Hres as [Hrest _]. rewrite Hrest in Hnth. destruct j; discriminate Hnth.
    + apply (IH k t j url tm e); assumption.
    + apply (IH k t j url tm e); assumption.
Qed.

Section Rules.
Context {A B : Type} (upstream : service).

Lemma orderly_ret (a : A) : orderly upstream (ret a).
Proof. intros w. exists []. simpl. now rewrite app_nil_r. Qed.

Lemma orderly_lift (c : completion A) : orderly upstream (lift c).
Proof. intros w. exists []. simpl. now rewrite app_nil_r. Qed.

Lemma orderly_bind (m : M A) (f : A -> M B) :
  orderly upstream m -> (forall a, orderly upstream (f a)) ->
  orderly upstream (bind m f).
Proof.
  intros Hm Hf w. unfold bind.
  destruct (Hm w) as (evs1 & Hw1 & Hr1).
  destruct (m w) as [[a | e] w1]; simpl in *.
  - destruct (Hf a w1) as (evs2 & Hw2 & Hr2).
    exists (evs1 ++ evs2). subst w1. split.
    + rewrite Hw2. now rewrite app_assoc.
    + apply resolved_app; [assumption|]. now rewrite <- calls_app.
  - exists evs1. split; assumption.
Qed.

End Rules.

Lemma orderly_delay upstream ms : orderly upstream (delay ms).
Proof. intros w. exists [Delay ms]. simpl. split; [reflexivity | exact I]. Qed.

Lemma orderly_console_error upstream label text :
  orderly upstream (console_error label text).
Proof. intros w. exists [ConsoleError label text]. simpl. split; [reflexivity | exact I]. Qed.

Lemma orderly_axios_get upstream url tm : orderly upstream (axios_get upstream url tm).
Proof.
  intros w. exists [AxiosGet url tm]. unfold axios_get. simpl. split; [reflexivity|].
  destruct (upstream (calls w) url); simpl; auto.
Qed.

#[global] Hint Resolve orderly_ret orderly_lift orderly_delay orderly_console_error
  orderly_axios_get : orderly.

(** Splits an orderly goal along the binds and the tests of a handler. *)
Ltac orderly :=
  repeat first
    [ apply orderly_bind; [| intro]
    | progress auto with orderly
    | match goal with
      | |- orderly _ (if ?c then _ else _) => destruct c
      | |- orderly _ (match ?c with _ => _ end) => destruct c
      end ].

Section Ensures.
Context {A B : Type} (P : B -> Prop).

Lemma ensures_ret (b : B) : P b -> ensures P (ret b).
Proof. intros H w a w' E. injection E as <- _. exact H. Qed.

Lemma ensures_bind (m : M A) (f : A -> M B) :
  (forall a, ensures P (f a)) -> ensures P (bind m f).
Proof.
  intros Hf w b w' E. unfold bind in E.
  destruct (m w) as [[a | e] w1]; [exact (Hf a w1 b w' E) | discriminate E].
Qed.


End Ensures.

(** Splits an [ensures] goal along the binds and the tests of a handler. *)
Ltac ensures :=
  repeat first
    [ apply ensures_bind; intro
    | apply ensures_ret
    | match goal with
      | |- ensures _ (if ?c then _ else _) => destruct c
      | |- ensures _ (match ?c with _ => _ end) => destruct c
      end ].

Lemma bind_normal {A B : Type} (a : A) (f : A -> M B) (w : world) :
  bind (lift (Normal a)) f w = f a w.
Proof. reflexivity. Qed.

Lemma bind_throw {A B : Type} (e : error) (f : A -> M B) (w : world) :
  bind (lift (Throw e)) f w = (Throw e, w).
Proof. reflexivity. Qed.

End Logic.

(** ** Both handlers are orderly *)

Module Orderly.
Import JS Relay Notions Logic.

Lemma V23_poll upstream node_id request_id left :
  orderly upstream (V23.poll upstream node_id request_id left).
Proof. induction left; simpl; orderly. Qed.

Lemma V23_process upstream checkResult : orderly upstream (V23.process checkResult).
Proof. unfold V23.process. orderly. Qed.

Lemma V23_attempt upstream url method apiEndpoint node_id :
  orderly upstream (V23.attempt upstream url method apiEndpoint node_id).
Proof.
  pose proof (V23_poll upstream). pose proof (V23_process upstream).
  unfold V23.attempt. orderly.
Qed.

Lemma V30_poll upstream node_id request_id left :
  orderly upstream (V30.poll upstream node_id request_id left).
Proof. induction left; simpl; orderly. Qed.

Lemma V30_process upstream checkResult : orderly upstream (V30.process checkResult).
Proof. unfold V30.process. orderly. Qed.

Lemma V30_attempt upstream url method apiEndpoint node_id :
  orderly upstream (V30.attempt upstream url method apiEndpoint node_id).
Proof.
  pose proof (V30_poll upstream). pose proof (V30_process upstream).
  unfold V30.attempt. orderly.
Qed.

End Orderly.

(** ** Transport failures *)

Module Failures.
Import JS Relay Notions Scenarios Logic.
Local Open Scope list_scope.
Local Open Scope float_scope.

(** The [catch] block always answers, given that the method could be made a
    string (which the endpoint lookup has already done). *)
Lemma V23_recover method name e w :
  ToString method = Normal name ->
  exists detail,
    V23.recover method e w
    = (Normal (mkResponse 200 (backend_error detail)),
       w ++ [ConsoleError "[BACKEND ERROR]" detail])
    /\ detail = (if timeout_code e
                 then "Backend Timeout when calling Check-Host API for " ++ name ++ "."
                 else "Backend failed to connect to Check-Host: " ++ message e)%string.
Proof.
  intros Hname. unfold V23.recover, timeout_code, bind, lift.
  destruct (code e) as [c|].
  - destruct (String.eqb c "ECONNABORTED" || String.eqb c "ETIMEDOUT").
    + rewrite Hname. eexists. split; reflexivity.
    + eexists. split; reflexivity.
  - eexists. split; reflexivity.
Qed.

(** C1. When an outbound call of a run (the submission, call 0, or a poll)
    rejects with an error, [server.js] answers 200 with
    [{isBackendError: true, errorDetail, statusCode: 0}]; the detail is the
    timeout sentence when the error's code is ECONNABORTED or ETIMEDOUT and
    quotes the error's message otherwise; the handler does not throw; and
    the rejected call is the last one of the run, so a rejected submission
    is followed by no poll. *)
Theorem transport_failure_is_caught :
  forall (upstream : service) (req_body : value) r w k url tm e,
    V23.run upstream req_body = (r, w) ->
    nth_error (gets w) k = Some (AxiosGet url tm) ->
    upstream k url = Throw e ->
    exists method name detail,
      Get req_body "method" = Normal method
      /\ ToString method = Normal name
      /\ r = Normal (mkResponse 200 (backend_error detail))
      /\ detail = (if timeout_code e
                   then "Backend Timeout when calling Check-Host API for " ++ name ++ "."
                   else "Backend failed to connect to Check-Host: " ++ message e)%string
      /\ calls w = S k.
Proof.
  intros upstream req_body r w k url tm e Hrun Hnth Hup.
  unfold V23.run, V23.api_check in Hrun.
  assert (Hnil : forall j, nth_error (gets []) j <> Some (AxiosGet url tm))
    by (intros [|j]; discriminate).
  destruct (Get req_body "url") as [u|e0] eqn:Hu;
    [rewrite bind_normal in Hrun
    | rewrite bind_throw in Hrun; injection Hrun as <- <-; now apply Hnil in Hnth].
  destruct (Get req_body "method") as [method|e0] eqn:Hm;
    [rewrite bind_normal in Hrun
    | rewrite bind_throw in Hrun; injection Hrun as <- <-; now apply Hnil in Hnth].
  destruct (negb (ToBoolean u) || negb (ToBoolean method));
    [injection Hrun as <- <-; now apply Hnil in Hnth|].
  destruct (ToString method) as [name|e0] eqn:Hname;
    [rewrite bind_normal in Hrun
    | rewrite bind_throw in Hrun; injection Hrun as <- <-; now apply Hnil in Hnth].
  destruct (negb (endpoint_truthy (lookup V23.METHOD_ENDPOINT_MAP name))).
  { rewrite bind_normal in Hrun. injection Hrun as <- <-. now apply Hnil in Hnth. }
  exists method, name.
  unfold try_catch in Hrun.
  destruct (Orderly.V23_attempt upstream u method
              (lookup V23.METHOD_ENDPOINT_MAP name) DEFAULT_NODE_ID [])
    as (evs & Hw & Hres).
  destruct (V23.attempt upstream u method (lookup V23.METHOD_ENDPOINT_MAP name)
              DEFAULT_NODE_ID []) as [[resp | e'] w1]; simpl in Hw, Hres; subst w1.
  - injection Hrun as <- <-.
    destruct (resolved_nth upstream evs 0 None k url tm e Hres Hnth Hup) as [H _].
    discriminate H.
  - destruct (V23_recover method name e' evs Hname) as (detail & Hrec & Hdetail).
    rewrite Hrec in Hrun. injection Hrun as <- <-.
    rewrite gets_app in Hnth. simpl in Hnth. rewrite app_nil_r in Hnth.
    destruct (resolved_nth upstream evs 0 (Some e') k url tm e Hres Hnth Hup) as [H Hc].
    injection H as ->.
    exists detail. repeat split; try assumption.
    rewrite calls_app, Hc. unfold calls. simpl. lia.
Qed.

Lemma transport_failure_is_caught_witness :
  exists method name detail,
    Get (request "example.com" "http") "method" = Normal method
    /\ ToString method = Normal name
    /\ Normal (mkResponse 200
                 (backend_error "Backend Timeout when calling Check-Host API for http."))
       = Normal (mkResponse 200 (backend_error detail))
    /\ detail = (if timeout_code
                      (mkError (Some "ECONNABORTED") "timeout of 8000ms exceeded")
                 then "Backend Timeout when calling Check-Host API for " ++ name ++ "."
                 else "Backend failed to connect to Check-Host: "
                      ++ message (mkError (Some "ECONNABORTED")
                                    "timeout of 8000ms exceeded"))%string
    /\ calls
         [ AxiosGet
             "https://check-host.net/check-http?host=example.com&node=sg1.node.check-host.net"
             8000;
           ConsoleError "[BACKEND ERROR]"
             "Backend Timeout when calling Check-Host API for http." ]
       = 1%nat.
Proof.
  exact (transport_failure_is_caught timing_out (request "example.com" "http")
           _ _ 0%nat _ 8000%Z _ eq_refl eq_refl eq_refl).
Defined.

End Failures.

(** ** Validation and status codes *)

Module Validation.
Import JS Relay Notions Scenarios Logic.
Local Open Scope list_scope.
Local Open Scope float_scope.

Lemma assoc_in (table : list (string * string)) (key v : string) :
  assoc table key = Some v -> In (key, v) table.
Proof.
  induction table as [|[k x] table IH]; simpl; [discriminate|].
  destruct (String.eqb_spec k key) as [-> | _].
  - intros [= ->]. now left.
  - intros H. right. now apply IH.
Qed.

(** The names [server.js] maps to are not empty, so an own entry is truthy. *)
Lemma V23_endpoint_truthy (key : string) :
  endpoint_truthy (lookup V23.METHOD_ENDPOINT_MAP key) = false
  <-> lookup V23.METHOD_ENDPOINT_MAP key = NoEndpoint.
Proof.
  unfold lookup.
  destruct (assoc V23.METHOD_ENDPOINT_MAP key) as [name|] eqn:E.
  - apply assoc_in in E. simpl in E.
    split; [|discriminate].
    repeat (destruct E as [[= <- <-] | E]; [discriminate|]). destruct E.
  - destruct (assoc Object_prototype key); simpl; split; congruence.
Qed.


Lemma V23_recover_200 method e :
  ensures (fun resp => status resp = 200%Z) (V23.recover method e).
Proof. unfold V23.recover. ensures; reflexivity. Qed.

(** The run of a request that passes both checks is the [try] statement. *)
Lemma V23_valid upstream req_body url method name :
  Get req_body "url" = Normal url ->
  Get req_body "method" = Normal method ->
  ToBoolean url = true ->
  ToBoolean method = true ->
  ToString method = Normal name ->
  lookup V23.METHOD_ENDPOINT_MAP name <> NoEndpoint ->
  V23.run upstream req_body
  = try_catch (V23.attempt upstream url method
                 (lookup V23.METHOD_ENDPOINT_MAP name) DEFAULT_NODE_ID)
      (V23.recover method) [].
Proof.
  intros Hu Hm Tu Tm Hname Hep.
  unfold V23.run, V23.api_check.
  rewrite Hu, bind_normal, Hm, bind_normal, Tu, Tm. cbn [negb orb].
  rewrite Hname, bind_normal.
  destruct (endpoint_truthy (lookup V23.METHOD_ENDPOINT_MAP name)) eqn:E.
  - reflexivity.
  - apply V23_endpoint_truthy in E. contradiction.
Qed.

(** The run of a request that fails a check: no call is made. *)
Lemma V23_invalid upstream req_body url method :
  Get req_body "url" = Normal url ->
  Get req_body "method" = Normal method ->
  ToBoolean url = false \/ ToBoolean method = false ->
  V23.run upstream req_body = (Normal (mkResponse 400 missing_fields), []).
Proof.
  intros Hu Hm H.
  unfold V23.run, V23.api_check.
  rewrite Hu, bind_normal, Hm, bind_normal.
  destruct H as [-> | ->]; [|rewrite orb_true_r]; reflexivity.
Qed.

Lemma V23_unsupported upstream req_body url method name :
  Get req_body "url" = Normal url ->
  Get req_body "method" = Normal method ->
  ToBoolean url = true ->
  ToBoolean method = true ->
  ToString method = Normal name ->
  lookup V23.METHOD_ENDPOINT_MAP name = NoEndpoint ->
  V23.run upstream req_body = (Normal (mkResponse 400 (unsupported name)), []).
Proof.
  intros Hu Hm Tu Tm Hname Hep.
  unfold V23.run, V23.api_check.
  rewrite Hu, bind_normal, Hm, bind_normal, Tu, Tm. cbn [negb orb].
  rewrite Hname, bind_normal, Hep. cbn [endpoint_truthy negb].
  reflexivity.
Qed.




(** C3, as the code has it.  A request whose method names no property of
    the endpoint map (own or inherited) is answered 400 without any outbound
    call; when [url] and [method] are both truthy the body is
    [{isBackendError: true, errorDetail: 'Unsupported method: m.',
    statusCode: 0}], which the page reads as a backend error. *)
Theorem unmapped_method_is_rejected :
  forall (upstream : service) (req_body url method : value) (name : string),
    Get req_body "url" = Normal url ->
    Get req_body "method" = Normal method ->
    ToString method = Normal name ->
    lookup V23.METHOD_ENDPOINT_MAP name = NoEndpoint ->
    V23.run upstream req_body
    = (Normal (mkResponse 400
                 (if ToBoolean url && ToBoolean method
                  then unsupported name else missing_fields)),
       [])
    /\ calls (snd (V23.run upstream req_body)) = 0%nat
    /\ marked_backend_error (unsupported name) = true.
Proof.
  intros upstream req_body url method name Hu Hm Hname Hep.
  assert (Hrun : V23.run upstream req_body
                 = (Normal (mkResponse 400
                              (if ToBoolean url && ToBoolean method
                               then unsupported name else missing_fields)),
                    [])).
  { destruct (ToBoolean url) eqn:Tu; [destruct (ToBoolean method) eqn:Tm|].
    - now apply V23_unsupported with (url := url) (method := method).
    - apply V23_invalid with (url := url) (method := method); auto.
    - apply V23_invalid with (url := url) (method := method); auto. }
  rewrite Hrun. repeat split.
Qed.

Lemma unmapped_method_is_rejected_witness :
  V23.run timing_out (request "example.com" "ftp")
  = (Normal (mkResponse 400
               (if ToBoolean (VStr "example.com") && ToBoolean (VStr "ftp")
                then unsupported "ftp" else missing_fields)),
     [])
  /\ calls (snd (V23.run timing_out (request "example.com" "ftp"))) = 0%nat
  /\ marked_backend_error (unsupported "ftp") = true.
Proof.
  exact (unmapped_method_is_rejected timing_out (request "example.com" "ftp")
           (VStr "example.com") (VStr "ftp") "ftp" eq_refl eq_refl eq_refl eq_refl).
Defined.

(** C3 as the spec words it fails on [{url: 'example.com', method: 'ftp'}]:
    the rejection is marked [isBackendError: true]. *)
Lemma unmapped_rule_fails_on_ftp :
  ~ unmapped_rule V23.METHOD_ENDPOINT_MAP V23.run timing_out
      (request "example.com" "ftp").
Proof.
  intros H.
  destruct (H (VStr "ftp") "ftp" _ _ eq_refl eq_refl eq_refl eq_refl) as (_ & Hmark & _).
  discriminate Hmark.
Qed.

(** A name that the map inherits from [Object.prototype] is not one of its
    keys, yet the lookup finds it: the request passes the check and the
    upstream is called, at an address made of the function's text. *)
Example inherited_name_is_submitted :
  assoc V23.METHOD_ENDPOINT_MAP "constructor" = None
  /\ V23.run timing_out (request "example.com" "constructor")
     = (Normal (mkResponse 200
                  (backend_error
                     "Backend Timeout when calling Check-Host API for constructor.")),
        [ AxiosGet
            "https://check-host.net/function Object() { [native code] }?host=example.com&node=sg1.node.check-host.net"
            8000;
          ConsoleError "[BACKEND ERROR]"
            "Backend Timeout when calling Check-Host API for constructor." ]).
Proof. split; reflexivity. Qed.

(** Before the [try], the handler can throw: a method that is an object
    with an own [toString] property cannot be made a property key. *)
Example unprintable_method_throws :
  V23.run timing_out
    (VObj [ ("url", VStr "example.com"); ("method", VObj [ ("toString", VNum 1) ]) ])
  = (Throw not_primitive, []).
Proof. reflexivity. Qed.

End Validation.

(** ** Submission and polling *)

Module Submission.
Import JS Relay Notions Scenarios Logic Validation Failures.
Local Open Scope list_scope.
Local Open Scope float_scope.

Lemma Get_defined (v a : value) (k k' : string) :
  Get v k = Normal a -> exists b, Get v k' = Normal b.
Proof.
  destruct v; simpl; try discriminate; intros _; eauto.
  - destruct (array_index k'); eauto.
  - destruct (array_index k'); eauto.
  - destruct (own_property props k'); eauto.
Qed.

Lemma V23_own_entry (name endpoint : string) :
  assoc V23.METHOD_ENDPOINT_MAP name = Some endpoint ->
  lookup V23.METHOD_ENDPOINT_MAP name = Endpoint endpoint.
Proof. unfold lookup. now intros ->. Qed.

(** The run of a mapped request is the [try] statement on its endpoint. *)
Lemma V23_mapped upstream req_body url method name endpoint host :
  mapped_request V23.METHOD_ENDPOINT_MAP req_body url method name endpoint host ->
  V23.run upstream req_body
  = try_catch (V23.attempt upstream url method (Endpoint endpoint) DEFAULT_NODE_ID)
      (V23.recover method) [].
Proof.
  intros [Hu Hm Tu Tm Hname Hown Hhost].
  rewrite (V23_valid upstream _ _ _ _ Hu Hm Tu Tm Hname);
    rewrite (V23_own_entry _ _ Hown); [reflexivity | discriminate].
Qed.

(** The [try] body up to the acknowledgement test. *)
Lemma V23_attempt_submit upstream url method endpoint host data :
  ToString url = Normal host ->
  upstream 0%nat (submission_url endpoint host) = Normal data ->
  V23.attempt upstream url method (Endpoint endpoint) DEFAULT_NODE_ID []
  = bind (lift (Get data "ok")) (fun ok =>
      bind (if negb (strict_equals ok (VNum 1)) then ret true
            else bind (lift (Get data "request_id"))
                   (fun id => ret (negb (ToBoolean id))))
        (fun rejected : bool =>
           if rejected then
             if endpoint_is (Endpoint endpoint) "check-whois"
                || endpoint_is (Endpoint endpoint) "check-dns"
             then
               bind (lift (ToString method)) (fun name =>
               bind (lift (Get data "message")) (fun upstream_message =>
               bind (lift (ToString (logical_or upstream_message
                                       (VStr "Data received.")))) (fun text =>
               ret (mkResponse 200
                      (initial_result ("Initial result for " ++ name ++ ": " ++ text))))))
             else
               bind (lift (ToString method)) (fun name =>
               ret (mkResponse 200
                      (backend_error ("Check-Host API rejected the request for method "
                                      ++ name ++ "."))))
           else
             bind (lift (Get data "request_id")) (fun request_id =>
             bind (delay 2500) (fun _ =>
             bind (V23.poll upstream DEFAULT_NODE_ID request_id V23.maxAttempts)
               (fun checkResult =>
                  if negb (ToBoolean checkResult) then
                    bind (lift (ToString method)) (fun name =>
                    ret (mkResponse 200 (poll_timeout name)))
                  else V23.process checkResult)))))
      [AxiosGet (submission_url endpoint host) 8000].
Proof.
  intros Hhost Hup. unfold V23.attempt.
  rewrite Hhost, bind_normal.
  unfold bind at 1. unfold axios_get at 1.
  change (calls []) with 0%nat.
  change (CHECK_HOST_BASE_URL ++ "/" ++ endpoint_text (Endpoint endpoint) ++ "?host="
          ++ host ++ "&node=" ++ DEFAULT_NODE_ID)%string
    with (submission_url endpoint host).
  rewrite Hup. reflexivity.
Qed.

(** What the acknowledgement test computes. *)
Lemma rejected_test (data ok : value) :
  Get data "ok" = Normal ok ->
  bind (if negb (strict_equals ok (VNum 1)) then ret true
        else bind (lift (Get data "request_id"))
               (fun id => ret (negb (ToBoolean id))))
    = fun (f : bool -> M response) => f (negb (acknowledged data)).
Proof.
  intros Hok.
  destruct (Get_defined data ok "ok" "request_id" Hok) as [id Hid].
  unfold acknowledged. rewrite Hok, Hid.
  destruct (strict_equals ok (VNum 1)); reflexivity.
Qed.

(** C5. For a method mapped to an endpoint other than [check-dns] and
    [check-whois]: when the submission response lacks [ok === 1] or a truthy
    [request_id], [server.js] answers 200 with
    [{isBackendError: true, errorDetail, statusCode: 0}], and the submission
    is the only outbound call of the run: no poll is made.  Unless the
    response body is [null] (reading it then throws, and the [catch]
    answers), the detail is the rejection sentence. *)
Theorem unacknowledged_is_backend_error :
  forall (upstream : service) (req_body url method : value)
         (name endpoint host : string) (data : value),
    mapped_request V23.METHOD_ENDPOINT_MAP req_body url method name endpoint host ->
    endpoint <> "check-dns" ->
    endpoint <> "check-whois" ->
    upstream 0%nat (submission_url endpoint host) = Normal data ->
    acknowledged data = false ->
    exists detail rest,
      V23.run upstream req_body
      = (Normal (mkResponse 200 (backend_error detail)),
         AxiosGet (submission_url endpoint host) 8000 :: rest)
      /\ gets rest = []
      /\ (forall ok, Get data "ok" = Normal ok ->
          detail = ("Check-Host API rejected the request for method " ++ name ++ ".")%string
          /\ rest = []).
Proof.
  intros upstream req_body url method name endpoint host data Hreq Hdns Hwhois Hup Hack.
  rewrite (V23_mapped upstream _ _ _ _ _ _ Hreq).
  destruct Hreq as [_ _ _ _ Hname _ Hhost].
  unfold try_catch. rewrite (V23_attempt_submit upstream _ _ _ _ _ Hhost Hup).
  destruct (Get data "ok") as [ok | e] eqn:Hok.
  - rewrite bind_normal, (rejected_test data ok Hok), Hack.
    cbn [negb endpoint_is].
    apply String.eqb_neq in Hdns, Hwhois. rewrite Hdns, Hwhois. cbn [orb].
    rewrite Hname, bind_normal.
    eexists. exists []. split; [reflexivity|]. split; [reflexivity|].
    intros ok' _. split; reflexivity.
  - rewrite bind_throw.
    destruct (V23_recover method name e
                [AxiosGet (submission_url endpoint host) 8000] Hname)
      as (detail & -> & _).
    exists detail. eexists. split; [reflexivity|]. split; [reflexivity|].
    intros ok' H. discriminate H.
Qed.

Lemma unacknowledged_is_backend_error_witness :
  exists detail rest,
    V23.run (refusing "Too many requests") (request "example.com" "ping")
    = (Normal (mkResponse 200 (backend_error detail)),
       AxiosGet (submission_url "check-ping" "example.com") 8000 :: rest)
    /\ gets rest = []
    /\ (forall ok,
          Get (VObj [ ("ok", VNum 0); ("message", VStr "Too many requests") ]) "ok"
          = Normal ok ->
          detail = ("Check-Host API rejected the request for method " ++ "ping" ++ ".")%string
          /\ rest = []).
Proof.
  apply (unacknowledged_is_backend_error (refusing "Too many requests")
           (request "example.com" "ping") (VStr "example.com") (VStr "ping")
           "ping" "check-ping" "example.com").
  - constructor; reflexivity.
  - discriminate.
  - discriminate.
  - reflexivity.
  - reflexivity.
Defined.

(** C6. For a method mapped to [check-dns] or [check-whois]: when the
    submission response lacks [ok === 1] or a truthy [request_id],
    [server.js] answers 200 with [{isUp: true, latency: 0, statusCode: 200,
    message}], where the message is ['Initial result for <method>: '] followed
    by the response's [message] (by ['Data received.'] when that is absent
    or falsy); an upstream message that is a non-empty string is carried
    character for character.  The submission is the only outbound call. *)
Theorem unacknowledged_dns_whois_is_result :
  forall (upstream : service) (req_body url method : value)
         (name endpoint host : string) (data upstream_message : value) (text : string),
    mapped_request V23.METHOD_ENDPOINT_MAP req_body url method name endpoint host ->
    endpoint = "check-dns" \/ endpoint = "check-whois" ->
    upstream 0%nat (submission_url endpoint host) = Normal data ->
    acknowledged data = false ->
    Get data "message" = Normal upstream_message ->
    ToString (logical_or upstream_message (VStr "Data received.")) = Normal text ->
    V23.run upstream req_body
    = (Normal (mkResponse 200
                 (object [ ("isUp", VBool true);
                           ("latency", VNum 0);
                           ("statusCode", VNum 200);
                           ("message",
                            VStr ("Initial result for " ++ name ++ ": " ++ text)) ])),
       [AxiosGet (submission_url endpoint host) 8000])
    /\ (forall s, upstream_message = VStr s -> s <> ""%string -> text = s).
Proof.
  intros upstream req_body url method name endpoint host data upstream_message text
         Hreq Hep Hup Hack Hmsg Htext.
  split.
  - rewrite (V23_mapped upstream _ _ _ _ _ _ Hreq).
    destruct Hreq as [_ _ _ _ Hname _ Hhost].
    unfold try_catch. rewrite (V23_attempt_submit upstream _ _ _ _ _ Hhost Hup).
    destruct (Get_defined data _ "message" "ok" Hmsg) as [ok Hok].
    rewrite Hok, bind_normal, (rejected_test data ok Hok), Hack.
    cbn [negb endpoint_is].
    assert (Hboth : String.eqb endpoint "check-whois" || String.eqb endpoint "check-dns"
                    = true) by (destruct Hep as [-> | ->]; reflexivity).
    rewrite Hboth, Hname, bind_normal, Hmsg, bind_normal, Htext, bind_normal.
    reflexivity.
  - intros s -> Hs. unfold logical_or in Htext. simpl in Htext.
    apply String.eqb_neq in Hs. rewrite Hs in Htext. simpl in Htext.
    now injection Htext.
Qed.

Lemma unacknowledged_dns_whois_is_result_witness :
  V23.run (refusing "example.com has address 93.184.216.34") (request "example.com" "dns")
  = (Normal (mkResponse 200
               (object [ ("isUp", VBool true);
                         ("latency", VNum 0);
                         ("statusCode", VNum 200);
                         ("message",
                          VStr ("Initial result for " ++ "dns" ++ ": "
                                ++ "example.com has address 93.184.216.34")) ])),
     [AxiosGet (submission_url "check-dns" "example.com") 8000])
  /\ (forall s, VStr "example.com has address 93.184.216.34" = VStr s ->
                s <> ""%string -> "example.com has address 93.184.216.34"%string = s).
Proof.
  apply (unacknowledged_dns_whois_is_result
           (refusing "example.com has address 93.184.216.34")
           (request "example.com" "dns") (VStr "example.com") (VStr "dns")
           "dns" "check-dns" "example.com"
           (VObj [ ("ok", VNum 0);
                   ("message", VStr "example.com has address 93.184.216.34") ])
           (VStr "example.com has address 93.184.216.34")).
  - constructor; reflexivity.
  - left. reflexivity.
  - reflexivity.
  - reflexivity.
  - reflexivity.
  - reflexivity.
Defined.

(** One iteration of the loop on a response without a result. *)
Lemma V23_poll_pending upstream request_id id left data w :
  ToString request_id = Normal id ->
  upstream (calls w) (result_url id) = Normal data ->
  pending DEFAULT_NODE_ID data ->
  V23.poll upstream DEFAULT_NODE_ID request_id (S left) w
  = V23.poll upstream DEFAULT_NODE_ID request_id left
      (w ++ [AxiosGet (result_url id) 5000; Delay 1500]).
Proof.
  intros Hid Hup (nodeResult & Hnode & Hnone).
  cbn [V23.poll]. rewrite Hid, bind_normal.
  unfold bind at 1. unfold axios_get at 1.
  change (CHECK_HOST_BASE_URL ++ "/check-result/" ++ id)%string with (result_url id).
  rewrite Hup, Hnode, bind_normal.
  assert (Hstep : forall first,
             ToBoolean first = false ->
             bind (ret first) (fun first =>
               if ToBoolean first then ret first
               else bind (delay 1500)
                      (fun _ => V23.poll upstream DEFAULT_NODE_ID request_id left))
               (w ++ [AxiosGet (result_url id) 5000])
             = V23.poll upstream DEFAULT_NODE_ID request_id left
                 (w ++ [AxiosGet (result_url id) 5000; Delay 1500])).
  { intros first Hf. unfold bind, ret, delay, emit. rewrite Hf.
    rewrite <- app_assoc. reflexivity. }
  destruct (ToBoolean nodeResult) eqn:Hrecord.
  - destruct Hnone as [Hfalse | (first & Hfirst & Hfalse)]; [discriminate Hfalse|].
    rewrite Hfirst. now apply Hstep.
  - now apply Hstep.
Qed.

Lemma V23_poll_exhausted upstream request_id id :
  ToString request_id = Normal id ->
  forall left w,
    (forall j, (j < left)%nat ->
               exists data, upstream (calls w + j)%nat (result_url id) = Normal data
                            /\ pending DEFAULT_NODE_ID data) ->
    V23.poll upstream DEFAULT_NODE_ID request_id left w
    = (Normal VNull, w ++ fruitless id left).
Proof.
  intros Hid. induction left as [|left IH]; intros w Hpolls.
  - cbn. now rewrite app_nil_r.
  - destruct (Hpolls 0%nat ltac:(lia)) as (data & Hup & Hpending).
    rewrite Nat.add_0_r in Hup.
    rewrite (V23_poll_pending upstream _ _ _ _ _ Hid Hup Hpending).
    rewrite IH.
    + unfold fruitless. cbn [repeat List.concat]. now rewrite <- app_assoc.
    + intros j Hj. rewrite calls_app.
      replace (calls w + calls [AxiosGet (result_url id) 5000; Delay 1500] + j)%nat
        with (calls w + S j)%nat by (unfold calls; simpl; lia).
      apply Hpolls. lia.
Qed.

Lemma gets_fruitless (id : string) (n : nat) :
  gets (fruitless id n) = repeat (AxiosGet (result_url id) 5000) n.
Proof.
  induction n as [|n IH]; [reflexivity|].
  unfold fruitless in *. cbn [repeat List.concat]. rewrite gets_app, IH. reflexivity.
Qed.

(** The loop stops at the first response with a result. *)
Lemma V23_poll_found upstream request_id id answer record :
  ToString request_id = Normal id ->
  found DEFAULT_NODE_ID answer record ->
  forall j left w,
    (j < left)%nat ->
    (forall i, (i < j)%nat ->
               exists data, upstream (calls w + i)%nat (result_url id) = Normal data
                            /\ pending DEFAULT_NODE_ID data) ->
    upstream (calls w + j)%nat (result_url id) = Normal answer ->
    V23.poll upstream DEFAULT_NODE_ID request_id left w
    = (Normal record, w ++ fruitless id j ++ [AxiosGet (result_url id) 5000]).
Proof.
  intros Hid (nodeResult & Hnode & Tnode & Hrecord & Trecord).
  induction j as [|j IH]; intros left w Hlt Hpending Hup.
  - destruct left as [|left]; [lia|].
    rewrite Nat.add_0_r in Hup.
    cbn [V23.poll]. rewrite Hid, bind_normal.
    unfold bind at 1. unfold axios_get at 1.
    change (CHECK_HOST_BASE_URL ++ "/check-result/" ++ id)%string with (result_url id).
    rewrite Hup, Hnode, bind_normal, Tnode, Hrecord, bind_normal, Trecord.
    reflexivity.
  - destruct left as [|left]; [lia|].
    destruct (Hpending 0%nat ltac:(lia)) as (data & Hdata & Hpend).
    rewrite Nat.add_0_r in Hdata.
    rewrite (V23_poll_pending upstream _ _ _ _ _ Hid Hdata Hpend).
    assert (Hcalls : forall i,
               (calls (w ++ [AxiosGet (result_url id) 5000; Delay 1500]) + i)%nat
               = (calls w + S i)%nat)
      by (intros i; rewrite calls_app; unfold calls; simpl; lia).
    rewrite (IH left); [| lia | |].
    + unfold fruitless. cbn [repeat List.concat]. now rewrite <- !app_assoc.
    + intros i Hi. rewrite Hcalls. apply Hpending. lia.
    + now rewrite Hcalls.
Qed.

(** A run whose poll number [j + 1] is the first with a result goes on to
    STEP 3 with that record, after exactly those polls. *)
Lemma V23_run_found upstream req_body url method name endpoint host
      data request_id id answer record (j : nat) :
  mapped_request V23.METHOD_ENDPOINT_MAP req_body url method name endpoint host ->
  upstream 0%nat (submission_url endpoint host) = Normal data ->
  acknowledged data = true ->
  Get data "request_id" = Normal request_id ->
  ToString request_id = Normal id ->
  (j < 6)%nat ->
  (forall k, (1 <= k <= j)%nat ->
             exists earlier, upstream k (result_url id) = Normal earlier
                             /\ pending DEFAULT_NODE_ID earlier) ->
  upstream (S j) (result_url id) = Normal answer ->
  found DEFAULT_NODE_ID answer record ->
  V23.run upstream req_body
  = try_catch (V23.process record) (V23.recover method)
      (AxiosGet (submission_url endpoint host) 8000 :: Delay 2500
       :: fruitless id j ++ [AxiosGet (result_url id) 5000]).
Proof.
  intros Hreq Hup Hack Hrid Hid Hj Hpolls Hanswer Hfound.
  rewrite (V23_mapped upstream _ _ _ _ _ _ Hreq).
  destruct Hreq as [_ _ _ _ Hname _ Hhost].
  unfold try_catch. rewrite (V23_attempt_submit upstream _ _ _ _ _ Hhost Hup).
  destruct (Get_defined data _ "request_id" "ok" Hrid) as [ok Hok].
  rewrite Hok, bind_normal, (rejected_test data ok Hok), Hack.
  cbn [negb]. rewrite Hrid, bind_normal.
  unfold bind at 1. unfold delay at 1, emit at 1.
  unfold bind at 1.
  rewrite (V23_poll_found upstream request_id id answer record Hid Hfound j).
  - destruct Hfound as (_ & _ & _ & _ & ->). reflexivity.
  - exact Hj.
  - intros i Hi. apply Hpolls. cbn. lia.
  - exact Hanswer.
Qed.

(** C4. For a mapped method whose submission is acknowledged ([ok === 1]
    and a truthy [request_id]): when each of the six polls is answered
    without a result for the node (no record, or a record whose first element
    is absent), [server.js] makes exactly those six calls to the check-result
    address, after the submission and the initial delay, and answers 200 with
    [{latency: 6000, statusCode: 599, isUp: false, errorRate: 1,
    errorDetail: 'Check-Host node did not return result for <method> within
    timeout.'}], a body that is not marked as a backend error. *)
Theorem exhausted_polls_are_599 :
  forall (upstream : service) (req_body url method : value)
         (name endpoint host : string) (data request_id : value) (id : string),
    mapped_request V23.METHOD_ENDPOINT_MAP req_body url method name endpoint host ->
    upstream 0%nat (submission_url endpoint host) = Normal data ->
    acknowledged data = true ->
    Get data "request_id" = Normal request_id ->
    ToString request_id = Normal id ->
    (forall k, (1 <= k <= 6)%nat ->
               exists answer, upstream k (result_url id) = Normal answer
                              /\ pending DEFAULT_NODE_ID answer) ->
    V23.run upstream req_body
    = (Normal (mkResponse 200
                 (object [ ("latency", VNum 6000);
                           ("statusCode", VNum 599);
                           ("isUp", VBool false);
                           ("errorRate", VNum 1);
                           ("errorDetail",
                            VStr ("Check-Host node did not return result for " ++ name
                                  ++ " within timeout.")) ])),
       AxiosGet (submission_url endpoint host) 8000 :: Delay 2500 :: fruitless id 6)
    /\ gets (snd (V23.run upstream req_body))
       = AxiosGet (submission_url endpoint host) 8000
         :: repeat (AxiosGet (result_url id) 5000) 6
    /\ marked_backend_error (poll_timeout name) = false.
Proof.
  intros upstream req_body url method name endpoint host data request_id id
         Hreq Hup Hack Hrid Hid Hpolls.
  assert (Hrun : V23.run upstream req_body
                 = (Normal (mkResponse 200 (poll_timeout name)),
                    AxiosGet (submission_url endpoint host) 8000
                    :: Delay 2500 :: fruitless id 6)).
  { rewrite (V23_mapped upstream _ _ _ _ _ _ Hreq).
    destruct Hreq as [_ _ _ _ Hname _ Hhost].
    unfold try_catch. rewrite (V23_attempt_submit upstream _ _ _ _ _ Hhost Hup).
    destruct (Get_defined data _ "request_id" "ok" Hrid) as [ok Hok].
    rewrite Hok, bind_normal, (rejected_test data ok Hok), Hack.
    cbn [negb]. rewrite Hrid, bind_normal.
    unfold bind at 1. unfold delay at 1, emit at 1.
    unfold bind at 1.
    rewrite (V23_poll_exhausted upstream request_id id Hid).
    - cbn [ToBoolean negb]. rewrite Hname, bind_normal. reflexivity.
    - intros j Hj. apply Hpolls. change V23.maxAttempts with 6%nat in Hj.
      cbn. lia. }
  rewrite Hrun. split; [reflexivity|]. split; [|reflexivity].
  cbn [snd]. change (gets (?a :: ?b :: ?l)) with (a :: gets l).
  now rewrite gets_fruitless.
Qed.

Lemma exhausted_polls_are_599_witness :
  V23.run never_ready (request "example.com" "ping")
  = (Normal (mkResponse 200
               (object [ ("latency", VNum 6000);
                         ("statusCode", VNum 599);
                         ("isUp", VBool false);
                         ("errorRate", VNum 1);
                         ("errorDetail",
                          VStr ("Check-Host node did not return result for " ++ "ping"
                                ++ " within timeout.")) ])),
     AxiosGet (submission_url "check-ping" "example.com") 8000
     :: Delay 2500 :: fruitless "abc" 6)
  /\ gets (snd (V23.run never_ready (request "example.com" "ping")))
     = AxiosGet (submission_url "check-ping" "example.com") 8000
       :: repeat (AxiosGet (result_url "abc") 5000) 6
  /\ marked_backend_error (poll_timeout "ping") = false.
Proof.
  apply (exhausted_polls_are_599 never_ready (request "example.com" "ping")
           (VStr "example.com") (VStr "ping") "ping" "check-ping" "example.com"
           (VObj [ ("ok", VNum 1); ("request_id", VStr "abc") ]) (VStr "abc") "abc").
  - constructor; reflexivity.
  - reflexivity.
  - reflexivity.
  - reflexivity.
  - reflexivity.
  - intros k Hk. exists (VObj [ (DEFAULT_NODE_ID, VNull) ]). split.
    + destruct k as [|k]; [lia | reflexivity].
    + exists VNull. split; [reflexivity | now left].
Defined.

End Submission.

(** ** Result normalization *)

Module Normalization.
Import JS Relay Notions Scenarios Logic Submission.
Local Open Scope list_scope.
Local Open Scope float_scope.

(** On floats [=== 1] holds of 1 alone. *)
Lemma float_eqb_one (x : float) : (x =? 1) = true -> x = 1.
Proof.
  rewrite eqb_spec. intros H. apply Prim2SF_inj.
  change (Prim2SF 1) with (S754_finite false 4503599627370496 (-52)) in *.
  unfold SFeqb, SFcompare in H.
  destruct (Prim2SF x) as [s | s | | s m e]; try discriminate H.
  - destruct s; discriminate H.
  - destruct s; [discriminate H|].
    destruct (e ?= -52)%Z eqn:Ee; try discriminate H.
    destruct (Pos.compare_cont Eq m 4503599627370496) eqn:Em; try discriminate H.
    apply Z.compare_eq in Ee. apply Pos.compare_eq in Em. now subst.
Qed.

Lemma strict_equals_one (v : value) :
  strict_equals v (VNum 1) = true <-> v = VNum 1.
Proof.
  split.
  - destruct v; simpl; try discriminate. intros H. f_equal. now apply float_eqb_one.
  - intros ->. reflexivity.
Qed.

(** STEP 3 on an array, when both conversions succeed. *)
Lemma V23_process_array (xs : list value) (seconds statusCode : float) (w : world) :
  ToNumber (logical_or (nth 1 xs VUndefined) (VNum 0)) = Normal seconds ->
  parseInt (logical_or (nth 3 xs VUndefined) (VStr "0")) = Normal statusCode ->
  V23.process (VArr xs) w
  = (Normal (mkResponse 200 (result_body xs seconds statusCode)), w).
Proof.
  intros Hsec Hcode. unfold V23.process.
  change (iterate "checkResult" (VArr xs) 4)
    with (Normal [nth 0 xs VUndefined; nth 1 xs VUndefined;
                  nth 2 xs VUndefined; nth 3 xs VUndefined]).
  rewrite bind_normal. cbn [nth].
  rewrite Hsec, bind_normal, Hcode, bind_normal. reflexivity.
Qed.

(** [Math.round] on a float that is not already an integer: the result is
    the integer [n] nearest to the float's value [v * 2^e], the larger one
    when two are as near: [n - 1/2 <= v * 2^e < n + 1/2]. *)
Lemma Math_round_nearest (x : float) (s : bool) (m : positive) (e : Z) :
  Prim2SF x = S754_finite s m e ->
  (e < 0)%Z ->
  exists n : Z,
    ((2 * n - 1) * 2 ^ (- e) <= 2 * (if s then Zneg m else Zpos m)
     < (2 * n + 1) * 2 ^ (- e))%Z
    /\ Math_round x = if (n =? 0)%Z then (if s then neg_zero else zero)
                      else float_of_Z n.
Proof.
  intros Hx He. unfold Math_round. rewrite Hx.
  destruct (0 <=? e)%Z eqn:E; [apply Z.leb_le in E; lia|].
  set (v := if s then Zneg m else Zpos m).
  exists ((2 * v + 2 ^ (- e)) / 2 ^ (1 - e))%Z. split; [|reflexivity].
  replace (1 - e)%Z with (Z.succ (- e)) by lia.
  rewrite Z.pow_succ_r by lia.
  assert (Hpos : (0 < 2 ^ (- e))%Z) by (apply Z.pow_pos_nonneg; lia).
  set (P := (2 ^ (- e))%Z) in *.
  pose proof (Z.div_mod (2 * v + P) (2 * P) ltac:(lia)) as Hdiv.
  pose proof (Z.mod_pos_bound (2 * v + P) (2 * P) ltac:(lia)) as Hmod.
  set (n := ((2 * v + P) / (2 * P))%Z) in *.
  nia.
Qed.

(** C7. For every result record (an array; its elements are read by
    position, a missing one as [undefined]) whose latency and status code
    convert without throwing, STEP 3 answers 200 with [result_body], and so
    does every run whose first poll with a result has that record; in that
    body [isUp] is [upFlag === 1], which holds of the number 1 alone;
    [latency] is [Math.round((latencySeconds || 0) * 1000)], where a truthy
    number is taken as it is and an absent latency counts as 0.  The
    rounding is to the nearest integer, upwards on a tie: when the product
    [v * 2^e] is not already an integer, the latency is the integer [n] with
    [n - 1/2 <= v * 2^e < n + 1/2]; so 0.03125 s is sent as 31, 0.0625 s as
    63 and -0.0625 s as -62.  A run whose first poll has the record
    [[1, 0.35, "OK", "200"]] answers [{latency: 350, statusCode: 200, isUp:
    true, ...}], and one with [[1, 0.0625, "OK", "200"]] answers latency
    63. *)
Theorem normalization_of_result :
  forall (xs : list value) (seconds statusCode : float) (w : world),
    ToNumber (logical_or (nth 1 xs VUndefined) (VNum 0)) = Normal seconds ->
    parseInt (logical_or (nth 3 xs VUndefined) (VStr "0")) = Normal statusCode ->
    V23.process (VArr xs) w
    = (Normal (mkResponse 200 (result_body xs seconds statusCode)), w)
    /\ (forall (upstream : service) (req_body url method : value)
               (name endpoint host : string) (data request_id : value) (id : string)
               (answer : value) (j : nat),
          mapped_request V23.METHOD_ENDPOINT_MAP req_body url method name endpoint host ->
          upstream 0%nat (submission_url endpoint host) = Normal data ->
          acknowledged data = true ->
          Get data "request_id" = Normal request_id ->
          ToString request_id = Normal id ->
          (j < 6)%nat ->
          (forall k, (1 <= k <= j)%nat ->
                     exists earlier, upstream k (result_url id) = Normal earlier
                                     /\ pending DEFAULT_NODE_ID earlier) ->
          upstream (S j) (result_url id) = Normal answer ->
          found DEFAULT_NODE_ID answer (VArr xs) ->
          V23.run upstream req_body
          = (Normal (mkResponse 200 (result_body xs seconds statusCode)),
             AxiosGet (submission_url endpoint host) 8000 :: Delay 2500
             :: fruitless id j ++ [AxiosGet (result_url id) 5000]))
    /\ (strict_equals (nth 0 xs VUndefined) (VNum 1) = true
        <-> nth 0 xs VUndefined = VNum 1)
    /\ map (fun upFlag => strict_equals upFlag (VNum 1))
         [VBool true; VStr "1"; VNum 2; VArr [VNum 1]]
       = [false; false; false; false]
    /\ (forall x, nth 1 xs VUndefined = VNum x -> ToBoolean (VNum x) = true ->
                  seconds = x)
    /\ (nth 1 xs VUndefined = VUndefined \/ nth 1 xs VUndefined = VNull ->
        Math_round (seconds * 1000) = 0)
    /\ V23.run (ready (VArr [VNum 1; VNum 0x1.6666666666666p-2; VStr "OK"; VStr "200"]))
         (request "example.com" "http")
       = (Normal (mkResponse 200 (object
                    [ ("latency", VNum 350);
                      ("statusCode", VNum 200);
                      ("isUp", VBool true);
                      ("errorRate", VNum 0);
                      ("message", VStr "OK") ])),
          [ AxiosGet (submission_url "check-http" "example.com") 8000;
            Delay 2500;
            AxiosGet (result_url "abc") 5000 ])
    /\ (forall (s : bool) (m : positive) (e : Z),
          Prim2SF (seconds * 1000) = S754_finite s m e ->
          (e < 0)%Z ->
          exists n : Z,
            ((2 * n - 1) * 2 ^ (- e) <= 2 * (if s then Zneg m else Zpos m)
             < (2 * n + 1) * 2 ^ (- e))%Z
            /\ Math_round (seconds * 1000)
               = if (n =? 0)%Z then (if s then neg_zero else zero) else float_of_Z n)
    /\ map (fun latencySeconds => Math_round (latencySeconds * 1000))
         [0x1p-5; 0x1p-4; -0x1p-4; 0x1.6666666666666p-2]
       = [31; 63; -62; 350]
    /\ V23.run (ready (VArr [VNum 1; VNum 0x1p-4; VStr "OK"; VStr "200"]))
         (request "example.com" "http")
       = (Normal (mkResponse 200 (object
                    [ ("latency", VNum 63);
                      ("statusCode", VNum 200);
                      ("isUp", VBool true);
                      ("errorRate", VNum 0);
                      ("message", VStr "OK") ])),
          [ AxiosGet (submission_url "check-http" "example.com") 8000;
            Delay 2500;
            AxiosGet (result_url "abc") 5000 ]).
Proof.
  intros xs seconds statusCode w Hsec Hcode.
  split; [|split; [|split; [|split; [|split; [|split; [|split; [|split; [|split]]]]]]]].
  - apply (V23_process_array xs seconds statusCode w Hsec Hcode).
  - intros upstream req_body url method name endpoint host data request_id id answer j
           Hreq Hup Hack Hrid Hid Hj Hpolls Hanswer Hfound.
    rewrite (V23_run_found upstream _ _ _ _ _ _ _ _ _ _ _ j
               Hreq Hup Hack Hrid Hid Hj Hpolls Hanswer Hfound).
    unfold try_catch.
    now rewrite (V23_process_array xs seconds statusCode _ Hsec Hcode).
  - apply strict_equals_one.
  - reflexivity.
  - intros x Hx Tx. rewrite Hx in Hsec. unfold logical_or in Hsec.
    rewrite Tx in Hsec. now injection Hsec.
  - intros [H | H]; rewrite H in Hsec; injection Hsec as <-; vm_compute; reflexivity.
  - vm_compute. reflexivity.
  - intros s m e. apply Math_round_nearest.
  - vm_compute. reflexivity.
  - vm_compute. reflexivity.
Qed.

Lemma normalization_of_result_witness :
  V23.process (VArr [VNum 1; VNum 0x1p-4; VStr "OK"; VStr "200"]) []
  = (Normal (mkResponse 200
               (result_body [VNum 1; VNum 0x1p-4; VStr "OK"; VStr "200"] 0x1p-4 200)),
     [])
  /\ (forall (upstream : service) (req_body url method : value)
             (name endpoint host : string) (data request_id : value) (id : string)
             (answer : value) (j : nat),
        mapped_request V23.METHOD_ENDPOINT_MAP req_body url method name endpoint host ->
        upstream 0%nat (submission_url endpoint host) = Normal data ->
        acknowledged data = true ->
        Get data "request_id" = Normal request_id ->
        ToString request_id = Normal id ->
        (j < 6)%nat ->
        (forall k, (1 <= k <= j)%nat ->
                   exists earlier, upstream k (result_url id) = Normal earlier
                                   /\ pending DEFAULT_NODE_ID earlier) ->
        upstream (S j) (result_url id) = Normal answer ->
        found DEFAULT_NODE_ID answer (VArr [VNum 1; VNum 0x1p-4; VStr "OK"; VStr "200"]) ->
        V23.run upstream req_body
        = (Normal (mkResponse 200 (result_body [VNum 1; VNum 0x1p-4; VStr "OK"; VStr "200"] 0x1p-4 200)),
           AxiosGet (submission_url endpoint host) 8000 :: Delay 2500
           :: fruitless id j ++ [AxiosGet (result_url id) 5000]))
  /\ (strict_equals (nth 0 [VNum 1; VNum 0x1p-4; VStr "OK"; VStr "200"] VUndefined)
        (VNum 1) = true
      <-> nth 0 [VNum 1; VNum 0x1p-4; VStr "OK"; VStr "200"] VUndefined = VNum 1)
  /\ map (fun upFlag => strict_equals upFlag (VNum 1))
       [VBool true; VStr "1"; VNum 2; VArr [VNum 1]]
     = [false; false; false; false]
  /\ (forall x,
        nth 1 [VNum 1; VNum 0x1p-4; VStr "OK"; VStr "200"] VUndefined = VNum x ->
        ToBoolean (VNum x) = true -> 0x1p-4 = x)
  /\ (nth 1 [VNum 1; VNum 0x1p-4; VStr "OK"; VStr "200"] VUndefined = VUndefined
      \/ nth 1 [VNum 1; VNum 0x1p-4; VStr "OK"; VStr "200"] VUndefined = VNull ->
      Math_round (0x1p-4 * 1000) = 0)
  /\ V23.run (ready (VArr [VNum 1; VNum 0x1.6666666666666p-2; VStr "OK"; VStr "200"]))
       (request "example.com" "http")
     = (Normal (mkResponse 200 (object
                  [ ("latency", VNum 350);
                    ("statusCode", VNum 200);
                    ("isUp", VBool true);
                    ("errorRate", VNum 0);
                    ("message", VStr "OK") ])),
        [ AxiosGet (submission_url "check-http" "example.com") 8000;
          Delay 2500;
          AxiosGet (result_url "abc") 5000 ])
  /\ (forall (s : bool) (m : positive) (e : Z),
        Prim2SF (0x1p-4 * 1000) = S754_finite s m e ->
        (e < 0)%Z ->
        exists n : Z,
          ((2 * n - 1) * 2 ^ (- e) <= 2 * (if s then Zneg m else Zpos m)
           < (2 * n + 1) * 2 ^ (- e))%Z
          /\ Math_round (0x1p-4 * 1000)
             = if (n =? 0)%Z then (if s then neg_zero else zero) else float_of_Z n)
  /\ map (fun latencySeconds => Math_round (latencySeconds * 1000))
       [0x1p-5; 0x1p-4; -0x1p-4; 0x1.6666666666666p-2]
     = [31; 63; -62; 350]
  /\ V23.run (ready (VArr [VNum 1; VNum 0x1p-4; VStr "OK"; VStr "200"]))
       (request "example.com" "http")
     = (Normal (mkResponse 200 (object
                  [ ("latency", VNum 63);
                    ("statusCode", VNum 200);
                    ("isUp", VBool true);
                    ("errorRate", VNum 0);
                    ("message", VStr "OK") ])),
        [ AxiosGet (submission_url "check-http" "example.com") 8000;
          Delay 2500;
          AxiosGet (result_url "abc") 5000 ]).
Proof.
  apply (normalization_of_result
           [VNum 1; VNum 0x1p-4; VStr "OK"; VStr "200"] 0x1p-4 200 []).
  - reflexivity.
  - vm_compute. reflexivity.
Defined.

(** [parseInt] reads back the decimal digits of a natural number. *)
Lemma take_digits_acc (d : Decimal.uint) :
  forall (p : positive) (count : nat),
    take_digits 10 (list_ascii_of_string (NilEmpty.string_of_uint d)) (Zpos p) count
    = (Zpos (Pos.of_uint_acc d p), (count + Decimal.nb_digits d)%nat, []).
Proof.
  induction d; intros p count; cbn [NilEmpty.string_of_uint list_ascii_of_string
                                    take_digits Pos.of_uint_acc Decimal.nb_digits];
    [now rewrite Nat.add_0_r|..];
    (change (digit_in 10 _) with (Some 0%Z)
     || change (digit_in 10 _) with (Some 1%Z)
     || change (digit_in 10 _) with (Some 2%Z)
     || change (digit_in 10 _) with (Some 3%Z)
     || change (digit_in 10 _) with (Some 4%Z)
     || change (digit_in 10 _) with (Some 5%Z)
     || change (digit_in 10 _) with (Some 6%Z)
     || change (digit_in 10 _) with (Some 7%Z)
     || change (digit_in 10 _) with (Some 8%Z)
     || change (digit_in 10 _) with (Some 9%Z));
    cbv iota beta;
    match goal with
    | |- take_digits _ _ ?acc _ = (Z.pos (Pos.of_uint_acc _ ?q), _, _) =>
        replace acc with (Zpos q) by lia
    end;
    rewrite IHd; now rewrite Nat.add_succ_r.
Qed.

Lemma take_digits_uint (d : Decimal.uint) :
  forall count : nat,
    take_digits 10 (list_ascii_of_string (NilEmpty.string_of_uint d)) 0 count
    = (Z.of_N (Pos.of_uint d), (count + Decimal.nb_digits d)%nat, []).
Proof.
  induction d; intros count; cbn [NilEmpty.string_of_uint list_ascii_of_string
                                  take_digits Pos.of_uint Decimal.nb_digits];
    [now rewrite Nat.add_0_r|..];
    (change (digit_in 10 _) with (Some 0%Z)
     || change (digit_in 10 _) with (Some 1%Z)
     || change (digit_in 10 _) with (Some 2%Z)
     || change (digit_in 10 _) with (Some 3%Z)
     || change (digit_in 10 _) with (Some 4%Z)
     || change (digit_in 10 _) with (Some 5%Z)
     || change (digit_in 10 _) with (Some 6%Z)
     || change (digit_in 10 _) with (Some 7%Z)
     || change (digit_in 10 _) with (Some 8%Z)
     || change (digit_in 10 _) with (Some 9%Z));
    cbv iota beta;
    change (0 * 10 + 0)%Z with 0%Z;
    [ rewrite IHd; now rewrite Nat.add_succ_r | ..];
    match goal with
    | |- take_digits _ _ ?acc _ = _ => change acc with (Zpos (Z.to_pos acc))
    end;
    rewrite take_digits_acc; now rewrite Nat.add_succ_r.
Qed.

Lemma parseInt_decimal (n : N) :
  parseInt_string (decimal (Z.of_N n)) = float_of_Z (Z.of_N n).
Proof.
  unfold decimal. rewrite N2Z.id.
  assert (Hd : exists c rest,
             NilZero.string_of_uint (N.to_uint n)
             = NilEmpty.string_of_uint (N.to_uint n)
             /\ NilEmpty.string_of_uint (N.to_uint n) = String c rest
             /\ is_white c = false /\ take_sign (c :: list_ascii_of_string rest)
                                      = (false, c :: list_ascii_of_string rest)
             /\ take_prefix "xX" (c :: list_ascii_of_string rest) = None).
  { assert (Hnil : N.to_uint n <> Decimal.Nil).
    { destruct n; [discriminate | apply DecimalPos.Unsigned.to_uint_nonnil]. }
    destruct (N.to_uint n) as [|d|d|d|d|d|d|d|d|d|d]; [contradiction|..];
      cbn [NilZero.string_of_uint NilEmpty.string_of_uint];
      do 2 eexists; (split; [reflexivity|]); (split; [reflexivity|]);
      (split; [reflexivity|]); (split; [reflexivity|]);
      destruct d; reflexivity. }
  destruct Hd as (c & rest & Hzero & Hstr & Hwhite & Hsign & Hprefix).
  unfold parseInt_string. rewrite Hzero.
  pose proof (take_digits_uint (N.to_uint n) 0) as Hdigits.
  rewrite Hstr in *. cbn [list_ascii_of_string trim_start] in *.
  rewrite Hwhite, Hsign, Hprefix, Hdigits.
  change (Pos.of_uint (N.to_uint n)) with (N.of_uint (N.to_uint n)).
  rewrite DecimalN.Unsigned.of_to.
  destruct (N.to_uint n); try reflexivity. discriminate Hstr.
Qed.

(** [parseInt] of a string that does not begin, after white space and a
    sign, with a decimal digit. *)
Lemma parseInt_not_a_number (c : ascii) (rest : string) :
  is_white c = false ->
  c <> "+"%char ->
  c <> "-"%char ->
  digit_in 10 c = None ->
  parseInt_string (String c rest) = nan.
Proof.
  intros Hwhite Hplus Hminus Hdigit. unfold parseInt_string.
  cbn [list_ascii_of_string trim_start]. rewrite Hwhite.
  unfold take_sign.
  apply Ascii.eqb_neq in Hplus, Hminus. rewrite Hplus, Hminus.
  assert (Hzero : Ascii.eqb c "0" = false).
  { apply Ascii.eqb_neq. intros ->. discriminate Hdigit. }
  unfold take_prefix. rewrite Hzero.
  destruct (list_ascii_of_string rest); cbn [andb take_digits]; now rewrite Hdigit.
Qed.

Lemma trim_start_blank (ws l : list ascii) :
  Forall (fun c => is_white c = true) ws -> trim_start (ws ++ l) = trim_start l.
Proof.
  induction 1 as [|c ws Hc _ IH]; [reflexivity|].
  cbn [app trim_start]. now rewrite Hc.
Qed.

(** [parseInt] of a string of decimal digits, leading zeros or not, is the
    number they write. *)
Lemma parseInt_digits (s : string) (u : Decimal.uint) :
  s <> ""%string ->
  NilEmpty.uint_of_string s = Some u ->
  parseInt_string s = float_of_Z (Z.of_N (N.of_uint u)).
Proof.
  intros Hs Hu. apply NilEmpty.sus in Hu. subst s.
  assert (Hd : exists c rest,
             NilEmpty.string_of_uint u = String c rest
             /\ is_white c = false
             /\ take_sign (c :: list_ascii_of_string rest)
                = (false, c :: list_ascii_of_string rest)
             /\ take_prefix "xX" (c :: list_ascii_of_string rest) = None).
  { destruct u as [|d|d|d|d|d|d|d|d|d|d]; [now contradiction Hs|..];
      cbn [NilEmpty.string_of_uint];
      do 2 eexists; (split; [reflexivity|]); (split; [reflexivity|]);
      (split; [reflexivity|]);
      destruct d; reflexivity. }
  destruct Hd as (c & rest & Hstr & Hwhite & Hsign & Hprefix).
  unfold parseInt_string.
  pose proof (take_digits_uint u 0) as Hdigits.
  rewrite Hstr in *. cbn [list_ascii_of_string trim_start] in *.
  rewrite Hwhite, Hsign, Hprefix, Hdigits.
  change (Pos.of_uint u) with (N.of_uint u).
  destruct u; try reflexivity. discriminate Hstr.
Qed.

Lemma take_no_digit (l : list ascii) :
  no_digit_ahead l ->
  take_prefix "xX" l = None /\ take_digits 10 l 0 0 = (0%Z, 0%nat, l).
Proof.
  destruct l as [|c l]; intros H; [split; reflexivity|].
  cbn in H. split.
  - assert (Hzero : Ascii.eqb c "0" = false)
      by (apply Ascii.eqb_neq; intros ->; discriminate H).
    unfold take_prefix. rewrite Hzero. now destruct l.
  - cbn [take_digits]. now rewrite H.
Qed.

(** [parseInt] of white space, an optional sign, and then no digit. *)
Lemma parseInt_no_digit (ws sign rest : list ascii) :
  Forall (fun c => is_white c = true) ws ->
  (sign = [] /\ match rest with
                | [] => True
                | c :: _ => is_white c = false /\ c <> "+"%char /\ c <> "-"%char
                end)
  \/ sign = ["+"%char] \/ sign = ["-"%char] ->
  no_digit_ahead rest ->
  parseInt_string (string_of_list_ascii (ws ++ sign ++ rest)) = nan.
Proof.
  intros Hws Hsign Hrest. unfold parseInt_string.
  rewrite list_ascii_of_string_of_list_ascii, (trim_start_blank _ _ Hws).
  destruct (take_no_digit rest Hrest) as [Hprefix Hdigits].
  destruct Hsign as [[-> Hplain] | [-> | ->]]; cbn [app trim_start take_sign is_white].
  - destruct rest as [|c rest]; [reflexivity|].
    destruct Hplain as (Hwhite & Hplus & Hminus).
    cbn [trim_start]. rewrite Hwhite. unfold take_sign.
    apply Ascii.eqb_neq in Hplus, Hminus. rewrite Hplus, Hminus.
    cbv beta iota. now rewrite Hprefix, Hdigits.
  - change (is_white "+") with false. cbv beta iota.
    change (take_sign ("+"%char :: rest)) with (false, rest).
    cbv beta iota. now rewrite Hprefix, Hdigits.
  - change (is_white "-") with false. cbv beta iota.
    change (take_sign ("-"%char :: rest)) with (true, rest).
    cbv beta iota. now rewrite Hprefix, Hdigits.
Qed.

(** C8, as the code has it.  For every result record whose latency
    converts: the status code is 0 when the fourth element is absent or
    otherwise falsy; it is [parseInt] of the fourth element when that is a
    non-empty string, which is the number written when the string is made of
    decimal digits (with or without leading zeros: ['0200'] is 200), and
    NaN, not 0, when the string has, after any white space and an optional
    sign, no decimal digit ([' abc'], ['-abc'], ['+'], ['  ']); and NaN
    reaches the client as [null]. *)
Theorem status_code_is_parseInt :
  forall (xs : list value) (seconds : float) (w : world),
    ToNumber (logical_or (nth 1 xs VUndefined) (VNum 0)) = Normal seconds ->
    (ToBoolean (nth 3 xs VUndefined) = false ->
     V23.process (VArr xs) w
     = (Normal (mkResponse 200 (result_body xs seconds 0)), w))
    /\ (forall s, nth 3 xs VUndefined = VStr s -> s <> ""%string ->
        V23.process (VArr xs) w
        = (Normal (mkResponse 200 (result_body xs seconds (parseInt_string s))), w))
    /\ (forall n : N, parseInt_string (decimal (Z.of_N n)) = float_of_Z (Z.of_N n))
    /\ (forall c rest,
          is_white c = false -> c <> "+"%char -> c <> "-"%char ->
          digit_in 10 c = None ->
          parseInt_string (String c rest) = nan)
    /\ map parseInt_string ["200"; "0"; "404 Not Found"; "abc"] = [200; 0; 404; nan]
    /\ JSON_wire (VNum nan) = VNull
    /\ (forall (s : string) (u : Decimal.uint),
          s <> ""%string ->
          NilEmpty.uint_of_string s = Some u ->
          parseInt_string s = float_of_Z (Z.of_N (N.of_uint u)))
    /\ (forall ws sign rest : list ascii,
          Forall (fun c => is_white c = true) ws ->
          (sign = [] /\ match rest with
                        | [] => True
                        | c :: _ => is_white c = false /\ c <> "+"%char /\ c <> "-"%char
                        end)
          \/ sign = ["+"%char] \/ sign = ["-"%char] ->
          no_digit_ahead rest ->
          parseInt_string (string_of_list_ascii (ws ++ sign ++ rest)) = nan)
    /\ map parseInt_string ["0200"; "007"; " abc"; "-abc"; "+"; "-"; "  "; "+ 5"]
       = [200; 7; nan; nan; nan; nan; nan; nan].
Proof.
  intros xs seconds w Hsec.
  split; [|split; [|split; [|split; [|split; [|split; [|split; [|split]]]]]]].
  - intros Hraw. apply V23_process_array; [assumption|].
    unfold logical_or. rewrite Hraw. vm_compute. reflexivity.
  - intros s Hs Hne. apply V23_process_array; [assumption|].
    rewrite Hs. unfold logical_or. simpl ToBoolean.
    apply String.eqb_neq in Hne. rewrite Hne. reflexivity.
  - apply parseInt_decimal.
  - apply parseInt_not_a_number.
  - vm_compute. reflexivity.
  - vm_compute. reflexivity.
  - apply parseInt_digits.
  - apply parseInt_no_digit.
  - vm_compute. reflexivity.
Qed.

Lemma status_code_is_parseInt_witness :
  (ToBoolean (nth 3 [VNum 1; VNum 0; VStr "OK"; VStr "abc"] VUndefined) = false ->
   V23.process (VArr [VNum 1; VNum 0; VStr "OK"; VStr "abc"]) []
   = (Normal (mkResponse 200
                (result_body [VNum 1; VNum 0; VStr "OK"; VStr "abc"] 0 0)), []))
  /\ (forall s, nth 3 [VNum 1; VNum 0; VStr "OK"; VStr "abc"] VUndefined = VStr s ->
      s <> ""%string ->
      V23.process (VArr [VNum 1; VNum 0; VStr "OK"; VStr "abc"]) []
      = (Normal (mkResponse 200
                   (result_body [VNum 1; VNum 0; VStr "OK"; VStr "abc"] 0
                      (parseInt_string s))), []))
  /\ (forall n : N, parseInt_string (decimal (Z.of_N n)) = float_of_Z (Z.of_N n))
  /\ (forall c rest,
        is_white c = false -> c <> "+"%char -> c <> "-"%char ->
        digit_in 10 c = None ->
        parseInt_string (String c rest) = nan)
  /\ map parseInt_string ["200"; "0"; "404 Not Found"; "abc"] = [200; 0; 404; nan]
  /\ JSON_wire (VNum nan) = VNull
  /\ (forall (s : string) (u : Decimal.uint),
        s <> ""%string ->
        NilEmpty.uint_of_string s = Some u ->
        parseInt_string s = float_of_Z (Z.of_N (N.of_uint u)))
  /\ (forall ws sign rest : list ascii,
        Forall (fun c => is_white c = true) ws ->
        (sign = [] /\ match rest with
                      | [] => True
                      | c :: _ => is_white c = false /\ c <> "+"%char /\ c <> "-"%char
                      end)
        \/ sign = ["+"%char] \/ sign = ["-"%char] ->
        no_digit_ahead rest ->
        parseInt_string (string_of_list_ascii (ws ++ sign ++ rest)) = nan)
  /\ map parseInt_string ["0200"; "007"; " abc"; "-abc"; "+"; "-"; "  "; "+ 5"]
     = [200; 7; nan; nan; nan; nan; nan; nan].
Proof.
  apply (status_code_is_parseInt [VNum 1; VNum 0; VStr "OK"; VStr "abc"] 0 []).
  reflexivity.
Defined.

(** C8 as the spec words it fails on the record [[1, 0.35, "OK", "abc"]]:
    the status code sent is NaN, not 0. *)
Lemma defaults_to_zero_fails_on_abc :
  ~ defaults_to_zero V23.process
      (VArr [VNum 1; VNum 0x1.6666666666666p-2; VStr "OK"; VStr "abc"]).
Proof.
  intros H.
  specialize (H (mkResponse 200
                   (result_body [VNum 1; VNum 0x1.6666666666666p-2; VStr "OK"; VStr "abc"]
                      0x1.6666666666666p-2 nan)) []).
  assert (Hrun : V23.process
                   (VArr [VNum 1; VNum 0x1.6666666666666p-2; VStr "OK"; VStr "abc"]) []
                 = (Normal (mkResponse 200
                              (result_body
                                 [VNum 1; VNum 0x1.6666666666666p-2; VStr "OK"; VStr "abc"]
                                 0x1.6666666666666p-2 nan)), []))
    by (vm_compute; reflexivity).
  specialize (H Hrun).
  apply (f_equal (fun c => match c with
                           | Normal (VNum x) => is_nan x
                           | _ => false
                           end)) in H.
  vm_compute in H. discriminate H.
Qed.

End Normalization.

(** ** The submission address *)

Module Address.
Import JS Relay Notions Scenarios Logic Validation Failures Submission.
Local Open Scope list_scope.
Local Open Scope float_scope.

Lemma orderly_extends {A : Type} upstream (m : M A) (w : world) :
  orderly upstream m -> exists r rest, m w = (r, w ++ rest).
Proof.
  intros H. destruct (H w) as (evs & Hw & _).
  exists (fst (m w)), evs. rewrite <- Hw. now destruct (m w).
Qed.

(** The first event of the [try] body is the submission. *)
Lemma V23_attempt_first upstream url method endpoint host :
  ToString url = Normal host ->
  exists r rest,
    V23.attempt upstream url method (Endpoint endpoint) DEFAULT_NODE_ID []
    = (r, AxiosGet (submission_url endpoint host) 8000 :: rest).
Proof.
  intros Hhost.
  destruct (upstream 0%nat (submission_url endpoint host)) as [data | e] eqn:Hup.
  - rewrite (V23_attempt_submit upstream _ _ _ _ _ Hhost Hup).
    apply (orderly_extends upstream).
    pose proof (Orderly.V23_poll upstream). pose proof (Orderly.V23_process upstream).
    orderly.
  - unfold V23.attempt. rewrite Hhost, bind_normal.
    unfold bind at 1. unfold axios_get at 1.
    change (calls []) with 0%nat.
    change (CHECK_HOST_BASE_URL ++ "/" ++ endpoint_text (Endpoint endpoint) ++ "?host="
            ++ host ++ "&node=" ++ DEFAULT_NODE_ID)%string
      with (submission_url endpoint host).
    rewrite Hup. exists (Throw e), []. reflexivity.
Qed.

(** The same for the single-file monitor. *)
Lemma V30_attempt_first upstream url method endpoint host :
  ToString url = Normal host ->
  exists r rest,
    V30.attempt upstream url method (Endpoint endpoint) DEFAULT_NODE_ID []
    = (r, AxiosGet (submission_url endpoint host) 8000 :: rest).
Proof.
  intros Hhost. unfold V30.attempt. rewrite Hhost, bind_normal.
  unfold bind at 1. unfold axios_get at 1.
  change (CHECK_HOST_BASE_URL ++ "/" ++ endpoint_text (Endpoint endpoint) ++ "?host="
          ++ host ++ "&node=" ++ DEFAULT_NODE_ID)%string
    with (submission_url endpoint host).
  destruct (upstream (calls []) (submission_url endpoint host)) as [data | e].
  - change ([] ++ [AxiosGet (submission_url endpoint host) 8000])
      with [AxiosGet (submission_url endpoint host) 8000].
    apply (orderly_extends upstream).
    pose proof (Orderly.V30_poll upstream). pose proof (Orderly.V30_process upstream).
    orderly.
  - exists (Throw e), []. reflexivity.
Qed.

Lemma V30_endpoint_truthy (key : string) :
  endpoint_truthy (lookup V30.METHOD_ENDPOINT_MAP key) = false
  <-> lookup V30.METHOD_ENDPOINT_MAP key = NoEndpoint.
Proof.
  unfold lookup.
  destruct (assoc V30.METHOD_ENDPOINT_MAP key) as [name|] eqn:E.
  - apply assoc_in in E. simpl in E.
    split; [|discriminate].
    repeat (destruct E as [[= <- <-] | E]; [discriminate|]). destruct E.
  - destruct (assoc Object_prototype key); simpl; split; congruence.
Qed.

Lemma V30_mapped upstream req_body url method name endpoint host :
  mapped_request V30.METHOD_ENDPOINT_MAP req_body url method name endpoint host ->
  V30.run upstream req_body
  = try_catch (V30.attempt upstream url method (Endpoint endpoint) DEFAULT_NODE_ID)
      (V30.recover method) [].
Proof.
  intros [Hu Hm Tu Tm Hname Hown Hhost].
  unfold V30.run, V30.api_check.
  rewrite Hu, bind_normal, Hm, bind_normal, Tu, Tm. cbn [negb orb].
  rewrite Hname, bind_normal.
  assert (Hep : lookup V30.METHOD_ENDPOINT_MAP name = Endpoint endpoint)
    by (unfold lookup; now rewrite Hown).
  destruct (endpoint_truthy (lookup V30.METHOD_ENDPOINT_MAP name)) eqn:E.
  - now rewrite Hep.
  - apply V30_endpoint_truthy in E. rewrite Hep in E. discriminate E.
Qed.

(** C10. For every mapped method and every url, the first outbound call
    of [server.js], and of the single-file monitor, goes to exactly
    ['https://check-host.net/' + endpoint + '?host=' + url +
    '&node=sg1.node.check-host.net'], with the caller's url as the template
    literal renders it: a string is embedded character for character, with
    no escaping.  So a url containing [&] or [#] changes the query the
    upstream service reads: [host=a&node=x] adds a second [node], and
    everything after [#], the [node] parameter included, leaves the query. *)
Theorem submission_url_is_concatenation :
  forall (upstream : service) (req_body url method : value)
         (name endpoint host : string),
    mapped_request V23.METHOD_ENDPOINT_MAP req_body url method name endpoint host ->
    hd_error (snd (V23.run upstream req_body))
    = Some (AxiosGet ("https://check-host.net/" ++ endpoint ++ "?host=" ++ host
                      ++ "&node=sg1.node.check-host.net") 8000)
    /\ (assoc V30.METHOD_ENDPOINT_MAP name = Some endpoint ->
        hd_error (snd (V30.run upstream req_body))
        = Some (AxiosGet ("https://check-host.net/" ++ endpoint ++ "?host=" ++ host
                          ++ "&node=sg1.node.check-host.net") 8000))
    /\ (forall s, url = VStr s -> host = s)
    /\ query (submission_url "check-http" "example.com")
       = [ ("host", "example.com"); ("node", "sg1.node.check-host.net") ]
    /\ query (submission_url "check-http" "a&node=x")
       = [ ("host", "a"); ("node", "x"); ("node", "sg1.node.check-host.net") ]
    /\ query (submission_url "check-http" "a#b") = [ ("host", "a") ].
Proof.
  intros upstream req_body url method name endpoint host Hreq.
  split; [|split; [|split; [|repeat split]]].
  2:{ intros Hown.
      assert (Hreq' : mapped_request V30.METHOD_ENDPOINT_MAP req_body url method
                        name endpoint host)
        by (destruct Hreq; constructor; assumption).
      rewrite (V30_mapped upstream _ _ _ _ _ _ Hreq').
      destruct Hreq as [_ _ _ _ Hname _ Hhost].
      destruct (V30_attempt_first upstream url method endpoint host Hhost)
        as (r & rest & Hattempt).
      unfold try_catch. rewrite Hattempt.
      destruct r as [resp | e]; [reflexivity|].
      change (V30.recover method e) with (V23.recover method e).
      destruct (V23_recover method name e
                  (AxiosGet (submission_url endpoint host) 8000 :: rest) Hname)
        as (detail & -> & _).
      reflexivity. }
  - rewrite (V23_mapped upstream _ _ _ _ _ _ Hreq).
    destruct Hreq as [_ _ _ _ Hname _ Hhost].
    destruct (V23_attempt_first upstream url method endpoint host Hhost)
      as (r & rest & Hattempt).
    unfold try_catch. rewrite Hattempt.
    destruct r as [resp | e]; [reflexivity|].
    destruct (V23_recover method name e
                (AxiosGet (submission_url endpoint host) 8000 :: rest) Hname)
      as (detail & -> & _).
    reflexivity.
  - intros s ->. destruct Hreq as [_ _ _ _ _ _ Hhost]. now injection Hhost.
Qed.

Lemma submission_url_is_concatenation_witness :
  hd_error (snd (V23.run timing_out (request "a#b" "http")))
  = Some (AxiosGet ("https://check-host.net/" ++ "check-http" ++ "?host=" ++ "a#b"
                    ++ "&node=sg1.node.check-host.net") 8000)
  /\ (assoc V30.METHOD_ENDPOINT_MAP "http" = Some "check-http"%string ->
      hd_error (snd (V30.run timing_out (request "a#b" "http")))
      = Some (AxiosGet ("https://check-host.net/" ++ "check-http" ++ "?host=" ++ "a#b"
                        ++ "&node=sg1.node.check-host.net") 8000))
  /\ (forall s, VStr "a#b" = VStr s -> "a#b"%string = s)
  /\ query (submission_url "check-http" "example.com")
     = [ ("host", "example.com"); ("node", "sg1.node.check-host.net") ]
  /\ query (submission_url "check-http" "a&node=x")
     = [ ("host", "a"); ("node", "x"); ("node", "sg1.node.check-host.net") ]
  /\ query (submission_url "check-http" "a#b") = [ ("host", "a") ].
Proof.
  apply (submission_url_is_concatenation timing_out (request "a#b" "http")
           (VStr "a#b") (VStr "http") "http" "check-http" "a#b").
  constructor; reflexivity.
Defined.

End Address.

(** ** The two versions *)

Module Versions.
Import JS Relay Notions Scenarios Logic Validation Failures Submission.
Local Open Scope list_scope.
Local Open Scope float_scope.

Lemma polls_same upstream node_id request_id :
  forall left w,
    V30.poll upstream node_id request_id left w
    = V23.poll upstream node_id request_id left w.
Proof.
  induction left as [|left IH]; intros w; [reflexivity|].
  cbn [V30.poll V23.poll]. unfold bind, lift, axios_get, delay, emit, ret.
  repeat match goal with
         | |- context [match ?c with _ => _ end] =>
             lazymatch c with
             | context [V30.poll] => fail
             | context [V23.poll] => fail
             | _ => destruct c
             end
         end; try reflexivity; apply IH.
Qed.

Lemma recover_same method e w : V30.recover method e w = V23.recover method e w.
Proof. reflexivity. Qed.

Lemma lookup_same (name : string) :
  name <> "udp"%string ->
  lookup V30.METHOD_ENDPOINT_MAP name = lookup V23.METHOD_ENDPOINT_MAP name.
Proof.
  intros H. apply String.eqb_neq in H. unfold lookup. cbn [assoc V30.METHOD_ENDPOINT_MAP V23.METHOD_ENDPOINT_MAP].
  rewrite String.eqb_sym in H. now rewrite H.
Qed.

(** Case analysis on the next test of either handler. *)
Ltac next_case :=
  match goal with
  | |- context [ToBoolean ?v] => destruct (ToBoolean v) eqn:?
  | |- context [match ?c with _ => _ end] => destruct c eqn:?
  | |- context [if ?c then _ else _] => destruct c eqn:?
  end.

Lemma process_alike name checkResult w :
  alike name (V23.process checkResult w) (V30.process checkResult w).
Proof.
  unfold V23.process, V30.process, bind, lift, ret.
  destruct (iterate "checkResult" checkResult 4) as [parts | e]; [|apply alike_same].
  destruct (ToNumber _) as [seconds | e]; [|apply alike_same].
  destruct (parseInt _) as [statusCode | e]; [|apply alike_same].
  apply alike_bodies. apply (agree_result parts seconds statusCode).
Qed.

Lemma attempts_alike upstream url method apiEndpoint node_id name w :
  ToString method = Normal name ->
  alike name (V23.attempt upstream url method apiEndpoint node_id w)
             (V30.attempt upstream url method apiEndpoint node_id w).
Proof.
  intros Hname.
  unfold V23.attempt, V30.attempt, bind, lift, ret, axios_get, delay, emit, logical_or.
  unfold V23.maxAttempts, V30.maxAttempts.
  rewrite Hname.
  repeat first
    [ rewrite polls_same
    | apply process_alike
    | apply alike_same
    | apply alike_thrown
    | apply alike_bodies; first [apply agree_rejected | apply agree_initial]
    | discriminate
    | match goal with
      | H : (_, _) = (_, _) |- _ => injection H as ? ?; subst
      | H : Normal _ = Normal _ |- _ => injection H as ?; subst
      | H : Throw _ = Throw _ |- _ => injection H as ?; subst
      end
    | next_case ].
Qed.

Lemma same_answer_refl (o : completion response * world) : same_answer o o.
Proof.
  split; [reflexivity|]. destruct (fst o); [split; [reflexivity | apply agree_same] | reflexivity].
Qed.

Lemma outbound_console (w : world) (label text : string) :
  outbound (w ++ [ConsoleError label text]) = outbound w.
Proof. unfold outbound. rewrite filter_app. simpl. apply app_nil_r. Qed.

(** C9, as the code has it.  For every request whose method does not
    read as ['udp'], and every behaviour of the upstream service, the two
    handlers make the same outbound calls and delays and either both throw
    the same exception or both answer with the same status and with bodies
    that are the same, or differ in one of these ways: the result of
    [server.js] has an [errorRate] the single file's lacks; the details of an
    upstream rejection differ; the default texts of an initial result
    without upstream message differ. *)
Theorem versions_agree_except_udp :
  forall (upstream : service) (req_body : value),
    (forall method name,
        Get req_body "method" = Normal method ->
        ToString method = Normal name ->
        name <> "udp"%string) ->
    same_answer (V23.run upstream req_body) (V30.run upstream req_body).
Proof.
  intros upstream req_body Hudp.
  unfold V23.run, V30.run, V23.api_check, V30.api_check.
  destruct (Get req_body "url") as [url | e];
    [rewrite !bind_normal | rewrite !bind_throw; apply same_answer_refl].
  destruct (Get req_body "method") as [method | e];
    [rewrite !bind_normal | rewrite !bind_throw; apply same_answer_refl].
  destruct (negb (ToBoolean url) || negb (ToBoolean method)); [apply same_answer_refl|].
  destruct (ToString method) as [name | e] eqn:Hname;
    [rewrite !bind_normal | rewrite !bind_throw; apply same_answer_refl].
  rewrite (lookup_same name (Hudp method name eq_refl Hname)).
  destruct (negb (endpoint_truthy (lookup V23.METHOD_ENDPOINT_MAP name)));
    [apply same_answer_refl|].
  unfold try_catch.
  pose proof (attempts_alike upstream url method
                (lookup V23.METHOD_ENDPOINT_MAP name) DEFAULT_NODE_ID name [] Hname)
    as Halike.
  inversion Halike as [o H1 H2 | b1 b2 w Hagree H1 H2 | e w H1 H2].
  - rewrite <- H1. destruct o as [[resp | e] w]; apply same_answer_refl.
  - split; [reflexivity|]. split; [reflexivity | exact Hagree].
  - rewrite recover_same.
    destruct (V23_recover method name e w Hname) as (detail & -> & _).
    split; [cbn [snd]; now rewrite outbound_console|].
    split; [reflexivity | apply agree_rejected].
Qed.

Lemma versions_agree_except_udp_witness :
  same_answer
    (V23.run (ready (VArr [VNum 1; VNum 0; VStr "OK"; VStr "200"]))
       (request "example.com" "http"))
    (V30.run (ready (VArr [VNum 1; VNum 0; VStr "OK"; VStr "200"]))
       (request "example.com" "http")).
Proof.
  apply (versions_agree_except_udp
           (ready (VArr [VNum 1; VNum 0; VStr "OK"; VStr "200"]))
           (request "example.com" "http")).
  intros method name Hm Hname. simpl in Hm. injection Hm as <-.
  simpl in Hname. injection Hname as <-. discriminate.
Defined.

(** C9 as stated fails on [{url: 'example.com', method: 'udp'}]:
    [server.js] maps [udp], calls the upstream and answers 200; the single
    file has no [udp] entry and answers 400. *)
Lemma same_response_fails_on_udp :
  ~ same_response (V23.run timing_out (request "example.com" "udp"))
                  (V30.run timing_out (request "example.com" "udp")).
Proof.
  intros H. destruct (H _ _ eq_refl eq_refl) as [Hstatus _]. discriminate Hstatus.
Qed.

(** It also fails, for a method both map, on any result: the bodies differ
    in [errorRate]. *)
Example same_response_fails_on_result :
  ~ same_response
      (V23.run (ready (VArr [VNum 1; VNum 0; VStr "OK"; VStr "200"]))
         (request "example.com" "http"))
      (V30.run (ready (VArr [VNum 1; VNum 0; VStr "OK"; VStr "200"]))
         (request "example.com" "http")).
Proof.
  intros H. destruct (H _ _ eq_refl eq_refl) as [_ Hbody].
  apply (f_equal (fun b => match Get b "errorRate" with
                           | Normal VUndefined => true
                           | _ => false
                           end)) in Hbody.
  vm_compute in Hbody. discriminate Hbody.
Qed.

End Versions.

(** ** What a run can do outward *)

Module Bounds.
Import JS Relay Notions Schedules Logic Validation Failures Submission Versions.
Local Open Scope list_scope.
Local Open Scope float_scope.

Lemma is_prefix_nil {A : Type} (l : list A) : is_prefix [] l.
Proof. now exists l. Qed.

Lemma is_prefix_refl {A : Type} (l : list A) : is_prefix l l.
Proof. exists []. now rewrite app_nil_r. Qed.

Lemma is_prefix_cons {A : Type} (a : A) (l l' : list A) :
  is_prefix l l' -> is_prefix (a :: l) (a :: l').
Proof. intros [rest ->]. now exists rest. Qed.

Lemma is_prefix_app {A : Type} (l0 l l' : list A) :
  is_prefix l l' -> is_prefix (l0 ++ l) (l0 ++ l').
Proof. intros [rest ->]. exists rest. now rewrite app_assoc. Qed.

Lemma is_prefix_trans {A : Type} (l1 l2 l3 : list A) :
  is_prefix l1 l2 -> is_prefix l2 l3 -> is_prefix l1 l3.
Proof. intros [r1 ->] [r2 ->]. exists (r1 ++ r2). now rewrite app_assoc. Qed.

Lemma fruitless_S (id : string) (n : nat) :
  fruitless id (S n) = [AxiosGet (result_url id) 5000; Delay 1500] ++ fruitless id n.
Proof. reflexivity. Qed.

(** The loop follows the schedule of its polls, as far as it gets. *)
Lemma V23_poll_within upstream request_id :
  forall left w,
    exists evs,
      snd (V23.poll upstream DEFAULT_NODE_ID request_id left w) = w ++ evs
      /\ is_prefix evs (fruitless (id_text request_id) left).
Proof.
  unfold id_text.
  induction left as [|left IH]; intros w.
  - exists []. split; [cbn; now rewrite app_nil_r | apply is_prefix_nil].
  - cbn [V23.poll].
    destruct (ToString request_id) as [id | e] eqn:Hid;
      [rewrite bind_normal
      | rewrite bind_throw; exists []; split;
        [cbn; now rewrite app_nil_r | apply is_prefix_nil]].
    assert (Hone : is_prefix [AxiosGet (result_url id) 5000] (fruitless id (S left)))
      by (rewrite fruitless_S; now exists (Delay 1500 :: fruitless id left)).
    unfold bind at 1. unfold axios_get at 1.
    change (CHECK_HOST_BASE_URL ++ "/check-result/" ++ id)%string with (result_url id).
    destruct (upstream (calls w) (result_url id)) as [data | e];
      [| exists [AxiosGet (result_url id) 5000]; now split].
    destruct (Get data DEFAULT_NODE_ID) as [nodeResult | e];
      [rewrite bind_normal
      | rewrite bind_throw; exists [AxiosGet (result_url id) 5000]; now split].
    assert (Hstep : forall first,
               exists evs,
                 snd (bind (ret first) (fun first =>
                        if ToBoolean first then ret first
                        else bind (delay 1500)
                               (fun _ => V23.poll upstream DEFAULT_NODE_ID request_id left))
                        (w ++ [AxiosGet (result_url id) 5000]))
                 = w ++ evs
                 /\ is_prefix evs (fruitless id (S left))).
    { intros first. unfold bind at 1. unfold ret at 1.
      destruct (ToBoolean first).
      - exists [AxiosGet (result_url id) 5000]. now split.
      - unfold bind, delay, emit.
        destruct (IH ((w ++ [AxiosGet (result_url id) 5000]) ++ [Delay 1500]))
          as (evs & Hevs & Hpre).
        exists ([AxiosGet (result_url id) 5000; Delay 1500] ++ evs). split.
        + rewrite Hevs. now rewrite <- !app_assoc.
        + rewrite fruitless_S. now apply is_prefix_app. }
    destruct (ToBoolean nodeResult); [|apply Hstep].
    destruct (Get nodeResult "0") as [first | e]; [apply Hstep|].
    rewrite bind_throw. exists [AxiosGet (result_url id) 5000]. now split.
Qed.

Section Appends.
Context {A B : Type}.

Lemma appends_weaken (P Q : list event -> Prop) (m : M A) :
  appends P m -> (forall evs, P evs -> Q evs) -> appends Q m.
Proof. intros H HPQ w. destruct (H w) as (evs & Hw & HP). eauto. Qed.

Lemma silent_ret (a : A) : silent (ret a).
Proof. intros w. exists []. cbn. now rewrite app_nil_r. Qed.

Lemma silent_lift (c : completion A) : silent (lift c).
Proof. intros w. exists []. cbn. now rewrite app_nil_r. Qed.

Lemma appends_bind (P Q R : list event -> Prop) (m : M A) (f : A -> M B) :
  appends Q m ->
  (forall a, appends R (f a)) ->
  (forall e1, Q e1 -> P e1) ->
  (forall e1 e2, Q e1 -> R e2 -> P (e1 ++ e2)) ->
  appends P (bind m f).
Proof.
  intros Hm Hf Hthrow Hboth w. unfold bind.
  destruct (Hm w) as (e1 & Hw1 & HQ).
  destruct (m w) as [[a | e] w1]; cbn [snd] in Hw1; subst w1.
  - destruct (Hf a (w ++ e1)) as (e2 & Hw2 & HR).
    exists (e1 ++ e2). split; [now rewrite Hw2, app_assoc | now apply Hboth].
  - exists e1. split; [reflexivity | now apply Hthrow].
Qed.

(** After a silent step. *)
Lemma appends_after (P : list event -> Prop) (m : M A) (f : A -> M B) :
  silent m -> P [] -> (forall a, appends P (f a)) -> appends P (bind m f).
Proof.
  intros Hm Hnil Hf.
  apply (appends_bind P (eq []) P); try assumption.
  - now intros e1 <-.
  - now intros e1 e2 <- H.
Qed.

Lemma silent_bind (m : M A) (f : A -> M B) :
  silent m -> (forall a, silent (f a)) -> silent (bind m f).
Proof. intros Hm Hf. now apply appends_after. Qed.

End Appends.

Lemma appends_emit (ev : event) : appends (eq [ev]) (emit ev).
Proof. intros w. now exists [ev]. Qed.

Lemma appends_axios_get upstream url tm :
  appends (eq [AxiosGet url tm]) (axios_get upstream url tm).
Proof. intros w. now exists [AxiosGet url tm]. Qed.

(** Splits a [silent] goal along the binds and tests of a pure block. *)
Ltac silent :=
  unfold silent;
  repeat first
    [ apply silent_ret
    | apply silent_lift
    | apply silent_bind; [| intro]
    | match goal with
      | |- appends _ (if ?c then _ else _) => destruct c
      | |- appends _ (match ?c with _ => _ end) => destruct c
      end ].

Lemma V23_process_silent checkResult : silent (V23.process checkResult).
Proof. unfold V23.process. silent. Qed.

Lemma V23_recover_appends method e :
  appends (fun evs => evs = []
                      \/ exists detail, evs = [ConsoleError "[BACKEND ERROR]" detail])
    (V23.recover method e).
Proof.
  unfold V23.recover.
  apply (appends_bind _ (eq []) (fun evs => exists detail,
                                    evs = [ConsoleError "[BACKEND ERROR]" detail])).
  - silent.
  - intros detail.
    apply (appends_bind _ (eq [ConsoleError "[BACKEND ERROR]" detail]) (eq [])).
    + apply appends_emit.
    + intros _. apply silent_ret.
    + intros e1 <-. eauto.
    + intros e1 e2 <- <-. cbn. eauto.
  - intros e1 <-. now left.
  - intros e1 e2 <- H. now right.
Qed.

(** The [try] body follows the schedule, as far as it gets. *)
Lemma V23_attempt_within upstream url method apiEndpoint :
  appends (fun evs => exists address id, is_prefix evs (schedule address id))
    (V23.attempt upstream url method apiEndpoint DEFAULT_NODE_ID).
Proof.
  unfold V23.attempt.
  apply appends_after; [apply silent_lift | exists "", ""; apply is_prefix_nil |].
  intros host.
  set (address := (CHECK_HOST_BASE_URL ++ "/" ++ endpoint_text apiEndpoint ++ "?host="
                   ++ host ++ "&node=" ++ DEFAULT_NODE_ID)%string).
  apply (appends_bind _ (eq [AxiosGet address 8000])
           (fun evs => exists id, is_prefix evs (Delay 2500 :: fruitless id 6)));
    [apply appends_axios_get | |
     intros e1 <-; exists address, ""; apply is_prefix_cons, is_prefix_nil |
     intros e1 e2 <- [id H]; exists address, id; now apply is_prefix_cons].
  intros data.
  apply appends_after; [apply silent_lift | exists ""; apply is_prefix_nil |].
  intros ok.
  apply appends_after; [silent | exists ""; apply is_prefix_nil |].
  intros [|].
  - apply (appends_weaken (eq [])); [silent | intros evs <-; exists ""; apply is_prefix_nil].
  - apply appends_after; [apply silent_lift | exists ""; apply is_prefix_nil |].
    intros request_id.
    apply (appends_bind _ (eq [Delay 2500])
             (fun evs => is_prefix evs (fruitless (id_text request_id) 6)));
      [apply appends_emit | |
       intros e1 <-; exists ""; apply is_prefix_cons, is_prefix_nil |
       intros e1 e2 <- H; exists (id_text request_id); now apply is_prefix_cons].
    intros _.
    apply (appends_bind _ (fun evs => is_prefix evs (fruitless (id_text request_id) 6))
             (eq []));
      [ intros w; apply V23_poll_within | |
        now intros e1 H | intros e1 e2 H <-; now rewrite app_nil_r ].
    intros checkResult.
    destruct (negb (ToBoolean checkResult)); [silent | apply V23_process_silent].
Qed.

Lemma appends_after_lift {A B : Type} (P : list event -> Prop)
      (c : completion A) (f : A -> M B) :
  P [] -> (forall a, c = Normal a -> appends P (f a)) -> appends P (bind (lift c) f).
Proof.
  intros Hnil Hf w. destruct c as [a | e].
  - rewrite bind_normal. now apply Hf.
  - rewrite bind_throw. exists []. cbn. now rewrite app_nil_r.
Qed.

Lemma appends_try {A : Type} (P Q R : list event -> Prop)
      (body : M A) (handler : error -> M A) :
  appends Q body ->
  (forall e, appends R (handler e)) ->
  (forall e1, Q e1 -> P e1) ->
  (forall e1 e2, Q e1 -> R e2 -> P (e1 ++ e2)) ->
  appends P (try_catch body handler).
Proof.
  intros Hbody Hhandler Hnormal Hcaught w. unfold try_catch.
  destruct (Hbody w) as (e1 & Hw1 & HQ).
  destruct (body w) as [[a | e] w1]; cbn [snd] in Hw1; subst w1.
  - exists e1. split; [reflexivity | now apply Hnormal].
  - destruct (Hhandler e (w ++ e1)) as (e2 & Hw2 & HR).
    exists (e1 ++ e2). split; [now rewrite Hw2, app_assoc | now apply Hcaught].
Qed.

Lemma outbound_app (w v : world) : outbound (w ++ v) = outbound w ++ outbound v.
Proof. unfold outbound. apply filter_app. Qed.

Lemma outbound_fruitless (id : string) (n : nat) :
  outbound (fruitless id n) = fruitless id n.
Proof.
  induction n as [|n IH]; [reflexivity|].
  rewrite fruitless_S, outbound_app, IH. reflexivity.
Qed.

Lemma filter_all {A : Type} (f : A -> bool) (l : list A) :
  List.length (filter f l) = List.length l -> filter f l = l.
Proof.
  induction l as [|x l IH]; [reflexivity|]. cbn.
  destruct (f x); cbn; intros H.
  - f_equal. apply IH. lia.
  - pose proof (filter_length_le f l). lia.
Qed.

(** A prefix of a schedule holds calls and delays only. *)
Lemma outbound_on_schedule (evs : list event) (address id : string) :
  is_prefix evs (schedule address id) -> outbound evs = evs.
Proof.
  intros [rest Hrest].
  assert (Hall : outbound (evs ++ rest) = evs ++ rest).
  { rewrite <- Hrest.
    change (schedule address id)
      with ([AxiosGet address 8000; Delay 2500] ++ fruitless id 6).
    now rewrite outbound_app, outbound_fruitless. }
  rewrite outbound_app in Hall.
  apply (f_equal (@List.length event)) in Hall. rewrite !length_app in Hall.
  apply filter_all.
  pose proof (filter_length_le (fun ev => negb (is_console ev)) evs).
  pose proof (filter_length_le (fun ev => negb (is_console ev)) rest).
  unfold outbound in Hall. lia.
Qed.

Lemma on_schedule_nil : on_schedule [].
Proof. exists "", "". split; [apply is_prefix_nil | now left]. Qed.

Lemma on_schedule_try (e1 e2 : list event) :
  (exists address id, is_prefix e1 (schedule address id)) ->
  (e2 = [] \/ exists detail, e2 = [ConsoleError "[BACKEND ERROR]" detail]) ->
  on_schedule (e1 ++ e2).
Proof.
  intros (address & id & Hpre) He2. exists address, id.
  pose proof (outbound_on_schedule _ _ _ Hpre) as Hout.
  destruct He2 as [-> | [detail ->]].
  - rewrite app_nil_r, Hout. split; [assumption | now left].
  - rewrite outbound_app, Hout. cbn. rewrite app_nil_r.
    split; [assumption | right; now exists detail].
Qed.

Lemma V23_run_on_schedule upstream req_body :
  on_schedule (snd (V23.run upstream req_body)).
Proof.
  assert (H : appends on_schedule (V23.api_check upstream req_body)).
  { unfold V23.api_check.
    apply appends_after_lift; [apply on_schedule_nil | intros url _].
    apply appends_after_lift; [apply on_schedule_nil | intros method _].
    destruct (negb (ToBoolean url) || negb (ToBoolean method)).
    { apply (appends_weaken (eq [])); [apply silent_ret|].
      intros evs <-. apply on_schedule_nil. }
    apply appends_after_lift; [apply on_schedule_nil | intros name _].
    destruct (negb (endpoint_truthy (lookup V23.METHOD_ENDPOINT_MAP name))).
    { apply (appends_weaken (eq [])); [silent|].
      intros evs <-. apply on_schedule_nil. }
    eapply appends_try.
    - apply V23_attempt_within.
    - intros e. apply V23_recover_appends.
    - intros e1 H. rewrite <- (app_nil_r e1). apply on_schedule_try; auto.
    - intros e1 e2 H1 H2. now apply on_schedule_try. }
  destruct (H []) as (evs & Hw & Hevs). unfold V23.run. now rewrite Hw.
Qed.

Lemma alike_snd name o1 o2 : alike name o1 o2 -> snd o1 = snd o2.
Proof. now intros []. Qed.

Lemma V30_run_on_schedule upstream req_body :
  on_schedule (snd (V30.run upstream req_body)).
Proof.
  assert (H : appends on_schedule (V30.api_check upstream req_body)).
  { unfold V30.api_check.
    apply appends_after_lift; [apply on_schedule_nil | intros url _].
    apply appends_after_lift; [apply on_schedule_nil | intros method _].
    destruct (negb (ToBoolean url) || negb (ToBoolean method)).
    { apply (appends_weaken (eq [])); [apply silent_ret|].
      intros evs <-. apply on_schedule_nil. }
    apply appends_after_lift; [apply on_schedule_nil | intros name Hname].
    destruct (negb (endpoint_truthy (lookup V30.METHOD_ENDPOINT_MAP name))).
    { apply (appends_weaken (eq [])); [silent|].
      intros evs <-. apply on_schedule_nil. }
    eapply appends_try.
    - intros w.
      rewrite <- (alike_snd name _ _
                    (attempts_alike upstream url method _ DEFAULT_NODE_ID name w Hname)).
      apply V23_attempt_within.
    - intros e. apply V23_recover_appends.
    - intros e1 H. rewrite <- (app_nil_r e1). apply on_schedule_try; auto.
    - intros e1 e2 H1 H2. now apply on_schedule_try. }
  destruct (H []) as (evs & Hw & Hevs). unfold V30.run. now rewrite Hw.
Qed.

(** X1. Whatever the request and the upstream service, the calls and
    delays of a run, in either file, are an initial part of one fixed
    schedule: the submission with its 8000 ms timeout, the 2500 ms delay,
    then at most six polls of one and the same check-result address, each
    with a 5000 ms timeout and followed by a 1500 ms delay; the only other
    thing a run does is the one [console.error] line of the [catch] block,
    last. *)
Theorem runs_follow_the_schedule :
  forall (upstream : service) (req_body : value),
    on_schedule (snd (V23.run upstream req_body))
    /\ on_schedule (snd (V30.run upstream req_body)).
Proof.
  intros upstream req_body.
  split; [apply V23_run_on_schedule | apply V30_run_on_schedule].
Qed.

Lemma waiting_app (w v : world) : waiting (w ++ v) = (waiting w + waiting v)%Z.
Proof.
  induction w as [|[url tm | ms | label text] w IH]; cbn [app waiting]; lia.
Qed.

Lemma waiting_fruitless_rest (id : string) (n : nat) :
  forall l rest : list event,
    fruitless id n = l ++ rest -> (0 <= waiting rest)%Z.
Proof.
  induction n as [|n IH]; intros l rest H.
  - destruct l; [|discriminate H]. cbn in H. subst rest. cbn. lia.
  - rewrite fruitless_S in H. cbn [app] in H.
    pose proof (IH [] (fruitless id n) eq_refl) as Hn.
    destruct l as [|ev l]; [cbn [app] in H; subst rest; cbn [waiting]; lia|].
    injection H as _ H.
    destruct l as [|ev' l]; [cbn [app] in H; subst rest; cbn [waiting]; lia|].
    injection H as _ H. now apply (IH l).
Qed.

Lemma on_schedule_bounds (evs : list event) :
  on_schedule evs -> (calls evs <= 7)%nat /\ (waiting evs <= 49500)%Z.
Proof.
  intros (address & id & [rest Hrest] & Hconsole).
  assert (Hcalls : calls evs = calls (outbound evs)
                   /\ waiting evs = waiting (outbound evs)).
  { destruct Hconsole as [<- | [detail H]]; [now split|].
    set (o := outbound evs) in *. rewrite H, calls_app, waiting_app.
    change (calls [ConsoleError "[BACKEND ERROR]" detail]) with 0%nat.
    change (waiting [ConsoleError "[BACKEND ERROR]" detail]) with 0%Z.
    split; lia. }
  destruct Hcalls as [-> ->].
  assert (Hc : calls (schedule address id) = 7%nat) by reflexivity.
  assert (Hw : waiting (schedule address id) = 49500%Z) by reflexivity.
  rewrite Hrest, calls_app in Hc. rewrite Hrest, waiting_app in Hw.
  split; [lia|].
  assert (0 <= waiting rest)%Z; [|lia].
  unfold schedule in Hrest.
  destruct (outbound evs) as [|ev l]; [cbn in Hrest; subst rest; cbn; lia|].
  injection Hrest as _ Hrest.
  destruct l as [|ev' l].
  { cbn in Hrest. subst rest. cbn. lia. }
  injection Hrest as _ Hrest. now apply (waiting_fruitless_rest id 6 l).
Qed.

(** X2. Every run, in either file, makes at most 7 outbound calls (one
    submission and six polls), and the timeouts of its calls and its delays
    add up to at most 49500 ms: the caller is never kept waiting longer. *)
Theorem runs_are_bounded :
  forall (upstream : service) (req_body : value),
    ((calls (snd (V23.run upstream req_body)) <= 7)%nat
     /\ (waiting (snd (V23.run upstream req_body)) <= 49500)%Z)
    /\ ((calls (snd (V30.run upstream req_body)) <= 7)%nat
        /\ (waiting (snd (V30.run upstream req_body)) <= 49500)%Z).
Proof.
  intros upstream req_body.
  split; apply on_schedule_bounds;
    [apply V23_run_on_schedule | apply V30_run_on_schedule].
Qed.

End Bounds.

(** ** How a run can end *)

Module Outcomes.
Import JS Relay Notions Scenarios Schedules Logic Validation Failures Submission Versions.
Local Open Scope list_scope.
Local Open Scope float_scope.

Lemma V23_throws upstream req_body e w :
  V23.run upstream req_body = (Throw e, w) <-> w = [] /\ throws_before_try req_body e.
Proof.
  unfold V23.run, V23.api_check, throws_before_try. split.
  - intros Hrun.
    destruct (Get req_body "url") as [url | e0];
      [rewrite bind_normal in Hrun
      | rewrite bind_throw in Hrun; injection Hrun as <- <-; split; [reflexivity | now left]].
    destruct (Get req_body "method") as [method | e0];
      [rewrite bind_normal in Hrun
      | rewrite bind_throw in Hrun; injection Hrun as <- <-;
        split; [reflexivity | right; left; now exists url]].
    destruct (ToBoolean url) eqn:Tu; [|discriminate Hrun].
    destruct (ToBoolean method) eqn:Tm; [|discriminate Hrun].
    cbn [negb orb] in Hrun.
    destruct (ToString method) as [name | e0] eqn:Hname;
      [rewrite bind_normal in Hrun
      | rewrite bind_throw in Hrun; injection Hrun as <- <-;
        split; [reflexivity|]; right; right; exists url, method; auto].
    exfalso.
    destruct (negb (endpoint_truthy (lookup V23.METHOD_ENDPOINT_MAP name))).
    + rewrite bind_normal in Hrun. discriminate Hrun.
    + unfold try_catch in Hrun.
      destruct (V23.attempt upstream url method _ DEFAULT_NODE_ID []) as [[resp | e'] w'];
        [discriminate Hrun|].
      destruct (V23_recover method name e' w' Hname) as (detail & Hrec & _).
      rewrite Hrec in Hrun. discriminate Hrun.
  - intros [-> [H | [(url & Hu & Hm) | (url & method & Hu & Hm & Tu & Tm & Hname)]]].
    + now rewrite H.
    + now rewrite Hu, bind_normal, Hm.
    + rewrite Hu, bind_normal, Hm, bind_normal, Tu, Tm. cbn [negb orb].
      now rewrite Hname.
Qed.

Lemma V30_throws upstream req_body e w :
  V30.run upstream req_body = (Throw e, w) <-> w = [] /\ throws_before_try req_body e.
Proof.
  unfold V30.run, V30.api_check, throws_before_try. split.
  - intros Hrun.
    destruct (Get req_body "url") as [url | e0];
      [rewrite bind_normal in Hrun
      | rewrite bind_throw in Hrun; injection Hrun as <- <-; split; [reflexivity | now left]].
    destruct (Get req_body "method") as [method | e0];
      [rewrite bind_normal in Hrun
      | rewrite bind_throw in Hrun; injection Hrun as <- <-;
        split; [reflexivity | right; left; now exists url]].
    destruct (ToBoolean url) eqn:Tu; [|discriminate Hrun].
    destruct (ToBoolean method) eqn:Tm; [|discriminate Hrun].
    cbn [negb orb] in Hrun.
    destruct (ToString method) as [name | e0] eqn:Hname;
      [rewrite bind_normal in Hrun
      | rewrite bind_throw in Hrun; injection Hrun as <- <-;
        split; [reflexivity|]; right; right; exists url, method; auto].
    exfalso.
    destruct (negb (endpoint_truthy (lookup V30.METHOD_ENDPOINT_MAP name))).
    + rewrite bind_normal in Hrun. discriminate Hrun.
    + unfold try_catch in Hrun.
      destruct (V30.attempt upstream url method _ DEFAULT_NODE_ID []) as [[resp | e'] w'];
        [discriminate Hrun|].
      change (V30.recover method e') with (V23.recover method e') in Hrun.
      destruct (V23_recover method name e' w' Hname) as (detail & Hrec & _).
      rewrite Hrec in Hrun. discriminate Hrun.
  - intros [-> [H | [(url & Hu & Hm) | (url & method & Hu & Hm & Tu & Tm & Hname)]]].
    + now rewrite H.
    + now rewrite Hu, bind_normal, Hm.
    + rewrite Hu, bind_normal, Hm, bind_normal, Tu, Tm. cbn [negb orb].
      now rewrite Hname.
Qed.

(** X3. In either file an exception leaves the handler exactly when the
    body cannot be read or a truthy method cannot be written as a property
    key, and then nothing has been sent: every exception raised once the
    [try] is entered, whatever its origin, is answered by the [catch]. *)
Theorem exceptions_escape_only_before_the_try :
  forall (upstream : service) (req_body : value) (e : error) (w : world),
    (V23.run upstream req_body = (Throw e, w)
     <-> w = [] /\ throws_before_try req_body e)
    /\ (V30.run upstream req_body = (Throw e, w)
        <-> w = [] /\ throws_before_try req_body e).
Proof. intros. split; [apply V23_throws | apply V30_throws]. Qed.






End Outcomes.

(** ** The handler of the single-file monitor *)

Module Monitor.
Import JS Relay Notions Scenarios Schedules Logic Validation Failures Submission
       Normalization Address Versions.
Local Open Scope list_scope.
Local Open Scope float_scope.

(** The [try] body once the submission is answered. *)
Lemma V30_attempt_answered upstream url method endpoint host data ok :
  ToString url = Normal host ->
  upstream 0%nat (submission_url endpoint host) = Normal data ->
  Get data "ok" = Normal ok ->
  V30.attempt upstream url method (Endpoint endpoint) DEFAULT_NODE_ID []
  = (if negb (acknowledged data) then
       bind (lift (Get data "message")) (fun upstream_message =>
       let checkHostMessage := logical_or upstream_message (VStr no_message) in
       if String.eqb endpoint "check-whois" || String.eqb endpoint "check-dns" then
         bind (lift (ToString method)) (fun name =>
         bind (lift (ToString checkHostMessage)) (fun text =>
         ret (mkResponse 200
                (initial_result ("Initial result for " ++ name ++ ": " ++ text)))))
       else
         bind (lift (ToString method)) (fun name =>
         bind (lift (ToString checkHostMessage)) (fun text =>
         ret (mkResponse 200 (backend_error (rejection_V30 name text))))))
     else
       bind (lift (Get data "request_id")) (fun request_id =>
       bind (delay 2500) (fun _ =>
       bind (V23.poll upstream DEFAULT_NODE_ID request_id 6) (fun checkResult =>
         if negb (ToBoolean checkResult) then
           bind (lift (ToString method)) (fun name =>
           ret (mkResponse 200 (poll_timeout name)))
         else V30.process checkResult))))
      [AxiosGet (submission_url endpoint host) 8000].
Proof.
  intros Hhost Hup Hok. unfold V30.attempt.
  rewrite Hhost, bind_normal.
  unfold bind at 1. unfold axios_get at 1.
  change (calls []) with 0%nat.
  change (CHECK_HOST_BASE_URL ++ "/" ++ endpoint_text (Endpoint endpoint) ++ "?host="
          ++ host ++ "&node=" ++ DEFAULT_NODE_ID)%string
    with (submission_url endpoint host).
  rewrite Hup.
  change ([] ++ [AxiosGet (submission_url endpoint host) 8000])
    with [AxiosGet (submission_url endpoint host) 8000].
  rewrite Hok, bind_normal, (rejected_test data ok Hok).
  destruct (acknowledged data); cbn [negb]; [|reflexivity].
  unfold bind, lift, delay, emit.
  destruct (Get data "request_id"); [|reflexivity].
  now rewrite polls_same.
Qed.

(** X5. In the single-file monitor, an unacknowledged submission is
    answered after that one call with the text the upstream service gave as
    [message], or with 'No specific error message provided by Check-Host.'
    when it gave none (or a falsy one): for [dns] and [whois] as a result
    ['Initial result for <method>: <text>'], for every other method as a
    backend error ['Check-Host API rejected the request for method <method>.
    Message: <text>']. *)
Theorem rejection_quotes_the_upstream :
  forall (upstream : service) (req_body url method : value)
         (name endpoint host : string) (data said : value) (text : string),
    mapped_request V30.METHOD_ENDPOINT_MAP req_body url method name endpoint host ->
    upstream 0%nat (submission_url endpoint host) = Normal data ->
    acknowledged data = false ->
    Get data "message" = Normal said ->
    ToString (logical_or said (VStr no_message)) = Normal text ->
    V30.run upstream req_body
    = (Normal (mkResponse 200
                 (if String.eqb endpoint "check-whois" || String.eqb endpoint "check-dns"
                  then initial_result ("Initial result for " ++ name ++ ": " ++ text)
                  else backend_error (rejection_V30 name text))),
       [AxiosGet (submission_url endpoint host) 8000])
    /\ (ToBoolean said = false -> text = no_message)
    /\ (forall s, said = VStr s -> s <> ""%string -> text = s).
Proof.
  intros upstream req_body url method name endpoint host data said text
         Hreq Hup Hack Hsaid Htext.
  split.
  - rewrite (V30_mapped upstream _ _ _ _ _ _ Hreq).
    destruct Hreq as [_ _ _ _ Hname _ Hhost].
    destruct (Get_defined data _ "message" "ok" Hsaid) as [ok Hok].
    unfold try_catch.
    rewrite (V30_attempt_answered upstream _ _ _ _ _ _ Hhost Hup Hok), Hack.
    cbn [negb]. rewrite Hsaid, bind_normal. cbv zeta.
    destruct (String.eqb endpoint "check-whois" || String.eqb endpoint "check-dns");
      now rewrite Hname, bind_normal, Htext, bind_normal.
  - unfold logical_or in Htext. split.
    + intros Hfalsy. rewrite Hfalsy in Htext. now injection Htext as <-.
    + intros s -> Hs. cbn in Htext.
      destruct s; [contradiction|]. now injection Htext as <-.
Qed.

Lemma rejection_quotes_the_upstream_witness :
  V30.run (refusing "Too many requests") (request "example.com" "ping")
  = (Normal (mkResponse 200
               (if String.eqb "check-ping" "check-whois" || String.eqb "check-ping" "check-dns"
                then initial_result ("Initial result for " ++ "ping" ++ ": "
                                     ++ "Too many requests")
                else backend_error (rejection_V30 "ping" "Too many requests"))),
     [AxiosGet (submission_url "check-ping" "example.com") 8000])
  /\ (ToBoolean (VStr "Too many requests") = false -> "Too many requests"%string = no_message)
  /\ (forall s, VStr "Too many requests" = VStr s -> s <> ""%string ->
                "Too many requests"%string = s).
Proof.
  apply (rejection_quotes_the_upstream (refusing "Too many requests")
           (request "example.com" "ping") (VStr "example.com") (VStr "ping")
           "ping" "check-ping" "example.com"
           (VObj [ ("ok", VNum 0); ("message", VStr "Too many requests") ])
           (VStr "Too many requests") "Too many requests").
  - constructor; reflexivity.
  - reflexivity.
  - reflexivity.
  - reflexivity.
  - reflexivity.
Defined.

(** A run of the single-file monitor whose submission is acknowledged goes
    on to the polls. *)
Lemma V30_run_accepted upstream req_body url method name endpoint host
      data request_id :
  mapped_request V30.METHOD_ENDPOINT_MAP req_body url method name endpoint host ->
  upstream 0%nat (submission_url endpoint host) = Normal data ->
  acknowledged data = true ->
  Get data "request_id" = Normal request_id ->
  V30.run upstream req_body
  = try_catch
      (bind (V23.poll upstream DEFAULT_NODE_ID request_id 6) (fun checkResult =>
         if negb (ToBoolean checkResult) then
           bind (lift (ToString method)) (fun name =>
           ret (mkResponse 200 (poll_timeout name)))
         else V30.process checkResult))
      (V23.recover method)
      [AxiosGet (submission_url endpoint host) 8000; Delay 2500].
Proof.
  intros Hreq Hup Hack Hrid.
  rewrite (V30_mapped upstream _ _ _ _ _ _ Hreq).
  destruct Hreq as [_ _ _ _ Hname _ Hhost].
  destruct (Get_defined data _ "request_id" "ok" Hrid) as [ok Hok].
  unfold try_catch.
  rewrite (V30_attempt_answered upstream _ _ _ _ _ _ Hhost Hup Hok), Hack.
  cbn [negb]. rewrite Hrid, bind_normal.
  unfold bind at 1. unfold delay at 1, emit at 1. reflexivity.
Qed.

Lemma V30_run_found upstream req_body url method name endpoint host
      data request_id id answer record (j : nat) :
  mapped_request V30.METHOD_ENDPOINT_MAP req_body url method name endpoint host ->
  upstream 0%nat (submission_url endpoint host) = Normal data ->
  acknowledged data = true ->
  Get data "request_id" = Normal request_id ->
  ToString request_id = Normal id ->
  (j < 6)%nat ->
  (forall k, (1 <= k <= j)%nat ->
             exists earlier, upstream k (result_url id) = Normal earlier
                             /\ pending DEFAULT_NODE_ID earlier) ->
  upstream (S j) (result_url id) = Normal answer ->
  found DEFAULT_NODE_ID answer record ->
  V30.run upstream req_body
  = try_catch (V30.process record) (V23.recover method)
      (AxiosGet (submission_url endpoint host) 8000 :: Delay 2500
       :: fruitless id j ++ [AxiosGet (result_url id) 5000]).
Proof.
  intros Hreq Hup Hack Hrid Hid Hj Hpolls Hanswer Hfound.
  rewrite (V30_run_accepted upstream _ _ _ _ _ _ _ _ Hreq Hup Hack Hrid).
  unfold try_catch, bind at 1.
  rewrite (V23_poll_found upstream request_id id answer record Hid Hfound j).
  - destruct Hfound as (_ & _ & _ & _ & ->). reflexivity.
  - exact Hj.
  - intros i Hi. apply Hpolls. cbn. lia.
  - exact Hanswer.
Qed.

Lemma V30_process_array (xs : list value) (seconds statusCode : float) (w : world) :
  ToNumber (logical_or (nth 1 xs VUndefined) (VNum 0)) = Normal seconds ->
  parseInt (logical_or (nth 3 xs VUndefined) (VStr "0")) = Normal statusCode ->
  V30.process (VArr xs) w
  = (Normal (mkResponse 200 (result_body_V30 xs seconds statusCode)), w).
Proof.
  intros Hsec Hcode. unfold V30.process.
  change (iterate "checkResult" (VArr xs) 4)
    with (Normal [nth 0 xs VUndefined; nth 1 xs VUndefined;
                  nth 2 xs VUndefined; nth 3 xs VUndefined]).
  rewrite bind_normal. cbn [nth].
  rewrite Hsec, bind_normal, Hcode, bind_normal. reflexivity.
Qed.

(** X6. In the single-file monitor, a run whose poll number [j + 1] is
    the first with a result, an array whose latency and status code convert
    without throwing, stops polling there and answers 200 with
    [{latency, statusCode, isUp, message}]: [latency] is
    [Math.round((latencySeconds || 0) * 1000)], [statusCode] is
    [parseInt(statusCodeRaw || '0')], [isUp] is [isUpRaw === 1], and the body
    has no [errorRate]. *)
Theorem single_file_result :
  forall (upstream : service) (req_body url method : value)
         (name endpoint host : string) (data request_id : value) (id : string)
         (answer : value) (j : nat) (xs : list value) (seconds statusCode : float),
    mapped_request V30.METHOD_ENDPOINT_MAP req_body url method name endpoint host ->
    upstream 0%nat (submission_url endpoint host) = Normal data ->
    acknowledged data = true ->
    Get data "request_id" = Normal request_id ->
    ToString request_id = Normal id ->
    (j < 6)%nat ->
    (forall k, (1 <= k <= j)%nat ->
               exists earlier, upstream k (result_url id) = Normal earlier
                               /\ pending DEFAULT_NODE_ID earlier) ->
    upstream (S j) (result_url id) = Normal answer ->
    found DEFAULT_NODE_ID answer (VArr xs) ->
    ToNumber (logical_or (nth 1 xs VUndefined) (VNum 0)) = Normal seconds ->
    parseInt (logical_or (nth 3 xs VUndefined) (VStr "0")) = Normal statusCode ->
    V30.run upstream req_body
    = (Normal (mkResponse 200
                 (object [ ("latency", VNum (Math_round (seconds * 1000)));
                           ("statusCode", VNum statusCode);
                           ("isUp", VBool (strict_equals (nth 0 xs VUndefined) (VNum 1)));
                           ("message", nth 2 xs VUndefined) ])),
       AxiosGet (submission_url endpoint host) 8000 :: Delay 2500
       :: fruitless id j ++ [AxiosGet (result_url id) 5000])
    /\ (forall resp w, V30.run upstream req_body = (Normal resp, w) ->
                       Get (body resp) "errorRate" = Normal VUndefined).
Proof.
  intros upstream req_body url method name endpoint host data request_id id answer j
         xs seconds statusCode Hreq Hup Hack Hrid Hid Hj Hpolls Hanswer Hfound Hsec Hcode.
  assert (Hrun : V30.run upstream req_body
                 = (Normal (mkResponse 200 (result_body_V30 xs seconds statusCode)),
                    AxiosGet (submission_url endpoint host) 8000 :: Delay 2500
                    :: fruitless id j ++ [AxiosGet (result_url id) 5000])).
  { rewrite (V30_run_found upstream _ _ _ _ _ _ _ _ _ _ _ j
               Hreq Hup Hack Hrid Hid Hj Hpolls Hanswer Hfound).
    unfold try_catch. now rewrite (V30_process_array xs seconds statusCode _ Hsec Hcode). }
  split; [exact Hrun|].
  intros resp w H. rewrite Hrun in H. injection H as <- _. reflexivity.
Qed.

Lemma single_file_result_witness :
  V30.run (ready (VArr [VNum 1; VNum 0x1.8p-3; VStr "OK"; VStr "200"]))
    (request "example.com" "http")
  = (Normal (mkResponse 200
               (object [ ("latency", VNum (Math_round (0x1.8p-3 * 1000)));
                         ("statusCode", VNum 200);
                         ("isUp",
                          VBool (strict_equals
                                   (nth 0 [VNum 1; VNum 0x1.8p-3; VStr "OK"; VStr "200"]
                                      VUndefined) (VNum 1)));
                         ("message",
                          nth 2 [VNum 1; VNum 0x1.8p-3; VStr "OK"; VStr "200"]
                            VUndefined) ])),
     AxiosGet (submission_url "check-http" "example.com") 8000 :: Delay 2500
     :: fruitless "abc" 0 ++ [AxiosGet (result_url "abc") 5000])
  /\ (forall resp w,
        V30.run (ready (VArr [VNum 1; VNum 0x1.8p-3; VStr "OK"; VStr "200"]))
          (request "example.com" "http") = (Normal resp, w) ->
        Get (body resp) "errorRate" = Normal VUndefined).
Proof.
  apply (single_file_result
           (ready (VArr [VNum 1; VNum 0x1.8p-3; VStr "OK"; VStr "200"]))
           (request "example.com" "http") (VStr "example.com") (VStr "http")
           "http" "check-http" "example.com"
           (VObj [ ("ok", VNum 1); ("request_id", VStr "abc") ]) (VStr "abc") "abc"
           (VObj [ (DEFAULT_NODE_ID,
                    VArr [ VArr [VNum 1; VNum 0x1.8p-3; VStr "OK"; VStr "200"] ]) ])
           0%nat).
  - constructor; reflexivity.
  - reflexivity.
  - reflexivity.
  - reflexivity.
  - reflexivity.
  - lia.
  - intros k Hk. lia.
  - reflexivity.
  - exists (VArr [ VArr [VNum 1; VNum 0x1.8p-3; VStr "OK"; VStr "200"] ]).
    repeat split; reflexivity.
  - reflexivity.
  - vm_compute. reflexivity.
Defined.

(** X7. In the single-file monitor, for a mapped method whose submission
    is acknowledged: when each of the six polls is answered without a result
    for the node, the run makes exactly those six calls after the submission
    and the initial delay, each followed by its delay, and answers 200 with
    [{latency: 6000, statusCode: 599, isUp: false, errorRate: 1, errorDetail}],
    which is not marked as a backend error. *)
Theorem single_file_exhaustion :
  forall (upstream : service) (req_body url method : value)
         (name endpoint host : string) (data request_id : value) (id : string),
    mapped_request V30.METHOD_ENDPOINT_MAP req_body url method name endpoint host ->
    upstream 0%nat (submission_url endpoint host) = Normal data ->
    acknowledged data = true ->
    Get data "request_id" = Normal request_id ->
    ToString request_id = Normal id ->
    (forall k, (1 <= k <= 6)%nat ->
               exists answer, upstream k (result_url id) = Normal answer
                              /\ pending DEFAULT_NODE_ID answer) ->
    V30.run upstream req_body
    = (Normal (mkResponse 200
                 (object [ ("latency", VNum 6000);
                           ("statusCode", VNum 599);
                           ("isUp", VBool false);
                           ("errorRate", VNum 1);
                           ("errorDetail",
                            VStr ("Check-Host node did not return result for " ++ name
                                  ++ " within timeout.")) ])),
       AxiosGet (submission_url endpoint host) 8000 :: Delay 2500 :: fruitless id 6)
    /\ marked_backend_error (poll_timeout name) = false.
Proof.
  intros upstream req_body url method name endpoint host data request_id id
         Hreq Hup Hack Hrid Hid Hpolls.
  split; [|reflexivity].
  rewrite (V30_run_accepted upstream _ _ _ _ _ _ _ _ Hreq Hup Hack Hrid).
  destruct Hreq as [_ _ _ _ Hname _ _].
  unfold try_catch, bind at 1.
  rewrite (V23_poll_exhausted upstream request_id id Hid).
  - cbn [ToBoolean negb]. rewrite Hname, bind_normal. reflexivity.
  - intros j Hj. apply Hpolls. cbn. lia.
Qed.

Lemma single_file_exhaustion_witness :
  V30.run never_ready (request "example.com" "ping")
  = (Normal (mkResponse 200
               (object [ ("latency", VNum 6000);
                         ("statusCode", VNum 599);
                         ("isUp", VBool false);
                         ("errorRate", VNum 1);
                         ("errorDetail",
                          VStr ("Check-Host node did not return result for " ++ "ping"
                                ++ " within timeout.")) ])),
     AxiosGet (submission_url "check-ping" "example.com") 8000 :: Delay 2500
     :: fruitless "abc" 6)
  /\ marked_backend_error (poll_timeout "ping") = false.
Proof.
  apply (single_file_exhaustion never_ready (request "example.com" "ping")
           (VStr "example.com") (VStr "ping") "ping" "check-ping" "example.com"
           (VObj [ ("ok", VNum 1); ("request_id", VStr "abc") ]) (VStr "abc") "abc").
  - constructor; reflexivity.
  - reflexivity.
  - reflexivity.
  - reflexivity.
  - reflexivity.
  - intros k Hk. exists (VObj [ (DEFAULT_NODE_ID, VNull) ]). split.
    + destruct k as [|k]; [lia | reflexivity].
    + exists VNull. split; [reflexivity | now left].
Defined.

(** Every entry of the single file's map is an entry of [server.js]. *)
Lemma V30_entry_in_V23 (name endpoint : string) :
  assoc V30.METHOD_ENDPOINT_MAP name = Some endpoint ->
  assoc V23.METHOD_ENDPOINT_MAP name = Some endpoint.
Proof.
  cbn [assoc V30.METHOD_ENDPOINT_MAP V23.METHOD_ENDPOINT_MAP].
  repeat match goal with
         | |- context [String.eqb ?a name] => destruct (String.eqb a name) eqn:?
         end; try congruence; try discriminate.
  all: repeat match goal with
              | H : String.eqb _ _ = true |- _ => apply String.eqb_eq in H
              end; try congruence.
Qed.

Lemma mapped_in_V23 req_body url method name endpoint host :
  mapped_request V30.METHOD_ENDPOINT_MAP req_body url method name endpoint host ->
  mapped_request V23.METHOD_ENDPOINT_MAP req_body url method name endpoint host.
Proof.
  intros [Hu Hm Tu Tm Hname Hown Hhost].
  constructor; auto using V30_entry_in_V23.
Qed.

Lemma not_iterable_throws (record : value) :
  not_iterable record ->
  iterate "checkResult" record 4 = Throw (TypeError "checkResult is not iterable").
Proof. destruct record; simpl; intros H; try reflexivity; contradiction. Qed.

(** X8. In either file, when the first result a poll brings is not
    iterable (an object, a number or [true], where the code destructures an
    array), the [catch] answers: 200 with [{isBackendError: true,
    errorDetail: 'Backend failed to connect to Check-Host: checkResult is not
    iterable', statusCode: 0}], after the polls made so far and one console
    line; no further poll is made. *)
Theorem unexpected_record_is_a_backend_error :
  forall (upstream : service) (req_body url method : value)
         (name endpoint host : string) (data request_id : value) (id : string)
         (answer record : value) (j : nat),
    mapped_request V30.METHOD_ENDPOINT_MAP req_body url method name endpoint host ->
    upstream 0%nat (submission_url endpoint host) = Normal data ->
    acknowledged data = true ->
    Get data "request_id" = Normal request_id ->
    ToString request_id = Normal id ->
    (j < 6)%nat ->
    (forall k, (1 <= k <= j)%nat ->
               exists earlier, upstream k (result_url id) = Normal earlier
                               /\ pending DEFAULT_NODE_ID earlier) ->
    upstream (S j) (result_url id) = Normal answer ->
    found DEFAULT_NODE_ID answer record ->
    not_iterable record ->
    let detail :=
      "Backend failed to connect to Check-Host: checkResult is not iterable"%string in
    let answered :=
      (Normal (mkResponse 200 (backend_error detail)),
       AxiosGet (submission_url endpoint host) 8000 :: Delay 2500
       :: fruitless id j
       ++ [AxiosGet (result_url id) 5000; ConsoleError "[BACKEND ERROR]" detail]) in
    V23.run upstream req_body = answered /\ V30.run upstream req_body = answered.
Proof.
  intros upstream req_body url method name endpoint host data request_id id answer
         record j Hreq Hup Hack Hrid Hid Hj Hpolls Hanswer Hfound Hrecord detail answered.
  pose proof (not_iterable_throws record Hrecord) as Hthrow.
  assert (Hname : ToString method = Normal name) by now destruct Hreq.
  split.
  - rewrite (V23_run_found upstream _ _ _ _ _ _ _ _ _ _ _ j
               (mapped_in_V23 _ _ _ _ _ _ Hreq) Hup Hack Hrid Hid Hj Hpolls Hanswer Hfound).
    unfold try_catch, V23.process. rewrite Hthrow, bind_throw.
    destruct (V23_recover method name (TypeError "checkResult is not iterable")
                (AxiosGet (submission_url endpoint host) 8000 :: Delay 2500
                 :: fruitless id j ++ [AxiosGet (result_url id) 5000]) Hname)
      as (d & -> & ->).
    subst answered detail. cbn [timeout_code TypeError code message].
    f_equal. cbn [app]. f_equal. f_equal. now rewrite <- app_assoc.
  - rewrite (V30_run_found upstream _ _ _ _ _ _ _ _ _ _ _ j
               Hreq Hup Hack Hrid Hid Hj Hpolls Hanswer Hfound).
    unfold try_catch, V30.process. rewrite Hthrow, bind_throw.
    destruct (V23_recover method name (TypeError "checkResult is not iterable")
                (AxiosGet (submission_url endpoint host) 8000 :: Delay 2500
                 :: fruitless id j ++ [AxiosGet (result_url id) 5000]) Hname)
      as (d & -> & ->).
    subst answered detail. cbn [timeout_code TypeError code message].
    f_equal. cbn [app]. f_equal. f_equal. now rewrite <- app_assoc.
Qed.

Lemma unexpected_record_is_a_backend_error_witness :
  let detail :=
    "Backend failed to connect to Check-Host: checkResult is not iterable"%string in
  let answered :=
    (Normal (mkResponse 200 (backend_error detail)),
     AxiosGet (submission_url "check-http" "example.com") 8000 :: Delay 2500
     :: fruitless "abc" 0
     ++ [AxiosGet (result_url "abc") 5000; ConsoleError "[BACKEND ERROR]" detail]) in
  V23.run (ready (VObj [ ("error", VStr "Connection timed out") ]))
    (request "example.com" "http") = answered
  /\ V30.run (ready (VObj [ ("error", VStr "Connection timed out") ]))
       (request "example.com" "http") = answered.
Proof.
  apply (unexpected_record_is_a_backend_error
           (ready (VObj [ ("error", VStr "Connection timed out") ]))
           (request "example.com" "http") (VStr "example.com") (VStr "http")
           "http" "check-http" "example.com"
           (VObj [ ("ok", VNum 1); ("request_id", VStr "abc") ]) (VStr "abc") "abc"
           (VObj [ (DEFAULT_NODE_ID,
                    VArr [ VObj [ ("error", VStr "Connection timed out") ] ]) ])
           (VObj [ ("error", VStr "Connection timed out") ]) 0%nat).
  - constructor; reflexivity.
  - reflexivity.
  - reflexivity.
  - reflexivity.
  - reflexivity.
  - lia.
  - intros k Hk. lia.
  - reflexivity.
  - exists (VArr [ VObj [ ("error", VStr "Connection timed out") ] ]).
    repeat split; reflexivity.
  - exact I.
Defined.

Lemma V30_attempt_200 upstream url method apiEndpoint node_id :
  ensures (fun resp => status resp = 200%Z)
    (V30.attempt upstream url method apiEndpoint node_id).
Proof. unfold V30.attempt, V30.process. ensures; reflexivity. Qed.

(** The [try] statement answers, with status 200. *)
Lemma V30_try_200 upstream url method apiEndpoint name w :
  ToString method = Normal name ->
  exists resp w',
    try_catch (V30.attempt upstream url method apiEndpoint DEFAULT_NODE_ID)
      (V30.recover method) w = (Normal resp, w')
    /\ status resp = 200%Z
    /\ (w' = [] -> w = []).
Proof.
  intros Hname. unfold try_catch.
  destruct (Orderly.V30_attempt upstream url method apiEndpoint DEFAULT_NODE_ID w)
    as (evs & Hw & _).
  destruct (V30.attempt upstream url method apiEndpoint DEFAULT_NODE_ID w)
    as [[resp | e] w1] eqn:E; cbn [snd] in Hw.
  - exists resp, w1. split; [reflexivity|]. split.
    + exact (V30_attempt_200 upstream url method apiEndpoint DEFAULT_NODE_ID w resp w1 E).
    + intros ->. symmetry in Hw. now apply app_eq_nil in Hw.
  - change (V30.recover method e w1) with (V23.recover method e w1).
    destruct (V23_recover method name e w1 Hname) as (detail & -> & _).
    eexists _, _. split; [reflexivity|]. split; [reflexivity|].
    intros H. now apply app_eq_nil in H.
Qed.

(** X9. The single-file monitor, on a body whose method reads as a
    string, always answers, with 400 or 200; it answers 400 exactly when
    [url] or [method] is falsy or the method names no property of its
    endpoint map, and then it has made no outbound call.  Its map has no
    [udp]: that method, which [server.js] submits to [check-udp], is refused
    here as unsupported. *)
Theorem single_file_refusals :
  forall (upstream : service) (req_body url method : value) (name : string),
    Get req_body "url" = Normal url ->
    Get req_body "method" = Normal method ->
    ToString method = Normal name ->
    exists resp w,
      V30.run upstream req_body = (Normal resp, w)
      /\ (status resp = 400%Z \/ status resp = 200%Z)
      /\ (status resp = 400%Z
          <-> ToBoolean url = false \/ ToBoolean method = false
              \/ lookup V30.METHOD_ENDPOINT_MAP name = NoEndpoint)
      /\ (status resp = 400%Z -> w = [])
      /\ (ToBoolean url = true -> ToBoolean method = true -> name = "udp"%string ->
          resp = mkResponse 400 (unsupported "udp")
          /\ lookup V23.METHOD_ENDPOINT_MAP name = Endpoint "check-udp").
Proof.
  intros upstream req_body url method name Hu Hm Hname.
  unfold V30.run, V30.api_check.
  rewrite Hu, bind_normal, Hm, bind_normal.
  destruct (ToBoolean url) eqn:Tu; cbn [negb orb].
  2:{ eexists _, _. split; [reflexivity|]. cbn [status].
      repeat split; auto; discriminate. }
  destruct (ToBoolean method) eqn:Tm; cbn [negb].
  2:{ eexists _, _. split; [reflexivity|]. cbn [status].
      repeat split; auto; discriminate. }
  rewrite Hname, bind_normal.
  destruct (endpoint_truthy (lookup V30.METHOD_ENDPOINT_MAP name)) eqn:E; cbn [negb].
  - assert (Hep : lookup V30.METHOD_ENDPOINT_MAP name <> NoEndpoint).
    { intros H. apply V30_endpoint_truthy in H. congruence. }
    destruct (V30_try_200 upstream url method (lookup V30.METHOD_ENDPOINT_MAP name)
                name [] Hname) as (resp & w' & -> & Hstatus & _).
    exists resp, w'. split; [reflexivity|]. rewrite Hstatus.
    split; [now right|]. split; [|split].
    + split; [discriminate|]. intros [H | [H | H]]; [discriminate.. | contradiction].
    + discriminate.
    + intros _ _ ->. now contradiction Hep.
  - apply V30_endpoint_truthy in E.
    rewrite bind_normal.
    eexists _, _. split; [reflexivity|]. cbn [status].
    split; [now left|]. split; [|split].
    + split; auto.
    + reflexivity.
    + intros _ _ ->. split; reflexivity.
Qed.

Lemma single_file_refusals_witness :
  exists resp w,
    V30.run timing_out (request "example.com" "udp") = (Normal resp, w)
    /\ (status resp = 400%Z \/ status resp = 200%Z)
    /\ (status resp = 400%Z
        <-> ToBoolean (VStr "example.com") = false \/ ToBoolean (VStr "udp") = false
            \/ lookup V30.METHOD_ENDPOINT_MAP "udp" = NoEndpoint)
    /\ (status resp = 400%Z -> w = [])
    /\ (ToBoolean (VStr "example.com") = true -> ToBoolean (VStr "udp") = true ->
        "udp"%string = "udp"%string ->
        resp = mkResponse 400 (unsupported "udp")
        /\ lookup V23.METHOD_ENDPOINT_MAP "udp" = Endpoint "check-udp").
Proof.
  exact (single_file_refusals timing_out (request "example.com" "udp")
           (VStr "example.com") (VStr "udp") "udp" eq_refl eq_refl eq_refl).
Defined.

(** X10. When an outbound call of a run of the single-file monitor (the
    submission, call 0, or a poll) rejects with an error, the monitor
    answers 200 with [{isBackendError: true, errorDetail, statusCode: 0}];
    the detail is the timeout sentence when the error's code is ECONNABORTED
    or ETIMEDOUT and quotes the error's message otherwise; and the rejected
    call is the last one of the run. *)
Theorem single_file_transport_failure :
  forall (upstream : service) (req_body : value) r w k url tm e,
    V30.run upstream req_body = (r, w) ->
    nth_error (gets w) k = Some (AxiosGet url tm) ->
    upstream k url = Throw e ->
    exists method name detail,
      Get req_body "method" = Normal method
      /\ ToString method = Normal name
      /\ r = Normal (mkResponse 200 (backend_error detail))
      /\ detail = (if timeout_code e
                   then "Backend Timeout when calling Check-Host API for " ++ name ++ "."
                   else "Backend failed to connect to Check-Host: " ++ message e)%string
      /\ calls w = S k.
Proof.
  intros upstream req_body r w k url tm e Hrun Hnth Hup.
  unfold V30.run, V30.api_check in Hrun.
  assert (Hnil : forall j, nth_error (gets []) j <> Some (AxiosGet url tm))
    by (intros [|j]; discriminate).
  destruct (Get req_body "url") as [u|e0] eqn:Hu;
    [rewrite bind_normal in Hrun
    | rewrite bind_throw in Hrun; injection Hrun as <- <-; now apply Hnil in Hnth].
  destruct (Get req_body "method") as [method|e0] eqn:Hm;
    [rewrite bind_normal in Hrun
    | rewrite bind_throw in Hrun; injection Hrun as <- <-; now apply Hnil in Hnth].
  destruct (negb (ToBoolean u) || negb (ToBoolean method));
    [injection Hrun as <- <-; now apply Hnil in Hnth|].
  destruct (ToString method) as [name|e0] eqn:Hname;
    [rewrite bind_normal in Hrun
    | rewrite bind_throw in Hrun; injection Hrun as <- <-; now apply Hnil in Hnth].
  destruct (negb (endpoint_truthy (lookup V30.METHOD_ENDPOINT_MAP name))).
  { rewrite bind_normal in Hrun. injection Hrun as <- <-. now apply Hnil in Hnth. }
  exists method, name.
  unfold try_catch in Hrun.
  destruct (Orderly.V30_attempt upstream u method
              (lookup V30.METHOD_ENDPOINT_MAP name) DEFAULT_NODE_ID [])
    as (evs & Hw & Hres).
  destruct (V30.attempt upstream u method (lookup V30.METHOD_ENDPOINT_MAP name)
              DEFAULT_NODE_ID []) as [[resp | e'] w1]; simpl in Hw, Hres; subst w1.
  - injection Hrun as <- <-.
    destruct (resolved_nth upstream evs 0 None k url tm e Hres Hnth Hup) as [H _].
    discriminate H.
  - change (V30.recover method e' evs) with (V23.recover method e' evs) in Hrun.
    destruct (V23_recover method name e' evs Hname) as (detail & Hrec & Hdetail).
    rewrite Hrec in Hrun. injection Hrun as <- <-.
    rewrite gets_app in Hnth. simpl in Hnth. rewrite app_nil_r in Hnth.
    destruct (resolved_nth upstream evs 0 (Some e') k url tm e Hres Hnth Hup) as [H Hc].
    injection H as ->.
    exists detail. repeat split; try assumption.
    rewrite calls_app, Hc. unfold calls. simpl. lia.
Qed.

Lemma single_file_transport_failure_witness :
  exists method name detail,
    Get (request "example.com" "dns") "method" = Normal method
    /\ ToString method = Normal name
    /\ Normal (mkResponse 200
                 (backend_error "Backend Timeout when calling Check-Host API for dns."))
       = Normal (mkResponse 200 (backend_error detail))
    /\ detail = (if timeout_code
                      (mkError (Some "ECONNABORTED") "timeout of 8000ms exceeded")
                 then "Backend Timeout when calling Check-Host API for " ++ name ++ "."
                 else "Backend failed to connect to Check-Host: "
                      ++ message (mkError (Some "ECONNABORTED")
                                    "timeout of 8000ms exceeded"))%string
    /\ calls
         [ AxiosGet
             "https://check-host.net/check-dns?host=example.com&node=sg1.node.check-host.net"
             8000;
           ConsoleError "[BACKEND ERROR]"
             "Backend Timeout when calling Check-Host API for dns." ]
       = 1%nat.
Proof.
  exact (single_file_transport_failure timing_out (request "example.com" "dns")
           _ _ 0%nat _ 8000%Z _ eq_refl eq_refl eq_refl).
Defined.

End Monitor.


(** ** The page *)

Module PageLogic.
Import JS Page PageNotions.
Local Open Scope list_scope.

Section Rules.
Context {A B : Type}.
Variables (P : page -> Prop) (E : page -> Prop).

Lemma triple_ret (Q : A -> page -> Prop) (a : A) :
  (forall p, P p -> Q a p) -> triple P (ret a) Q E.
Proof. intros H p Hp. exact (H p Hp). Qed.

Lemma triple_throw (Q : A -> page -> Prop) (e : error) :
  (forall p, P p -> E p) -> triple P (throw e) Q E.
Proof. intros H p Hp. exact (H p Hp). Qed.

Lemma triple_lift (Q : A -> page -> Prop) (r : completion A) :
  (forall p, P p -> match r with Normal a => Q a p | Throw _ => E p end) ->
  triple P (lift r) Q E.
Proof. intros H p Hp. specialize (H p Hp). unfold lift. now destruct r. Qed.

Lemma triple_read (Q : A -> page -> Prop) (field : page -> A) :
  (forall p, P p -> Q (field p) p) -> triple P (read field) Q E.
Proof. intros H p Hp. exact (H p Hp). Qed.

Lemma triple_write (Q : unit -> page -> Prop) (change : page -> page) :
  (forall p, P p -> Q tt (change p)) -> triple P (write change) Q E.
Proof. intros H p Hp. exact (H p Hp). Qed.

Lemma triple_bind (R : A -> page -> Prop) (Q : B -> page -> Prop)
      (m : M A) (f : A -> M B) :
  triple P m R E -> (forall a, triple (R a) (f a) Q E) -> triple P (bind m f) Q E.
Proof.
  intros Hm Hf p Hp. specialize (Hm p Hp). unfold bind.
  destruct (m p) as [[a | e] p']; [exact (Hf a p' Hm) | exact Hm].
Qed.

Lemma triple_try (R : page -> Prop) (Q : A -> page -> Prop)
      (m : M A) (h : error -> M A) :
  triple P m Q R -> (forall e, triple R (h e) Q E) -> triple P (try_catch m h) Q E.
Proof.
  intros Hm Hh p Hp. specialize (Hm p Hp). unfold try_catch.
  destruct (m p) as [[a | e] p']; [exact Hm | exact (Hh e p' Hm)].
Qed.

End Rules.

Lemma triple_weaken {A : Type} (P P' : page -> Prop) (Q Q' : A -> page -> Prop)
      (E E' : page -> Prop) (m : M A) :
  triple P m Q E ->
  (forall p, P' p -> P p) -> (forall a p, Q a p -> Q' a p) -> (forall p, E p -> E' p) ->
  triple P' m Q' E'.
Proof.
  intros H HP HQ HE p Hp. specialize (H p (HP p Hp)).
  destruct (m p) as [[a | e] p']; auto.
Qed.

(** What a computation keeps, it keeps together with what was known. *)
Lemma triple_frame {A B : Type} (view : page -> B) (K : B -> Prop)
      (P : page -> Prop) (Q : A -> page -> Prop) (E : page -> Prop) (m : M A) :
  keeps view m -> triple P m Q E ->
  triple (fun p => P p /\ K (view p)) m
    (fun a p => Q a p /\ K (view p)) (fun p => E p /\ K (view p)).
Proof.
  intros Hk H p [Hp HK]. specialize (H p Hp). specialize (Hk p).
  destruct (m p) as [[a | e] p']; cbn [snd] in Hk; rewrite Hk; auto.
Qed.

Section Invariants.
Context {A B : Type}.
Variable I : page -> Prop.

Lemma preserves_ret (a : A) : preserves I (ret a).
Proof. now apply triple_ret. Qed.

Lemma preserves_throw (e : error) : preserves I (throw (A := A) e).
Proof. now apply triple_throw. Qed.

Lemma preserves_lift (r : completion A) : preserves I (lift r).
Proof. apply triple_lift. intros p Hp. now destruct r. Qed.

Lemma preserves_read (field : page -> A) : preserves I (read field).
Proof. now apply triple_read. Qed.

Lemma preserves_bind (m : M A) (f : A -> M B) :
  preserves I m -> (forall a, preserves I (f a)) -> preserves I (bind m f).
Proof. intros Hm Hf. now apply triple_bind with (R := fun _ => I). Qed.

Lemma preserves_try (m : M A) (h : error -> M A) :
  preserves I m -> (forall e, preserves I (h e)) -> preserves I (try_catch m h).
Proof. intros Hm Hh. now apply triple_try with (R := I). Qed.

Lemma preserves_after (m : M A) (p : page) : preserves I m -> I p -> I (snd (m p)).
Proof. intros H Hp. specialize (H p Hp). now destruct (m p) as [[a | e] p']. Qed.

End Invariants.

(** An invariant of a view is preserved by what keeps the view. *)
Lemma keeps_preserves {A B : Type} (view : page -> B) (J : B -> Prop) (m : M A) :
  keeps view m -> preserves (fun p => J (view p)) m.
Proof.
  intros Hk p Hp. specialize (Hk p).
  destruct (m p) as [[a | e] p']; cbn [snd] in Hk; now rewrite Hk.
Qed.

Section Keeping.
Context {A B C : Type}.
Variable view : page -> C.

Lemma keeps_ret (a : A) : keeps view (ret a).
Proof. now intros p. Qed.

Lemma keeps_throw (e : error) : keeps view (throw (A := A) e).
Proof. now intros p. Qed.

Lemma keeps_lift (r : completion A) : keeps view (lift r).
Proof. now intros p. Qed.

Lemma keeps_read (field : page -> A) : keeps view (read field).
Proof. now intros p. Qed.

Lemma keeps_bind (m : M A) (f : A -> M B) :
  keeps view m -> (forall a, keeps view (f a)) -> keeps view (bind m f).
Proof.
  intros Hm Hf p. unfold bind. specialize (Hm p).
  destruct (m p) as [[a | e] p']; cbn [snd] in *; [now rewrite Hf | exact Hm].
Qed.

Lemma keeps_try (m : M A) (h : error -> M A) :
  keeps view m -> (forall e, keeps view (h e)) -> keeps view (try_catch m h).
Proof.
  intros Hm Hh p. unfold try_catch. specialize (Hm p).
  destruct (m p) as [[a | e] p']; cbn [snd] in *; [exact Hm | now rewrite Hh].
Qed.

End Keeping.

(** The rules, applied along the structure of a computation; what is left
    are the calls the rules do not know. *)
Ltac structure bind_rule try_rule ret_rule throw_rule lift_rule read_rule :=
  repeat first
    [ apply bind_rule; [|intro]
    | apply try_rule; [|intro]
    | apply ret_rule
    | apply throw_rule
    | apply lift_rule
    | apply read_rule
    | match goal with
      | |- _ _ (if ?c then _ else _) => destruct c
      | |- _ _ (match ?c with _ => _ end) => destruct c
      | |- _ _ (let '_ := ?c in _) => destruct c
      end ].

Ltac keeping :=
  structure @keeps_bind @keeps_try @keeps_ret @keeps_throw @keeps_lift @keeps_read;
  try solve [ intros []; reflexivity | assumption ].

Ltac preserving :=
  structure @preserves_bind @preserves_try @preserves_ret @preserves_throw
            @preserves_lift @preserves_read.

(** The same, with [leaf] tried first at every step. *)
Ltac preserving_with leaf :=
  repeat first
    [ leaf
    | apply preserves_bind; [|intro]
    | apply preserves_try; [|intro]
    | apply preserves_ret
    | apply preserves_throw
    | apply preserves_lift
    | apply preserves_read
    | match goal with
      | |- preserves _ (if ?c then _ else _) => destruct c
      | |- preserves _ (match ?c with _ => _ end) => destruct c
      end ].

Ltac keeping_with leaf :=
  repeat first
    [ leaf
    | apply keeps_bind; [|intro]
    | apply keeps_try; [|intro]
    | apply keeps_ret
    | apply keeps_throw
    | apply keeps_lift
    | apply keeps_read
    | match goal with
      | |- keeps _ (if ?c then _ else _) => destruct c
      | |- keeps _ (match ?c with _ => _ end) => destruct c
      end
    | solve [ intros []; reflexivity ] ].

(** The cases of an effect being among those just logged. *)
Ltac logged :=
  repeat match goal with
         | H : In _ (_ ++ _) |- _ => apply in_app_or in H; destruct H as [H | H]
         | H : In _ [_] |- _ => destruct H as [H | []]; try discriminate H
         end.

Lemma NoDup_kept (g : timer -> bool) (ts : list timer) :
  NoDup (map timer_id ts) -> NoDup (map timer_id (filter g ts)).
Proof.
  induction ts as [|t ts IH]; intros H; [exact H|].
  cbn in *. inversion H as [|x l Hx Hl]; subst.
  destruct (g t); [|now apply IH].
  cbn. constructor; [|now apply IH].
  intros Hin. apply Hx. apply in_map_iff in Hin. destruct Hin as (t' & Ht' & Hin).
  apply filter_In in Hin. apply in_map_iff. exists t'. tauto.
Qed.

Lemma NoDup_added (ts : list timer) (n : nat) (t : timer) :
  NoDup (map timer_id ts) ->
  (forall t', In t' ts -> (timer_id t' <= n)%nat) ->
  (n < timer_id t)%nat ->
  NoDup (map timer_id (ts ++ [t])).
Proof.
  intros H Hle Hlt. rewrite map_app. cbn.
  apply NoDup_app; [exact H | constructor; [intros [] | constructor] |].
  intros x Hx [<- | []]. apply in_map_iff in Hx. destruct Hx as (t' & Ht' & Hin).
  specialize (Hle t' Hin). lia.
Qed.

(** Running a part of the script on a page whose fields are named. *)
Ltac run :=
  cbv beta iota zeta delta
    [handle loaded due settle submit resetApp resumeMonitoring startMonitoring
     fetchRealData fetchRealData_try fetchRealData_status fetchRealData_chart
     fetchRealData_update fetchRealData_settled pauseMonitoring logMessage updateChart
     initializeChart clear_chart showDashboard run_task target_method target_url
     toLocaleTimeString fetch setTimeout setInterval set_timer clearInterval
     perform read write ret bind lift throw try_catch
     set_chartInstance set_testTimer set_isMonitoringPaused set_monitoredTarget
     set_errorRateHistory set_timers negb andb orb timer_truthy
     String.eqb Ascii.eqb Bool.eqb
     chartInstance testTimer isMonitoringPaused monitoredTarget errorRateHistory
     timers issued awaited sent clock_reads effects
     avgLatency errorRate statusCode insightMessage isBackendIssue fst snd].

Ltac next_test :=
  match goal with
  | |- context [match ?c with _ => _ end] =>
      lazymatch c with
      | context [match _ with _ => _ end] => fail
      | _ => destruct c eqn:?
      end
  end.

Ltac execute := run; repeat (next_test; run).

Ltac fields :=
  cbn [chartInstance testTimer isMonitoringPaused monitoredTarget errorRateHistory
       timers issued awaited sent clock_reads effects timer_id polling callback
       repeats period interval] in *.

(** The cases of a timer being among those of the next page. *)
Ltac in_cases H :=
  repeat match type of H with
         | In _ (_ ++ _) => apply in_app_or in H; destruct H as [H | H]
         | In _ (filter _ _) =>
             let K := fresh "Hkept" in
             apply filter_In in H; destruct H as [H K]
         | In _ [_] => destruct H as [<- | []]
         end.

(** What the invariant [H] says of the timer [t]. *)
Ltac facts H t Ht :=
  pose proof (ids_issued _ H t Ht);
  destruct (polling t) eqn:?;
  [ destruct (polling_is_testTimer _ H t Ht) as (? & ? & ?); [assumption|] | ];
  try (let K := fresh in assert (K := paused_is_idle _ H eq_refl t Ht); fields; congruence);
  try (let K := fresh in assert (K := no_target_is_idle _ H eq_refl t Ht); fields; congruence);
  fields.

Ltac finish :=
  repeat match goal with
         | H : Some _ = Some _ |- _ => injection H as H
         | H : (if Nat.eqb ?a ?b then _ else _) = _ |- _ => destruct (Nat.eqb_spec a b)
         | H : Nat.eqb ?a ?b = _ |- _ => destruct (Nat.eqb_spec a b)
         end;
  subst; cbn in *; try discriminate; try congruence; try lia; auto;
  try (repeat split; solve [ reflexivity | assumption | lia ]).

Ltac member H :=
  intros; subst;
  match goal with
  | Hin : In _ _ |- _ => in_cases Hin
  end;
  try match goal with
      | Hin : In ?t _ |- _ => facts H t Hin
      end;
  finish.

(** The next page is disciplined, the page [H] speaks of being so. *)
Ltac discipline H :=
  try (let K := fresh in assert (K := testTimer_issued _ H _ eq_refl); fields);
  try (let K := fresh in assert (K := interval_is_constant _ H _ eq_refl); fields);
  constructor; fields;
  [ member H
  | repeat first
      [ exact (ids_differ _ H)
      | apply NoDup_kept
      | eapply NoDup_added;
        [ | intros;
            match goal with
            | Hin : In _ _ |- _ => in_cases Hin
            end;
            match goal with
            | Hin : In ?t _ |- _ => exact (proj2 (ids_issued _ H t Hin))
            end
          | cbn; lia ] ]
  | intros;
    try match goal with
        | Hid : _ = Some ?id |- _ => pose proof (testTimer_issued _ H id Hid)
        end;
    finish
  | member H
  | member H
  | member H
  | intros;
    try match goal with
        | Hin : _ = Some ?t |- _ => pose proof (interval_is_constant _ H t Hin)
        end;
    finish ].

(** The rules again, chosen by the shape of the computation alone; [leaf]
    is for the calls. *)
Ltac keep_step leaf :=
  lazymatch goal with
  | |- keeps _ (bind _ _) => apply keeps_bind; [|intro]
  | |- keeps _ (try_catch _ _) => apply keeps_try; [|intro]
  | |- keeps _ (ret _) => apply keeps_ret
  | |- keeps _ (throw _) => apply keeps_throw
  | |- keeps _ (lift _) => apply keeps_lift
  | |- keeps _ (read _) => apply keeps_read
  | |- keeps _ (if ?c then _ else _) => destruct c
  | |- keeps _ (match ?c with _ => _ end) => destruct c
  | |- _ => first [ leaf | solve [ intros []; reflexivity ] ]
  end.

Ltac keeping_by leaf := repeat (keep_step leaf).

Ltac preserve_step leaf :=
  lazymatch goal with
  | |- preserves _ (bind _ _) => apply preserves_bind; [|intro]
  | |- preserves _ (try_catch _ _) => apply preserves_try; [|intro]
  | |- preserves _ (ret _) => apply preserves_ret
  | |- preserves _ (throw _) => apply preserves_throw
  | |- preserves _ (lift _) => apply preserves_lift
  | |- preserves _ (read _) => apply preserves_read
  | |- preserves _ (if ?c then _ else _) => destruct c
  | |- preserves _ (match ?c with _ => _ end) => destruct c
  | |- _ => leaf
  end.

Ltac preserving_by leaf := repeat (preserve_step leaf).

End PageLogic.

Module PageFacts.
Import JS Page PageNotions PageLogic.
Local Open Scope list_scope.

Section Script.
Variable env : window.

(** *** What the parts of the script leave alone *)

Lemma logMessage_controls message type : keeps controls (logMessage env message type).
Proof. unfold logMessage. keeping. Qed.

Lemma showDashboard_controls u m : keeps controls (showDashboard env u m).
Proof. pose proof logMessage_controls. unfold showDashboard. keeping. Qed.

Lemma updateChart_controls x : keeps controls (updateChart env x).
Proof. unfold updateChart. keeping. Qed.

Lemma initializeChart_controls : keeps controls initializeChart.
Proof. unfold initializeChart. keeping. Qed.

Lemma clear_chart_controls : keeps controls clear_chart.
Proof. unfold clear_chart. keeping. Qed.

Lemma fetchRealData_controls : keeps controls (fetchRealData env).
Proof. pose proof logMessage_controls. unfold fetchRealData. keeping. Qed.

Lemma target_method_controls : keeps controls target_method.
Proof. unfold target_method. keeping. Qed.

Lemma target_url_controls : keeps controls target_url.
Proof. unfold target_url. keeping. Qed.

Lemma status_controls vars : keeps controls (fetchRealData_status env vars).
Proof.
  pose proof target_method_controls. pose proof target_url_controls.
  unfold fetchRealData_status. keeping.
Qed.

Lemma chart_controls vars uptimePercent :
  keeps controls (fetchRealData_chart env vars uptimePercent).
Proof.
  pose proof updateChart_controls. pose proof initializeChart_controls.
  unfold fetchRealData_chart. keeping.
Qed.

(** *** The timers *)

Lemma disciplined_controls (p p' : page) :
  controls p' = controls p -> disciplined p -> disciplined p'.
Proof.
  unfold controls. intros H [h1 h2 h3 h4 h5 h6 h7].
  injection H as e1 e2 e3 e4 e5.
  constructor; rewrite ?e1, ?e2, ?e3, ?e4, ?e5; assumption.
Qed.

Lemma keeps_disciplined {A : Type} (m : M A) :
  keeps controls m -> preserves disciplined m.
Proof.
  intros Hk p Hp. specialize (Hk p).
  destruct (m p) as [[a | e] p']; cbn [snd] in Hk;
    exact (disciplined_controls _ _ Hk Hp).
Qed.

Lemma preserves_intro {A : Type} (I : page -> Prop) (m : M A) :
  (forall p, I p -> I (snd (m p))) -> preserves I m.
Proof.
  intros H p Hp. specialize (H p Hp). now destruct (m p) as [[a | e] p'].
Qed.

Lemma pauseMonitoring_disciplined issue action :
  preserves disciplined (pauseMonitoring env issue action).
Proof.
  apply preserves_intro.
  intros [c tt0 paused target history ts n aw s reads log] H.
  execute; [exact H | ..]; discipline H.
Qed.

Lemma resetApp_disciplined : preserves disciplined (resetApp env).
Proof.
  apply preserves_intro.
  intros [c tt0 paused target history ts n aw s reads log] H.
  execute; discipline H.
Qed.

Lemma resumeMonitoring_disciplined : preserves disciplined (resumeMonitoring env).
Proof.
  apply preserves_intro.
  intros [c tt0 paused target history ts n aw s reads log] H.
  execute; discipline H.
Qed.

Lemma submit_disciplined u m : preserves disciplined (submit env u m).
Proof.
  apply preserves_intro.
  intros [c tt0 paused target history ts n aw s reads log] H.
  execute; discipline H.
Qed.

Lemma loaded_disciplined : preserves disciplined (loaded env).
Proof.
  apply preserves_intro.
  intros [c tt0 paused target history ts n aw s reads log] H.
  execute; discipline H.
Qed.

Lemma due_disciplined id : preserves disciplined (due env id).
Proof.
  apply preserves_intro.
  intros [c tt0 paused target history ts n aw s reads log] H.
  execute; discipline H.
Qed.

Lemma try_disciplined o : preserves disciplined (fetchRealData_try env o).
Proof.
  unfold fetchRealData_try.
  repeat first
    [ apply pauseMonitoring_disciplined
    | apply keeps_disciplined;
      first [ apply logMessage_controls | apply target_method_controls ]
    | apply preserves_bind; [|intro]
    | apply preserves_try; [|intro]
    | apply preserves_ret
    | apply preserves_throw
    | apply preserves_lift
    | match goal with
      | |- preserves _ (if ?c then _ else _) => destruct c
      | |- preserves _ (match ?c with _ => _ end) => destruct c
      end ].
Qed.

Lemma update_controls vars : keeps controls (fetchRealData_update env vars).
Proof.
  unfold fetchRealData_update.
  apply keeps_bind; [apply status_controls|].
  intros [[[statusText statusClass] statusCodeDisplay] insightMessage].
  repeat first
    [ apply chart_controls
    | apply keeps_bind; [|intro]
    | apply keeps_lift
    | solve [ intros []; reflexivity ] ].
Qed.

Lemma settled_disciplined o : preserves disciplined (fetchRealData_settled env o).
Proof.
  unfold fetchRealData_settled.
  apply preserves_bind; [apply try_disciplined|].
  intros vars. apply keeps_disciplined. apply update_controls.
Qed.

Lemma settle_disciplined k o : preserves disciplined (settle env k o).
Proof.
  unfold settle.
  apply preserves_bind; [apply preserves_read|]. intros waiting.
  destruct (existsb (Nat.eqb k) waiting); [|apply preserves_ret].
  apply preserves_bind; [|intros _; apply settled_disciplined].
  apply keeps_disciplined. intros []. reflexivity.
Qed.

Lemma handle_disciplined ev : preserves disciplined (handle env ev).
Proof.
  destruct ev; cbn [handle].
  - apply loaded_disciplined.
  - apply due_disciplined.
  - apply submit_disciplined.
  - apply resetApp_disciplined.
  - apply resumeMonitoring_disciplined.
  - apply settle_disciplined.
Qed.

Lemma initial_disciplined : disciplined initial.
Proof. constructor; cbn; try discriminate; try tauto; try constructor. Qed.

(** An invariant of every listener holds after every sequence of events. *)
Lemma after_invariant (I : page -> Prop) :
  (forall ev, preserves I (handle env ev)) ->
  forall evs p, I p -> I (after env evs p).
Proof.
  intros Hstep. induction evs as [|ev evs IH]; intros p Hp; [exact Hp|].
  cbn [after fold_left]. apply IH. now apply preserves_after.
Qed.

Lemma one_poller (ts : list timer) (id : nat) :
  NoDup (map timer_id ts) ->
  (forall t, In t ts -> polling t = true -> timer_id t = id) ->
  (List.length (filter polling ts) <= 1)%nat.
Proof.
  induction ts as [|t ts IH]; intros Hnd Hid; [cbn; lia|].
  cbn [map] in Hnd. inversion Hnd as [|x l Hx Hl]; subst.
  cbn [filter]. destruct (polling t) eqn:Hp.
  - assert (Hnone : filter polling ts = []).
    { destruct (filter polling ts) as [|t' rest] eqn:E; [reflexivity|].
      assert (Hin : In t' (filter polling ts)) by (rewrite E; now left).
      apply filter_In in Hin. destruct Hin as [Hin Hp'].
      exfalso. apply Hx. apply in_map_iff. exists t'. split; [|exact Hin].
      rewrite (Hid t' (or_intror Hin) Hp'). symmetry. now apply Hid; [left|]. }
    rewrite Hnone. cbn. lia.
  - apply IH; [exact Hl|]. intros t' Hin. apply Hid. now right.
Qed.

Lemma no_poller (ts : list timer) :
  (forall t, In t ts -> polling t = false) -> filter polling ts = [].
Proof.
  induction ts as [|t ts IH]; intros H; [reflexivity|].
  cbn. rewrite (H t (or_introl eq_refl)). apply IH. intros t' Hin. apply H. now right.
Qed.

(** *** The [try] statement *)

Lemma posts_app (l l' : list effect) : posts (l ++ l') = posts l ++ posts l'.
Proof.
  induction l as [|e l IH]; [reflexivity|].
  destruct e; cbn; rewrite ?IH; reflexivity.
Qed.

(** The [try] statement never throws, and this is what it does. *)
Lemma try_summary o p :
  exists vars p', fetchRealData_try env o p = (Normal vars, p') /\ try_result p vars p'.
Proof.
  destruct p as [c tt0 paused target history ts n aw s reads log].
  execute.
  all: eexists _, _; (split; [reflexivity|]).
  all: constructor; unfold charted, controls, traffic;
    cbn [avgLatency errorRate statusCode isBackendIssue chartInstance testTimer
         isMonitoringPaused monitoredTarget errorRateHistory timers issued awaited
         sent clock_reads effects].
  all: try reflexivity; try (intros; discriminate); try tauto.
  all: rewrite ?posts_app; cbn [posts]; rewrite ?app_nil_r; try reflexivity.
  all: try (intros; logged; assumption).
  all: try (intros; repeat split; try reflexivity; eauto).
Qed.

(** *** The chart *)

Lemma uptime_value (r : float) :
  r = 0%float \/ r = 1%float ->
  parseFloat_string (toFixed 2 ((1 - r) * 100)%float) = 100%float
  \/ parseFloat_string (toFixed 2 ((1 - r) * 100)%float) = 0%float.
Proof. intros [-> | ->]; [left | right]; vm_compute; reflexivity. Qed.

Lemma charted_well_charted (p p' : page) :
  charted p' = charted p -> charted_well p -> charted_well p'.
Proof.
  unfold charted. intros H [h1 h2 h3]. injection H as e1 e2.
  constructor; rewrite ?e1, ?e2; assumption.
Qed.

Lemma keeps_charted_well {A : Type} (m : M A) :
  keeps charted m -> preserves charted_well m.
Proof.
  intros Hk p Hp. specialize (Hk p).
  destruct (m p) as [[a | e] p']; cbn [snd] in Hk;
    exact (charted_well_charted _ _ Hk Hp).
Qed.

Lemma window_length {A : Type} (l : list A) (x : A) :
  (List.length l <= MAX_DATA_POINTS)%nat ->
  (List.length (if (MAX_DATA_POINTS <? List.length (l ++ [x]))%nat
                then tl (l ++ [x]) else l ++ [x]) <= MAX_DATA_POINTS)%nat.
Proof.
  intros H. destruct (Nat.ltb_spec MAX_DATA_POINTS (List.length (l ++ [x]))) as [Hlt | Hle];
    [|exact Hle].
  rewrite length_app in Hlt. cbn in Hlt.
  destruct l as [|a l]; cbn in *; [lia|]. rewrite length_app. cbn. lia.
Qed.

Lemma Forall_tl {A : Type} (P : A -> Prop) (l : list A) : Forall P l -> Forall P (tl l).
Proof. intros H. destruct l; [exact H | now inversion H]. Qed.

Lemma tl_length {A : Type} (l : list A) : List.length (tl l) = pred (List.length l).
Proof. now destruct l. Qed.

(** Pushing a point and its label, and dropping the oldest beyond the
    window. *)
Lemma pushed_plotted (ch : chart) (label color : string) (x : float) :
  plotted ch ->
  x = 0%float \/ x = 100%float ->
  plotted
    (mkChart
       (labels (if (MAX_DATA_POINTS <? List.length (labels ch ++ [label]))%nat
                then mkChart (tl (labels ch ++ [label])) (tl (dataset ch ++ [x]))
                       (borderColor ch)
                else mkChart (labels ch ++ [label]) (dataset ch ++ [x]) (borderColor ch)))
       (dataset (if (MAX_DATA_POINTS <? List.length (labels ch ++ [label]))%nat
                 then mkChart (tl (labels ch ++ [label])) (tl (dataset ch ++ [x]))
                        (borderColor ch)
                 else mkChart (labels ch ++ [label]) (dataset ch ++ [x]) (borderColor ch)))
       color).
Proof.
  intros [h1 h2 h3] Hx. unfold MAX_DATA_POINTS in *.
  assert (Hall : Forall (fun x => x = 0%float \/ x = 100%float) (dataset ch ++ [x]))
    by (apply Forall_app; split; [exact h3 | now constructor]).
  destruct (Nat.ltb_spec 60 (List.length (labels ch ++ [label]))) as [Hlt | Hle];
    constructor; cbn [labels dataset];
    rewrite ?tl_length, ?length_app in *; cbn [List.length] in *;
    unfold MAX_DATA_POINTS; try lia; auto using Forall_tl.
Qed.

Ltac run2 :=
  cbv beta iota zeta delta
    [updateChart initializeChart clear_chart fetchRealData_chart
     toLocaleTimeString perform read write ret bind lift throw try_catch
     set_chartInstance set_errorRateHistory negb andb orb
     chartInstance testTimer isMonitoringPaused monitoredTarget errorRateHistory
     timers issued awaited sent clock_reads effects fst snd].

Lemma updateChart_well x :
  x = 100%float \/ x = 0%float -> preserves charted_well (updateChart env x).
Proof.
  intros Hx. apply preserves_intro.
  intros [[ch|] tt0 paused target history ts n aw s reads log] H;
    [|refine (charted_well_charted _ _ _ H); reflexivity].
  pose proof (chart_plotted _ H ch eq_refl) as Hch.
  pose proof (history_windowed _ H) as h4. pose proof (history_rates _ H) as h5.
  fields. run2.
  constructor; fields; [|assumption..].
  intros c [= <-]. apply pushed_plotted; [exact Hch|].
  destruct Hx as [-> | ->]; vm_compute; auto.
Qed.

Lemma initializeChart_well : preserves charted_well initializeChart.
Proof.
  apply preserves_intro.
  intros [c tt0 paused target history ts n aw s reads log] H.
  pose proof (history_windowed _ H) as h4. pose proof (history_rates _ H) as h5.
  fields. destruct c; run2; (constructor; fields; [|assumption..]);
    intros c' [= <-]; constructor; cbn; auto; lia.
Qed.

Lemma clear_chart_well : preserves charted_well clear_chart.
Proof.
  apply preserves_intro.
  intros [c tt0 paused target history ts n aw s reads log] H.
  pose proof (history_windowed _ H) as h4. pose proof (history_rates _ H) as h5.
  fields. destruct c; run2; [|exact H].
  constructor; fields; [|assumption..].
  intros c' [= <-]; constructor; cbn; auto; lia.
Qed.

Lemma pushed_history (history : list float) (r : float) :
  (List.length history <= MAX_DATA_POINTS)%nat ->
  Forall (fun x => x = 0%float \/ x = 1%float) history ->
  r = 0%float \/ r = 1%float ->
  let pushed := history ++ [r] in
  let kept := if (MAX_DATA_POINTS <? List.length pushed)%nat then tl pushed else pushed in
  (List.length kept <= MAX_DATA_POINTS)%nat
  /\ Forall (fun x => x = 0%float \/ x = 1%float) kept.
Proof.
  intros Hlen Hall Hr pushed kept. subst pushed kept.
  assert (Hpushed : Forall (fun x => x = 0%float \/ x = 1%float) (history ++ [r]))
    by (apply Forall_app; split; [exact Hall | now constructor]).
  destruct (Nat.ltb_spec MAX_DATA_POINTS (List.length (history ++ [r]))) as [Hlt | Hle];
    rewrite ?tl_length, ?length_app in *; cbn [List.length] in *;
    unfold MAX_DATA_POINTS in *; split; try lia; auto using Forall_tl.
Qed.

Lemma chart_well vars :
  errorRate vars = 0%float \/ errorRate vars = 1%float ->
  preserves charted_well
    (fetchRealData_chart env vars (toFixed 2 ((1 - errorRate vars) * 100)%float)).
Proof.
  intros Hrate. apply preserves_intro.
  intros [c tt0 paused target history ts n aw s reads log] H.
  pose proof (history_windowed _ H) as h4. pose proof (history_rates _ H) as h5.
  fields.
  destruct (pushed_history history (errorRate vars) h4 h5 Hrate) as [Hlen Hall].
  cbv beta iota zeta delta
    [fetchRealData_chart read write ret bind set_errorRateHistory negb
     chartInstance testTimer isMonitoringPaused monitoredTarget errorRateHistory
     timers issued awaited sent clock_reads effects].
  destruct c as [ch|]; [|exact (preserves_after _ _ _ initializeChart_well H)].
  destruct paused; [exact H|].
  destruct (MAX_DATA_POINTS <? List.length (history ++ [errorRate vars]))%nat;
    cbv beta iota zeta delta
      [write ret set_errorRateHistory
       chartInstance testTimer isMonitoringPaused monitoredTarget errorRateHistory
       timers issued awaited sent clock_reads effects];
    (apply preserves_after;
     [ apply updateChart_well;
       destruct Hrate as [-> | ->]; [left | right]; vm_compute; reflexivity
     | constructor; fields; [exact (chart_plotted _ H) | assumption..] ]).
Qed.


Lemma logMessage_charted message type : keeps charted (logMessage env message type).
Proof. unfold logMessage. keeping_by fail. Qed.

Lemma pauseMonitoring_charted issue action :
  keeps charted (pauseMonitoring env issue action).
Proof.
  unfold pauseMonitoring, clearInterval.
  keeping_by ltac:(apply logMessage_charted).
Qed.

Lemma fetchRealData_charted : keeps charted (fetchRealData env).
Proof. unfold fetchRealData. keeping_by ltac:(apply logMessage_charted). Qed.

Lemma startMonitoring_charted i : keeps charted (startMonitoring env i).
Proof.
  unfold startMonitoring, clearInterval.
  keeping_by ltac:(apply fetchRealData_charted).
Qed.

Lemma showDashboard_charted u m : keeps charted (showDashboard env u m).
Proof. unfold showDashboard. keeping_by ltac:(apply logMessage_charted). Qed.

Lemma status_charted vars : keeps charted (fetchRealData_status env vars).
Proof. unfold fetchRealData_status, target_method, target_url. keeping_by fail. Qed.


Ltac charted_leaf :=
  idtac;
  lazymatch goal with
  | |- keeps charted (logMessage _ _ _) => apply logMessage_charted
  | |- keeps charted (pauseMonitoring _ _ _) => apply pauseMonitoring_charted
  | |- keeps charted (fetchRealData _) => apply fetchRealData_charted
  | |- keeps charted (startMonitoring _ _) => apply startMonitoring_charted
  | |- keeps charted (showDashboard _ _ _) => apply showDashboard_charted
  | |- keeps charted (fetchRealData_status _ _) => apply status_charted
  end.

Ltac well_leaf :=
  idtac;
  lazymatch goal with
  | |- preserves charted_well initializeChart => apply initializeChart_well
  | |- preserves charted_well clear_chart => apply clear_chart_well
  | |- preserves charted_well _ =>
      apply keeps_charted_well; first [ charted_leaf | solve [ intros []; reflexivity ] ]
  end.

Lemma update_well vars :
  errorRate vars = 0%float \/ errorRate vars = 1%float ->
  preserves charted_well (fetchRealData_update env vars).
Proof.
  intros Hrate. unfold fetchRealData_update.
  apply preserves_bind; [apply keeps_charted_well, status_charted|].
  intros [[[statusText statusClass] statusCodeDisplay] insightMessage].
  preserving_by
    ltac:(idtac;
          lazymatch goal with
          | |- preserves _ (fetchRealData_chart _ _ _) => apply (chart_well vars Hrate)
          | |- _ => well_leaf
          end).
Qed.

Lemma settled_well o : preserves charted_well (fetchRealData_settled env o).
Proof.
  apply preserves_intro. intros p H. unfold fetchRealData_settled, bind.
  destruct (try_summary o p) as (vars & p' & -> & Htry).
  apply preserves_after; [exact (update_well vars (try_rate _ _ _ Htry))|].
  exact (charted_well_charted _ _ (try_charted _ _ _ Htry) H).
Qed.

Lemma reset_history_well : preserves charted_well (write (set_errorRateHistory [])).
Proof.
  apply preserves_intro. intros [c tt0 paused target history ts n aw s reads log] H.
  constructor; cbn; [exact (chart_plotted _ H) | lia | constructor].
Qed.

Lemma handle_well ev : preserves charted_well (handle env ev).
Proof.
  destruct ev; cbn [handle].
  - unfold loaded, setTimeout. preserving_by well_leaf.
  - unfold due, run_task, clearInterval, setTimeout. preserving_by well_leaf.
  - unfold submit. preserving_by well_leaf.
  - unfold resetApp, clearInterval.
    preserving_by
      ltac:(idtac;
            lazymatch goal with
            | |- preserves _ (write (set_errorRateHistory [])) => apply reset_history_well
            | |- _ => well_leaf
            end).
  - unfold resumeMonitoring. preserving_by well_leaf.
  - unfold settle.
    preserving_by
      ltac:(idtac;
            lazymatch goal with
            | |- preserves _ (fetchRealData_settled _ _) => apply settled_well
            | |- _ => well_leaf
            end).
Qed.

Lemma initial_well : charted_well initial.
Proof. constructor; cbn; [discriminate | lia | constructor]. Qed.

(** ** The status 'SERVER ERROR' *)

Lemma keeps_unalarmed {A : Type} (m : M A) : keeps effects m -> preserves unalarmed m.
Proof.
  intros Hk p Hp. specialize (Hk p). unfold unalarmed in *.
  destruct (m p) as [[a | e] p']; cbn [snd] in Hk; now rewrite Hk.
Qed.

Lemma perform_unalarmed (e : effect) :
  e <> status_text "SERVER ERROR" -> preserves unalarmed (perform e).
Proof.
  intros He. apply preserves_intro. intros [c tt0 paused target history ts n aw s reads log] H.
  unfold unalarmed in *. cbn. intros Hin. apply in_app_or in Hin.
  destruct Hin as [Hin | [Hin | []]]; [exact (H Hin) | exact (He Hin)].
Qed.

Lemma fetch_unalarmed address body : preserves unalarmed (fetch address body).
Proof.
  apply preserves_intro. intros [c tt0 paused target history ts n aw s reads log] H.
  unfold unalarmed in *. cbn. intros Hin. apply in_app_or in Hin.
  destruct Hin as [Hin | [Hin | []]]; [exact (H Hin) | discriminate Hin].
Qed.

Ltac calm_leaf :=
  idtac;
  lazymatch goal with
  | |- preserves unalarmed (perform _) =>
      apply perform_unalarmed; unfold status_text;
      let H := fresh in intros H; first [ discriminate H | congruence ]
  | |- preserves unalarmed (fetch _ _) => apply fetch_unalarmed
  | |- preserves unalarmed _ => apply keeps_unalarmed; solve [ intros []; reflexivity ]
  end.

Lemma logMessage_unalarmed message type : preserves unalarmed (logMessage env message type).
Proof. unfold logMessage. preserving_by calm_leaf. Qed.

Ltac calm :=
  idtac;
  lazymatch goal with
  | |- preserves unalarmed (logMessage _ _ _) => apply logMessage_unalarmed
  | |- _ => calm_leaf
  end.

Lemma updateChart_unalarmed x : preserves unalarmed (updateChart env x).
Proof. unfold updateChart. preserving_by calm. Qed.

Lemma initializeChart_unalarmed : preserves unalarmed initializeChart.
Proof. unfold initializeChart. preserving_by calm. Qed.

Lemma chart_unalarmed vars up : preserves unalarmed (fetchRealData_chart env vars up).
Proof.
  unfold fetchRealData_chart.
  preserving_by
    ltac:(idtac;
          lazymatch goal with
          | |- preserves _ (updateChart _ _) => apply updateChart_unalarmed
          | |- preserves _ initializeChart => apply initializeChart_unalarmed
          | |- _ => calm
          end).
Qed.

(** The status part reads the page and leaves it as it is; after a
    failure it says that monitoring is paused. *)
Lemma status_says_paused vars p :
  (isBackendIssue vars = true -> isMonitoringPaused p = true) ->
  match fetchRealData_status env vars p with
  | (Normal (statusText, _, _, _), p') => p' = p /\ statusText <> "SERVER ERROR"%string
  | (Throw _, p') => p' = p
  end.
Proof.
  destruct p as [c tt0 paused target history ts n aw s reads log].
  destruct vars as [latency rate code insight failed]. cbn [isBackendIssue isMonitoringPaused].
  intros H. execute.
  all: try reflexivity; try (split; [reflexivity | discriminate]).
  all: try (specialize (H eq_refl); discriminate H).
Qed.

Lemma update_unalarmed vars p :
  (isBackendIssue vars = true -> isMonitoringPaused p = true) ->
  unalarmed p -> unalarmed (snd (fetchRealData_update env vars p)).
Proof.
  intros Hpaused H. unfold fetchRealData_update. unfold bind at 1.
  pose proof (status_says_paused vars p Hpaused) as Hstatus.
  destruct (fetchRealData_status env vars p) as [[shown | e] p'].
  - destruct shown as [[[statusText statusClass] statusCodeDisplay] insightMessage].
    destruct Hstatus as [-> Htext].
    apply (preserves_after unalarmed); [|exact H].
    preserving_by
      ltac:(idtac;
            lazymatch goal with
            | |- preserves _ (perform (SetTextContent "currentStatusText" _)) =>
                apply perform_unalarmed; unfold status_text; congruence
            | |- preserves _ (fetchRealData_chart _ _ _) => apply chart_unalarmed
            | |- _ => calm
            end).
  - now subst p'.
Qed.

Lemma settled_unalarmed o : preserves unalarmed (fetchRealData_settled env o).
Proof.
  apply preserves_intro. intros p H. unfold fetchRealData_settled, bind.
  destruct (try_summary o p) as (vars & p' & -> & Htry).
  apply update_unalarmed.
  - intros Hfailed. exact (proj1 (try_failed _ _ _ Htry Hfailed)).
  - intros Hin. exact (H (try_status _ _ _ Htry _ Hin)).
Qed.

Lemma handle_unalarmed ev : preserves unalarmed (handle env ev).
Proof.
  destruct ev; cbn [handle].
  - unfold loaded, initializeChart, setTimeout. preserving_by calm.
  - unfold due, run_task, fetchRealData, clearInterval, setTimeout. preserving_by calm.
  - unfold submit, showDashboard, clear_chart, startMonitoring, fetchRealData,
      clearInterval, setInterval.
    preserving_by calm.
  - unfold resetApp, clear_chart, clearInterval. preserving_by calm.
  - unfold resumeMonitoring, startMonitoring, fetchRealData, clearInterval, setInterval.
    preserving_by calm.
  - unfold settle.
    preserving_by
      ltac:(idtac;
            lazymatch goal with
            | |- preserves _ (fetchRealData_settled _ _) => apply settled_unalarmed
            | |- _ => calm
            end).
Qed.

Lemma initial_unalarmed : unalarmed initial.
Proof. intros []. Qed.

(** ** An answer that comes after a restart *)

Lemma perform_traffic (e : effect) :
  match e with Post _ _ => False | _ => True end -> keeps traffic (perform e).
Proof.
  intros He [c tt0 paused target history ts n aw s reads log].
  unfold traffic. cbn. rewrite posts_app.
  destruct e; try contradiction; cbn; now rewrite app_nil_r.
Qed.

Ltac quiet_leaf :=
  idtac;
  lazymatch goal with
  | |- keeps _ (perform _) => apply perform_traffic; exact I
  end.

Lemma update_traffic vars : keeps traffic (fetchRealData_update env vars).
Proof.
  unfold fetchRealData_update, fetchRealData_status, fetchRealData_chart, updateChart,
    initializeChart, target_method, target_url, logMessage.
  keeping_by quiet_leaf.
Qed.

Lemma late_settled o p :
  monitoredTarget p = None ->
  isMonitoringPaused (snd (fetchRealData_settled env o p)) = true
  /\ traffic (snd (fetchRealData_settled env o p)) = traffic p.
Proof.
  intros Hnone. unfold fetchRealData_settled, bind.
  destruct (try_summary o p) as (vars & p' & -> & Htry).
  assert (Hfailed : isBackendIssue vars = true).
  { destruct (isBackendIssue vars) eqn:Hb; [reflexivity|].
    destruct (try_passed _ _ _ Htry Hb) as (_ & (t & Ht) & _). congruence. }
  pose proof (update_controls vars p') as Hc. pose proof (update_traffic vars p') as Ht.
  split.
  - unfold controls in Hc. injection Hc as _ Hc _ _ _ . rewrite Hc.
    exact (proj1 (try_failed _ _ _ Htry Hfailed)).
  - rewrite Ht. exact (try_traffic _ _ _ Htry).
Qed.

Lemma submit_paused u m p :
  isMonitoringPaused p = true ->
  isMonitoringPaused (snd (submit env u m p)) = true
  /\ traffic (snd (submit env u m p)) = traffic p
  /\ monitoredTarget (snd (submit env u m p)) = Some (mkTarget u m 5000).
Proof.
  destruct p as [c tt0 paused target history ts n aw s reads log].
  cbn [isMonitoringPaused]. intros ->.
  execute.
  all: unfold traffic; cbn [isMonitoringPaused monitoredTarget awaited sent effects].
  all: rewrite ?posts_app; cbn [posts]; rewrite ?app_nil_r.
  all: repeat split; reflexivity.
Qed.

Lemma filter_swap {A : Type} (f g : A -> bool) (l : list A) :
  filter f (filter g l) = filter g (filter f l).
Proof.
  induction l as [|x l IH]; [reflexivity|].
  cbn. destruct (f x) eqn:Hf, (g x) eqn:Hg; cbn; rewrite ?Hf, ?Hg, IH; reflexivity.
Qed.

Lemma resume_paused p t :
  isMonitoringPaused p = true -> monitoredTarget p = Some t ->
  filter polling (timers p) = [] ->
  isMonitoringPaused (snd (resumeMonitoring env p)) = false
  /\ posts (effects (snd (resumeMonitoring env p)))
     = (posts (effects p)
         ++ [(BACKEND_API_ENDPOINT, VObj [ ("url", VStr (url t)); ("method", VStr (method t)) ])])%list
  /\ filter polling (timers (snd (resumeMonitoring env p)))
     = [mkTimer (S (issued p)) true FetchRealData (interval t)].
Proof.
  destruct p as [c tt0 paused target history ts n aw s reads log].
  cbn [isMonitoringPaused monitoredTarget timers issued effects]. intros -> -> Hidle.
  execute.
  all: cbn [isMonitoringPaused timers effects].
  all: rewrite ?posts_app; cbn [posts]; rewrite ?app_nil_r.
  all: rewrite ?filter_app, ?(filter_swap polling), ?Hidle; cbn [filter polling callback app].
  all: repeat split; reflexivity.
Qed.
End Script.

(** X11. Whatever happens to the page (load, submissions, clicks on
    restart and resume, timers coming due, requests settling with any
    outcome, in any order), at most one timer polls, namely the interval
    [testTimer] names, with the period of 5000 ms; and none does while
    monitoring is paused or has no target. *)
Theorem at_most_one_poller :
  forall (env : window) (evs : list event),
    let p := after env evs initial in
    (List.length (filter polling (timers p)) <= 1)%nat
    /\ (forall t, In t (timers p) -> polling t = true ->
                  testTimer p = Some (timer_id t)
                  /\ repeats t = true /\ period t = 5000%Z)
    /\ (isMonitoringPaused p = true \/ monitoredTarget p = None ->
        filter polling (timers p) = []).
Proof.
  intros env evs p.
  assert (H : disciplined p)
    by (apply after_invariant; [apply handle_disciplined | apply initial_disciplined]).
  split; [|split].
  - destruct (testTimer p) as [id|] eqn:E.
    + apply one_poller with (id := id); [exact (ids_differ _ H)|].
      intros t Hin Hp. destruct (polling_is_testTimer _ H t Hin Hp) as (Ht & _).
      congruence.
    + rewrite no_poller; [cbn; lia|].
      intros t Hin. destruct (polling t) eqn:Hp; [|reflexivity].
      destruct (polling_is_testTimer _ H t Hin Hp) as (Ht & _). congruence.
  - exact (polling_is_testTimer _ H).
  - intros [Hp | Ht]; apply no_poller.
    + exact (paused_is_idle _ H Hp).
    + exact (no_target_is_idle _ H Ht).
Qed.

(** X12. Whatever happens to the page, its chart has a label for every
    point and at most 60 points, each of them 0 or 100 (the uptime of one
    check), and [errorRateHistory] holds at most 60 rates, each 0 or 1: the
    oldest point leaves when the sixty-first arrives. *)
Theorem chart_stays_in_its_window :
  forall (env : window) (evs : list event),
    let p := after env evs initial in
    (forall c, chartInstance p = Some c ->
               List.length (labels c) = List.length (dataset c)
               /\ (List.length (dataset c) <= 60)%nat
               /\ Forall (fun x => x = 0%float \/ x = 100%float) (dataset c))
    /\ (List.length (errorRateHistory p) <= 60)%nat
    /\ Forall (fun x => x = 0%float \/ x = 1%float) (errorRateHistory p).
Proof.
  intros env evs p.
  assert (H : charted_well p)
    by (apply after_invariant; [apply handle_well | apply initial_well]).
  split; [|split].
  - intros c Hc. destruct (chart_plotted _ H c Hc) as [h1 h2 h3]. auto.
  - exact (history_windowed _ H).
  - exact (history_rates _ H).
Qed.

(** X13. Whatever happens to the page, the status 'SERVER ERROR' is never
    written to [currentStatusText]: every path of [fetchRealData] that sets
    [isBackendIssue] has called [pauseMonitoring] first, so the status shown
    after a failure is 'MONITORING PAUSED'. *)
Theorem server_error_is_never_shown :
  forall (env : window) (evs : list event),
    ~ In (SetTextContent "currentStatusText" "SERVER ERROR")
         (effects (after env evs initial)).
Proof.
  intros env evs.
  exact (after_invariant env unalarmed (handle_unalarmed env) evs initial (initial_unalarmed)).
Qed.

(** X14. An answer that arrives after a restart pauses the page.  Once
    [resetApp] has cleared [monitoredTarget], the request that was still
    awaited settles, with whatever outcome, in the [catch] of
    [fetchRealData] or in its backend-error branch, and [pauseMonitoring]
    sets [isMonitoringPaused]; no request leaves.  The submission that
    follows records its target, but [startMonitoring] returns at once: no
    request leaves and no timer polls.  Only a click on resume sends the
    request for the new target and starts the one interval. *)
Theorem late_answer_blocks_the_next_submission :
  forall (env : window) (evs : list event) (k : nat) (o : outcome) (u m : string),
    let p := after env evs initial in
    let q := after env [Settled k o] p in
    let r := after env [Submit u m] q in
    let s := after env [ClickResume] r in
    monitoredTarget p = None -> In k (awaited p) ->
    isMonitoringPaused q = true
    /\ posts (effects q) = posts (effects p)
    /\ monitoredTarget r = Some (mkTarget u m 5000)
    /\ isMonitoringPaused r = true
    /\ posts (effects r) = posts (effects p)
    /\ filter polling (timers r) = []
    /\ isMonitoringPaused s = false
    /\ posts (effects s)
       = (posts (effects p)
            ++ [("/api/check", VObj [ ("url", VStr u); ("method", VStr m) ])])%list
    /\ filter polling (timers s) = [mkTimer (S (issued r)) true FetchRealData 5000].
Proof.
  intros env evs k o u m p q r s Hnone Hk.
  assert (Hq : isMonitoringPaused q = true /\ posts (effects q) = posts (effects p)).
  { subst q. cbn [after fold_left handle]. unfold settle, bind, read.
    cbn [fst snd].
    destruct (existsb (Nat.eqb k) (awaited p)) eqn:Hex.
    - unfold write at 1. cbn [fst snd].
      match goal with
      | |- context [fetchRealData_settled env o ?p1] =>
          destruct (late_settled env o p1 Hnone) as (Hpaused & Htraffic)
      end.
      split; [exact Hpaused|].
      unfold traffic in Htraffic. now injection Htraffic.
    - exfalso. apply Bool.not_true_iff_false in Hex. apply Hex.
      apply existsb_exists. exists k. split; [exact Hk | apply Nat.eqb_refl]. }
  destruct Hq as (Hpaused & Hposts).
  destruct (submit_paused env u m q Hpaused) as (Hstill & Htraffic & Htarget).
  change (snd (submit env u m q)) with r in Hstill, Htraffic, Htarget.
  assert (Hsame : posts (effects r) = posts (effects p)).
  { unfold traffic in Htraffic. injection Htraffic as _ _ ->. exact Hposts. }
  assert (Hidle : filter polling (timers r) = []).
  { apply no_poller.
    assert (H : disciplined r).
    { subst r q p. unfold after. rewrite <- !fold_left_app.
      apply (after_invariant env disciplined (handle_disciplined env)).
      apply initial_disciplined. }
    exact (paused_is_idle _ H Hstill). }
  destruct (resume_paused env r _ Hstill Htarget Hidle) as (Hresumed & Hsent & Hpoller).
  change (snd (resumeMonitoring env r)) with s in Hresumed, Hsent, Hpoller.
  rewrite Hsame in Hsent.
  repeat split; assumption.
Qed.

Lemma late_answer_blocks_the_next_submission_witness :
  let env := still_window in
  let p := after env [DOMContentLoaded; Submit "https://example.com" "http"; ClickRestart]
             initial in
  let q := after env
             [Settled 0 (Responded 200
                           (Normal (VObj [ ("isUp", VBool true); ("latency", VNum 120);
                                           ("statusCode", VNum 200) ])))] p in
  let r := after env [Submit "https://example.org" "ping"] q in
  let s := after env [ClickResume] r in
  isMonitoringPaused q = true
  /\ posts (effects q) = posts (effects p)
  /\ monitoredTarget r = Some (mkTarget "https://example.org" "ping" 5000)
  /\ isMonitoringPaused r = true
  /\ posts (effects r) = posts (effects p)
  /\ filter polling (timers r) = []
  /\ isMonitoringPaused s = false
  /\ posts (effects s)
     = (posts (effects p)
          ++ [("/api/check",
               VObj [ ("url", VStr "https://example.org"); ("method", VStr "ping") ])])%list
  /\ filter polling (timers s) = [mkTimer (S (issued r)) true FetchRealData 5000].
Proof.
  apply (late_answer_blocks_the_next_submission still_window
           [DOMContentLoaded; Submit "https://example.com" "http"; ClickRestart] 0).
  - vm_compute. reflexivity.
  - vm_compute. left. reflexivity.
Defined.

End PageFacts.
